(** * Dashboard Tesis Pro: data validation and inferential statistics

    A shallow embedding of the two analysis modules of the dashboard,
    [data_validation.py] (class [DataValidator]) and
    [statistical_analysis.py] (class [StatisticalAnalysis]), followed by
    the properties of their behaviour.

    Python objects are modelled as follows.
    - [float] is IEEE binary64, the primitive floats of the kernel, so that
      comparisons with NaN and divisions by zero behave as in numpy.
    - Python [int] is [Z].
    - A dict is an association list in insertion order.
    - Control flow ([raise], [return], falling through) is a small monad over
      the state of the object ([self]).
    - The numerical libraries (pandas reductions, scipy.stats, statsmodels,
      scikit-learn) and the float formatting of f-strings are fields of a
      record [PyLib] that the operations take as a parameter.
    - Text is a string of 8-bit characters; the character classes of the
      regular expressions are the ASCII ones. *)

From Stdlib Require Import ZArith List String Ascii Bool Lia Floats Uint63 DecimalString.
Import ListNotations.

#[local] Set Warnings "-inexact-float,-register-all".
#[local] Open Scope string_scope.
#[local] Open Scope Z_scope.

(** ** Python values *)

Module Py.

(** Exceptions, with the text [str(e)] gives. *)
Inductive exn :=
| KeyError (key : string)
| ZeroDivisionError
| ValueError (msg : string)
| TypeError (msg : string)
| AttributeError (msg : string)
| LibraryError (msg : string).

Definition str_exn (e : exn) : string :=
  match e with
  | KeyError key => "'" ++ key ++ "'"
  | ZeroDivisionError => "division by zero"
  | ValueError msg => msg
  | TypeError msg => msg
  | AttributeError msg => msg
  | LibraryError msg => msg
  end.

(** Hashable scalars: the cells of a table and the keys of a dict. *)
Inductive scalar :=
| SNum (x : float)
| SStr (s : string)
| SBool (b : bool).

Inductive pyval :=
| PNone
| PBool (b : bool)
| PInt (z : Z)
| PFloat (x : float)
| PStr (s : string)
| PList (l : list pyval)
| PTuple (l : list pyval)
| PDict (d : list (scalar * pyval)).

Definition pydict := list (scalar * pyval).

Definition scalar_eqb (a b : scalar) : bool :=
  match a, b with
  | SNum x, SNum y => PrimFloat.eqb x y
  | SStr s, SStr t => String.eqb s t
  | SBool x, SBool y => Bool.eqb x y
  | _, _ => false
  end.

Definition pyval_of_scalar (a : scalar) : pyval :=
  match a with
  | SNum x => PFloat x
  | SStr s => PStr s
  | SBool b => PBool b
  end.

(** [d[k]], [k in d] and [d[k] = v] on insertion-ordered dicts. *)
Fixpoint dict_get (k : scalar) (d : pydict) : option pyval :=
  match d with
  | [] => None
  | (k', v) :: d' => if scalar_eqb k' k then Some v else dict_get k d'
  end.

Definition dict_has (k : scalar) (d : pydict) : bool :=
  match dict_get k d with Some _ => true | None => false end.

Fixpoint dict_set (k : scalar) (v : pyval) (d : pydict) : pydict :=
  match d with
  | [] => [(k, v)]
  | (k', v') :: d' =>
      if scalar_eqb k' k then (k', v) :: d' else (k', v') :: dict_set k v d'
  end.

(** [dict(zip(keys, values))]. *)
Fixpoint dict_zip (keys : list scalar) (values : list pyval) (d : pydict) : pydict :=
  match keys, values with
  | k :: keys', v :: values' => dict_zip keys' values' (dict_set k v d)
  | _, _ => d
  end.

(** Integers and floats. *)
Definition len {A} (l : list A) : Z := Z.of_nat (List.length l).

Definition float_of_Z (z : Z) : float :=
  if z <? 0 then PrimFloat.opp (PrimFloat.of_uint63 (Uint63.of_Z (- z)))
  else PrimFloat.of_uint63 (Uint63.of_Z z).

(** [a / b] on two Python ints. *)
Definition truediv (a b : Z) : exn + float :=
  if b =? 0 then inl ZeroDivisionError
  else inr (PrimFloat.div (float_of_Z a) (float_of_Z b)).

(** [a / b] when one operand is a numpy scalar: IEEE, never raises. *)
Definition np_div (a b : float) : float := PrimFloat.div a b.

Definition str_int (z : Z) : string := NilZero.string_of_int (Z.to_int z).

(** Characters. *)
Definition code (c : ascii) : N := N_of_ascii c.

Definition is_digit (c : ascii) : bool := (48 <=? code c)%N && (code c <=? 57)%N.
Definition is_upper (c : ascii) : bool := (65 <=? code c)%N && (code c <=? 90)%N.
Definition is_lower (c : ascii) : bool := (97 <=? code c)%N && (code c <=? 122)%N.
Definition is_space (c : ascii) : bool :=
  ((9 <=? code c)%N && (code c <=? 13)%N) || ((28 <=? code c)%N && (code c <=? 32)%N).
Definition is_word (c : ascii) : bool :=
  is_digit c || is_upper c || is_lower c || Ascii.eqb c "_".

Definition to_lower (c : ascii) : ascii :=
  if is_upper c then ascii_of_N (code c + 32) else c.
Definition to_upper (c : ascii) : ascii :=
  if is_lower c then ascii_of_N (code c - 32) else c.

Fixpoint string_map (f : ascii -> ascii) (s : string) : string :=
  match s with
  | EmptyString => EmptyString
  | String c s' => String (f c) (string_map f s')
  end.

(** [s.replace(old, new)] for a one-character [old]. *)
Fixpoint replace_char (old : ascii) (new : string) (s : string) : string :=
  match s with
  | EmptyString => EmptyString
  | String c s' =>
      if Ascii.eqb c old then new ++ replace_char old new s'
      else String c (replace_char old new s')
  end.

Fixpoint lstrip (s : string) : string :=
  match s with
  | String c s' => if is_space c then lstrip s' else s
  | EmptyString => EmptyString
  end.

Fixpoint rstrip (s : string) : string :=
  match s with
  | EmptyString => EmptyString
  | String c s' =>
      match rstrip s' with
      | EmptyString => if is_space c then EmptyString else String c EmptyString
      | t => String c t
      end
  end.

Definition strip (s : string) : string := lstrip (rstrip s).

(** [s.capitalize()]. *)
Definition capitalize (s : string) : string :=
  match s with
  | EmptyString => EmptyString
  | String c s' => String (to_upper c) (string_map to_lower s')
  end.

Fixpoint string_exists (p : ascii -> bool) (s : string) : bool :=
  match s with
  | EmptyString => false
  | String c s' => p c || string_exists p s'
  end.



(** *** The grammar of [float(s)]

    [float] strips surrounding whitespace and accepts an optional sign
    followed by [inf], [infinity] or [nan] in any case, or by a decimal
    number: digits with single underscores between them, an optional
    point, an optional exponent.  This is the grammar on ASCII text; in a
    text with other characters [float] also takes the decimal digits and
    the spaces of Unicode, which are not modelled. *)

Fixpoint digitpart_tail (s : string) : string :=
  match s with
  | String c s' =>
      if is_digit c then digitpart_tail s'
      else if Ascii.eqb c "_" then
        match s' with
        | String d s'' => if is_digit d then digitpart_tail s'' else s
        | EmptyString => s
        end
      else s
  | EmptyString => s
  end.

(** Consumes one [digitpart]; [None] when [s] does not start with a digit. *)
Definition digitpart (s : string) : option string :=
  match s with
  | String c s' => if is_digit c then Some (digitpart_tail s') else None
  | EmptyString => None
  end.

Definition skip_sign (s : string) : string :=
  match s with
  | String c s' => if Ascii.eqb c "+" || Ascii.eqb c "-" then s' else s
  | EmptyString => s
  end.

Definition exponent_ok (s : string) : bool :=
  match s with
  | EmptyString => true
  | String c s' =>
      if Ascii.eqb c "e" || Ascii.eqb c "E" then
        match digitpart (skip_sign s') with
        | Some EmptyString => true
        | _ => false
        end
      else false
  end.

Definition number_ok (s : string) : bool :=
  match digitpart s with
  | Some (String c s') =>
      if Ascii.eqb c "." then
        match digitpart s' with
        | Some rest => exponent_ok rest
        | None => exponent_ok s'
        end
      else exponent_ok (String c s')
  | Some EmptyString => true
  | None =>
      match s with
      | String c s' =>
          if Ascii.eqb c "." then
            match digitpart s' with
            | Some rest => exponent_ok rest
            | None => false
            end
          else false
      | EmptyString => false
      end
  end.

(** The whitespace [float] strips: that of C's [isspace], a space, a tab,
    a line feed, a vertical tab, a form feed or a carriage return, and not
    the separators 28 to 31 that [str.strip] removes. *)
Definition is_float_space (c : ascii) : bool :=
  ((9 <=? code c)%N && (code c <=? 13)%N) || (code c =? 32)%N.

Fixpoint float_lstrip (s : string) : string :=
  match s with
  | String c s' => if is_float_space c then float_lstrip s' else s
  | EmptyString => EmptyString
  end.

Fixpoint float_rstrip (s : string) : string :=
  match s with
  | EmptyString => EmptyString
  | String c s' =>
      match float_rstrip s' with
      | EmptyString => if is_float_space c then EmptyString else String c EmptyString
      | t => String c t
      end
  end.

Definition float_strip (s : string) : string := float_lstrip (float_rstrip s).

Definition float_syntax (s : string) : bool :=
  let body := skip_sign (float_strip s) in
  let low := string_map to_lower body in
  String.eqb low "inf" || String.eqb low "infinity" || String.eqb low "nan"
  || number_ok body.

(** [float(s)]: only whether it raises matters to the callers, which
    discard the value. *)
Definition float_of_str (s : string) : exn + unit :=
  if float_syntax s then inr tt
  else inl (ValueError ("could not convert string to float: '" ++ s ++ "'")).

End Py.
Export Py.

Coercion SStr : string >-> scalar.

Example float_syntax_accepts :
  map float_syntax ["12.5"; " 7 "; "-.5e-3"; "1_000"; "5."; "Infinity"; "nan"]
  = [true; true; true; true; true; true; true].
Proof. reflexivity. Qed.

Example float_syntax_rejects :
  map float_syntax ["12,5"; "1.5.2"; "1__0"; "."; "e5"; "1e"; ""; "x"]
  = [false; false; false; false; false; false; false; false].
Proof. reflexivity. Qed.

(** The separator 28 is stripped by [str.strip] and refused by [float]. *)
Example float_keeps_the_separators :
  let s := String "028" "1" in strip s = "1" /\ float_syntax s = false.
Proof. split; reflexivity. Qed.


(** ** Control flow

    A method body runs over the state [S] of its object.  A statement
    either raises, returns from the method with a value in [R], or falls
    through to the next statement with a value in [A]. *)

Module Flow.

Inductive outcome (R A : Type) :=
| Raise (e : exn)
| Return (r : R)
| Next (a : A).
Arguments Raise {R A} e.
Arguments Return {R A} r.
Arguments Next {R A} a.

Definition exec (S R A : Type) := S -> outcome R A * S.

(** What the caller of a method sees. *)
Inductive returned (R : Type) :=
| Raised (e : exn)
| Returned (r : R).
Arguments Raised {R} e.
Arguments Returned {R} r.

Section Monad.
Context {S R : Type}.

Definition ret {A} (a : A) : exec S R A := fun s => (Next a, s).

Definition bind {A B} (c : exec S R A) (k : A -> exec S R B) : exec S R B :=
    fun s =>
      match c s with
      | (Next a, s') => k a s'
      | (Raise e, s') => (Raise e, s')
      | (Return r, s') => (Return r, s')
      end.

Definition raise {A} (e : exn) : exec S R A := fun s => (Raise e, s).

  (** [return r] *)
Definition return_ {A} (r : R) : exec S R A := fun s => (Return r, s).

  (** An expression that may raise. *)
Definition eval {A} (x : exn + A) : exec S R A :=
    fun s => match x with inl e => (Raise e, s) | inr a => (Next a, s) end.

Definition gets {A} (f : S -> A) : exec S R A := fun s => (Next (f s), s).

Definition modify (f : S -> S) : exec S R unit := fun s => (Next tt, f s).

  (** [try: body except Exception as e: handler(e)]: whatever [body] did to
      the state before it raised stays done. *)
Definition try_except {A} (body : exec S R A) (handler : exn -> exec S R A)
    : exec S R A :=
    fun s =>
      match body s with
      | (Raise e, s') => handler e s'
      | other => other
      end.

  (** [for x in l: body(x)] *)
Fixpoint for_each {X} (l : list X) (body : X -> exec S R unit) : exec S R unit :=
    match l with
    | [] => ret tt
    | x :: l' => bind (body x) (fun _ => for_each l' body)
    end.

  (** A loop that updates local variables [acc]. *)
Fixpoint for_fold {X Acc} (l : list X) (acc : Acc)
           (body : Acc -> X -> exec S R Acc) : exec S R Acc :=
    match l with
    | [] => ret acc
    | x :: l' => bind (body acc x) (fun acc' => for_fold l' acc' body)
    end.

  (** The method boundary: a body that falls through returns its last value. *)
Definition call (body : exec S R R) (s : S) : returned R * S :=
    match body s with
    | (Raise e, s') => (Raised e, s')
    | (Return r, s') => (Returned r, s')
    | (Next r, s') => (Returned r, s')
    end.
End Monad.

(** Calling a method of the same object from inside a body. *)
Definition invoke {S R R'} (m : S -> returned R' * S) : exec S R R' :=
  fun s =>
    match m s with
    | (Raised e, s') => (Raise e, s')
    | (Returned r, s') => (Next r, s')
    end.

End Flow.
Export Flow.

Declare Scope flow_scope.
Delimit Scope flow_scope with flow.
Notation "x <- c1 ;; c2" := (bind c1 (fun x => c2))
  (at level 61, c1 at next level, right associativity) : flow_scope.
Notation "' pat <- c1 ;; c2" := (bind c1 (fun x => match x with pat => c2 end))
  (at level 61, pat pattern, c1 at next level, right associativity) : flow_scope.
Notation "c1 ;; c2" := (bind c1 (fun _ => c2))
  (at level 61, right associativity) : flow_scope.
#[local] Open Scope flow_scope.

(** ** Tables *)

Module Pandas.

(** A cell is a scalar or missing ([None], [NaT]); a float NaN is missing too. *)
Definition cell := option scalar.

Definition isna (c : cell) : bool :=
  match c with
  | None => true
  | Some (SNum x) => PrimFloat.is_nan x
  | Some _ => false
  end.

Record Series := {
  name : string;
  dtype : string;          (* [str(series.dtype)] *)
  values : list cell
}.

Record DataFrame := {
  n_rows : Z;              (* [len(df)], the length of the index *)
  columns : list Series
}.

(** Every column is as long as the index. *)
Definition well_formed (df : DataFrame) : Prop :=
  Forall (fun c => len (values c) = n_rows df) (columns df).

Definition empty (df : DataFrame) : bool :=
  (n_rows df =? 0) || (len (columns df) =? 0).

(** [series.dropna()], scalars only. *)
Fixpoint present (l : list cell) : list scalar :=
  match l with
  | [] => []
  | c :: l' =>
      if isna c then present l'
      else match c with Some a => a :: present l' | None => present l' end
  end.

Definition dropna (s : Series) : list scalar := present (values s).

Definition head {A} (n : nat) (l : list A) : list A := firstn n l.

(** [series.count()] and [series.isnull().sum()]. *)
Definition count (s : Series) : Z := len (dropna s).
Definition isnull_sum (s : Series) : Z := len (filter isna (values s)).

(** Two cells are the same value for [unique] and [duplicated]: missing
    values are one value. *)
Definition cell_same (a b : cell) : bool :=
  if isna a then isna b
  else if isna b then false
  else match a, b with
       | Some x, Some y => scalar_eqb x y
       | _, _ => false
       end.

(** Distinct elements in order of first appearance. *)
Fixpoint distinct {A} (same : A -> A -> bool) (seen : list A) (l : list A) : list A :=
  match l with
  | [] => []
  | x :: l' =>
      if existsb (same x) seen then distinct same seen l'
      else x :: distinct same (x :: seen) l'
  end.

(** Two cells are the same value for [unique] on an object column: there
    [None] and NaN are two values, each equal to itself. *)
Definition object_same (a b : cell) : bool :=
  match a, b with
  | None, None => true
  | Some x, Some y =>
      if isna a then isna b
      else if isna b then false
      else scalar_eqb x y
  | _, _ => false
  end.

(** [series.unique()]: a missing value is one of the distinct values.  An
    object column keeps [None] and NaN apart; a column of another dtype has
    one missing value only. *)
Definition unique (s : Series) : list cell :=
  distinct (if String.eqb (dtype s) "object" then object_same else cell_same)
           [] (values s).

(** [series.nunique()]: missing values are not counted. *)
Definition nunique (s : Series) : Z := len (distinct scalar_eqb [] (dropna s)).

(** [series == v], elementwise: a missing value equals nothing. *)
Definition eq_mask (s : Series) (v : cell) : list bool :=
  map (fun c => match c, v with
                | Some a, Some b => negb (isna c || isna v) && scalar_eqb a b
                | _, _ => false
                end) (values s).

Fixpoint select {A} (mask : list bool) (l : list A) : list A :=
  match mask, l with
  | b :: mask', x :: l' => if b then x :: select mask' l' else select mask' l'
  | _, _ => []
  end.

(** [df[mask]] *)
Definition where_ (df : DataFrame) (mask : list bool) : DataFrame :=
  {| n_rows := len (filter (fun b => b) (firstn (Z.to_nat (n_rows df)) mask));
     columns := map (fun c => {| name := name c; dtype := dtype c;
                                 values := select mask (values c) |}) (columns df) |}.

(** [df[column]] *)
Fixpoint find_column (key : string) (cols : list Series) : option Series :=
  match cols with
  | [] => None
  | c :: cols' => if String.eqb (name c) key then Some c else find_column key cols'
  end.

Definition getitem (df : DataFrame) (key : string) : exn + Series :=
  match find_column key (columns df) with
  | Some c => inr c
  | None => inl (KeyError key)
  end.

(** [df[[k1, ..., kn]]]; pandas words the [KeyError] of a list of keys
    differently, which only shows in the text of an error. *)
Fixpoint getitems_cols (df : DataFrame) (keys : list string) : exn + list Series :=
  match keys with
  | [] => inr []
  | k :: keys' =>
      match getitem df k with
      | inl e => inl e
      | inr c =>
          match getitems_cols df keys' with
          | inl e => inl e
          | inr cs => inr (c :: cs)
          end
      end
  end.

Definition getitems (df : DataFrame) (keys : list string) : exn + DataFrame :=
  match getitems_cols df keys with
  | inl e => inl e
  | inr cs => inr {| n_rows := n_rows df; columns := cs |}
  end.

(** The rows of a table, each a list of cells in column order. *)
Definition row (df : DataFrame) (i : nat) : list cell :=
  map (fun c => nth i (values c) None) (columns df).

Definition rows (df : DataFrame) : list (list cell) :=
  map (row df) (seq 0 (Z.to_nat (n_rows df))).

(** [df.dropna()]: the rows without a missing cell. *)
Definition complete_mask (df : DataFrame) : list bool :=
  map (fun r => negb (existsb isna r)) (rows df).

Definition dropna_rows (df : DataFrame) : DataFrame := where_ df (complete_mask df).

Fixpoint row_same (r1 r2 : list cell) : bool :=
  match r1, r2 with
  | [], [] => true
  | a :: r1', b :: r2' => cell_same a b && row_same r1' r2'
  | _, _ => false
  end.

(** [df.duplicated().sum()]: the rows equal to an earlier row.  On an empty
    table, without rows or without columns, [duplicated] marks nothing. *)
Definition duplicated_sum (df : DataFrame) : Z :=
  if empty df then 0
  else len (rows df) - len (distinct row_same [] (rows df)).

(** [df.select_dtypes(include=[np.number]).columns] *)
Definition is_number_dtype (d : string) : bool :=
  existsb (String.eqb d)
    ["int8"; "int16"; "int32"; "int64"; "uint8"; "uint16"; "uint32"; "uint64";
     "float16"; "float32"; "float64"; "complex64"; "complex128"].

Definition numeric_columns (df : DataFrame) : list Series :=
  filter (fun c => is_number_dtype (dtype c)) (columns df).

End Pandas.
Export Pandas.

(** ** The libraries

    What the modules import and do not define: float formatting, pandas
    reductions, scipy.stats, statsmodels and scikit-learn.  A call that can
    raise returns [exn + _]. *)

Module Lib.

(** [pd.crosstab(a, b)] *)
Record Crosstab := {
  ct_index : list scalar;
  ct_columns : list scalar;
  ct_counts : list (list Z)          (* one list per row label *)
}.

(** The fitted model of [sm.OLS(y, X).fit()] with what the caller reads. *)
Record OLSResults := {
  rsquared : float;
  rsquared_adj : float;
  fvalue : float;
  f_pvalue : float;
  params : list float;
  pvalues : list float;
  conf_int : list (list float);
  summary : string;
  predict : list float
}.

(** [StandardScaler] and [KMeans] fitted on the rows: the label of each row,
    the centres mapped back by [inverse_transform], the inertia. *)
Record KMeansFit := {
  labels_ : list Z;
  centroids : list (list float);
  inertia_ : float
}.

Record PyLib := {
  (* [format(x, spec)]; [spec = ""] is [str(x)] *)
  format_float : string -> float -> string;
  (* [df.memory_usage(deep=True).sum()] *)
  memory_usage : DataFrame -> Z;
  (* reductions of a series without its missing values *)
  quantile : list scalar -> float -> float;
  mean : list scalar -> exn + float;
  std : list scalar -> exn + float;
  min : list scalar -> exn + float;
  max : list scalar -> exn + float;
  (* scipy.stats *)
  ttest_1samp : list scalar -> float -> exn + (float * float);
  t_interval : float -> Z -> float -> float -> exn + (float * float);
  ttest_ind : list scalar -> list scalar -> bool -> exn + (float * float);
  f_oneway : list (list scalar) -> exn + (float * float);
  crosstab : Series -> Series -> exn + Crosstab;
  chi2_contingency : Crosstab -> exn + (float * float * Z * list (list float));
  pearsonr : list scalar -> list scalar -> exn + (float * float);
  spearmanr : list scalar -> list scalar -> exn + (float * float);
  kendalltau : list scalar -> list scalar -> exn + (float * float);
  (* statsmodels, sklearn *)
  ols_fit : list scalar -> list Series -> exn + OLSResults;
  mean_squared_error : list scalar -> list float -> exn + float;
  kmeans_fit : DataFrame -> Z -> Z -> exn + KMeansFit
}.

End Lib.
Export Lib.

(** [str(value)] of a cell value. *)
Definition str_scalar (L : PyLib) (a : scalar) : string :=
  match a with
  | SStr s => s
  | SNum x => format_float L "" x
  | SBool true => "True"
  | SBool false => "False"
  end.

(** The number a cell value stands for in arithmetic. *)
Definition as_float (a : scalar) : exn + float :=
  match a with
  | SNum x => inr x
  | SBool true => inr PrimFloat.one
  | SBool false => inr PrimFloat.zero
  | SStr _ => inl (TypeError "unsupported operand type(s) for -: 'str' and 'float'")
  end.

(** The value of a cell of a numeric column. *)
Definition number (a : scalar) : float :=
  match as_float a with inr x => x | inl _ => PrimFloat.nan end.

(** [f"{n:,}"] *)
Fixpoint group3 (rev_digits : list ascii) : list ascii :=
  match rev_digits with
  | a :: b :: c :: ((_ :: _) as more) => a :: b :: c :: ","%char :: group3 more
  | short => short
  end.

Definition str_int_comma (z : Z) : string :=
  let digits := list_ascii_of_string (str_int (Z.abs z)) in
  (if z <? 0 then "-" else "") ++ string_of_list_ascii (rev (group3 (rev digits))).

(** ** [data_validation.py] *)

Module Validation.

Record Finding := {
  type : string;
  severity : string;
  message : string;
  suggestion : string
}.

Record DataValidator := {
  validation_results : pydict;
  error_messages : list Finding;
  warnings : list Finding;
  suggestions : list Finding
}.

(** [DataValidator.__init__] *)
Definition init : DataValidator :=
  {| validation_results := []; error_messages := []; warnings := []; suggestions := [] |}.

Definition check := exec DataValidator unit unit.

(** [self.error_messages.append(f)] and its siblings. *)
Definition append_error (f : Finding) : check :=
  modify (fun self =>
    {| validation_results := validation_results self;
       error_messages := error_messages self ++ [f];
       warnings := warnings self;
       suggestions := suggestions self |}).

Definition append_warning (f : Finding) : check :=
  modify (fun self =>
    {| validation_results := validation_results self;
       error_messages := error_messages self;
       warnings := warnings self ++ [f];
       suggestions := suggestions self |}).

Definition append_suggestion (f : Finding) : check :=
  modify (fun self =>
    {| validation_results := validation_results self;
       error_messages := error_messages self;
       warnings := warnings self;
       suggestions := suggestions self ++ [f] |}).

(** [self.validation_results[key] = v] *)
Definition set_result (key : string) (v : pyval) : check :=
  modify (fun self =>
    {| validation_results := dict_set key v (validation_results self);
       error_messages := error_messages self;
       warnings := warnings self;
       suggestions := suggestions self |}).

Definition when (b : bool) (c : check) : check := if b then c else ret tt.

Section Checks.
Context (L : PyLib).

Definition _validate_basic_structure (df : DataFrame) (file_name : string) : check :=
    try_except
      (when (empty df)
         (append_error
            {| type := "estructura"; severity := "error";
               message := "❌ El archivo '" ++ file_name ++ "' está vacío";
               suggestion := "Verifica que el archivo contenga datos válidos" |} ;;
          return_ tt) ;;
       when (n_rows df <? 2)
         (append_warning
            {| type := "estructura"; severity := "warning";
               message := "⚠️ El archivo '" ++ file_name ++ "' tiene muy pocas filas ("
                          ++ str_int (n_rows df) ++ ")";
               suggestion := "Se recomiendan al menos 10 filas para análisis estadísticos" |}) ;;
       when (len (columns df) <? 1)
         (append_error
            {| type := "estructura"; severity := "error";
               message := "❌ El archivo '" ++ file_name ++ "' no tiene columnas";
               suggestion := "Verifica el formato del archivo" |} ;;
          return_ tt) ;;
       set_result "basic_info"
         (PDict [ (SStr "rows", PInt (n_rows df));
                  (SStr "columns", PInt (len (columns df)));
                  (SStr "size_mb",
                   PFloat (np_div (float_of_Z (memory_usage L df)) (float_of_Z (1024 ^ 2))));
                  (SStr "is_large", PBool (100000 <? n_rows df)) ]) ;;
       when (100000 <? n_rows df)
         (append_warning
            {| type := "rendimiento"; severity := "warning";
               message := "⚠️ Archivo grande detectado (" ++ str_int_comma (n_rows df) ++ " filas)";
               suggestion := "El procesamiento puede ser lento. Considera usar una muestra para pruebas iniciales" |}))
      (fun e =>
         append_error
           {| type := "estructura"; severity := "error";
              message := "❌ Error al validar estructura: " ++ str_exn e;
              suggestion := "Verifica que el archivo esté en un formato compatible" |}).

  (** [_looks_like_date]: [re.match] anchors the pattern at the start only. *)
Fixpoint match_pattern (pattern : list (option ascii)) (s : string) : bool :=
    match pattern, s with
    | [], _ => true
    | None :: p', String c s' => is_digit c && match_pattern p' s'
    | Some d :: p', String c s' => Ascii.eqb c d && match_pattern p' s'
    | _ :: _, EmptyString => false
    end.

Definition d : option ascii := None.   (* [\d] *)
Definition lit (c : ascii) : option ascii := Some c.

Definition date_patterns : list (list (option ascii)) :=
    [ [d; d; d; d; lit "-"; d; d; lit "-"; d; d];     (* YYYY-MM-DD *)
      [d; d; lit "/"; d; d; lit "/"; d; d; d; d];     (* DD/MM/YYYY *)
      [d; d; lit "-"; d; d; lit "-"; d; d; d; d];     (* DD-MM-YYYY *)
      [d; d; d; d; lit "/"; d; d; lit "/"; d; d] ].   (* YYYY/MM/DD *)

Definition _looks_like_date (value : string) : bool :=
    existsb (fun pattern => match_pattern pattern value) date_patterns.

  (** The entries of [problematic_columns]. *)
Inductive Problem :=
  | numeric_as_text (column : string) (convertible_ratio : float)
  | date_as_text (column : string) (date_like_ratio : float).

  (** [for value in ...: try: float(...); n += 1 except: pass] *)
Definition count_convertible (sample : list scalar) : Z :=
    fold_left
      (fun numeric_convertible value =>
         match float_of_str (replace_char " " "" (replace_char "," "." (str_scalar L value))) with
         | inr _ => numeric_convertible + 1
         | inl _ => numeric_convertible
         end)
      sample 0.

Definition count_date_like (sample : list scalar) : Z :=
    fold_left
      (fun date_like_count value =>
         if _looks_like_date (str_scalar L value) then date_like_count + 1
         else date_like_count)
      sample 0.

  (** One iteration of the loop over the columns: the numeric test, the
      date test, then the entry of [type_info]. *)
Definition types_column (acc : pydict * list Problem) (col_data : Series)
    : exec DataValidator unit (pydict * list Problem) :=
    let '(type_info, problematic_columns) := acc in
    let column := name col_data in
    problematic_columns <-
      (if String.eqb (dtype col_data) "object" then
         let non_null_values := dropna col_data in
         if 0 <? len non_null_values then
           let numeric_convertible := count_convertible (head 100 non_null_values) in
           ratio <- eval (truediv numeric_convertible (len (head 100 non_null_values))) ;;
           if PrimFloat.ltb 0.8 ratio then
             convertible_ratio <-
               eval (truediv numeric_convertible (len (head 100 non_null_values))) ;;
             ret (problematic_columns ++ [numeric_as_text column convertible_ratio])%list
           else ret problematic_columns
         else ret problematic_columns
       else ret problematic_columns) ;;
    problematic_columns <-
      (if String.eqb (dtype col_data) "object" then
         let sample_values := head 10 (dropna col_data) in
         let date_like_count := count_date_like sample_values in
         ratio <- eval (truediv date_like_count (len sample_values)) ;;
         if PrimFloat.ltb 0.5 ratio && (0 <? len sample_values) then
           date_like_ratio <- eval (truediv date_like_count (len sample_values)) ;;
           ret (problematic_columns ++ [date_as_text column date_like_ratio])%list
         else ret problematic_columns
       else ret problematic_columns) ;;
    ret (dict_set column
           (PDict [ (SStr "dtype", PStr (dtype col_data));
                    (SStr "non_null_count", PInt (count col_data));
                    (SStr "unique_count", PInt (nunique col_data)) ])
           type_info,
         problematic_columns).

Definition suggest_problem (prob_col : Problem) : check :=
    match prob_col with
    | numeric_as_text column convertible_ratio =>
        append_suggestion
          {| type := "tipo_datos"; severity := "suggestion";
             message := "💡 La columna '" ++ column ++ "' parece contener números como texto";
             suggestion := "Considera convertir a numérico. "
                           ++ format_float L ".1%" convertible_ratio
                           ++ " de los valores son convertibles" |}
    | date_as_text column _ =>
        append_suggestion
          {| type := "tipo_datos"; severity := "suggestion";
             message := "💡 La columna '" ++ column ++ "' parece contener fechas como texto";
             suggestion := "Considera convertir a tipo datetime para análisis temporales" |}
    end.

Definition _validate_data_types (df : DataFrame) : check :=
    try_except
      ('(type_info, problematic_columns) <- for_fold (columns df) ([], []) types_column ;;
       set_result "data_types" (PDict type_info) ;;
       for_each problematic_columns suggest_problem)
      (fun e =>
         append_error
           {| type := "tipos_datos"; severity := "error";
              message := "❌ Error al validar tipos de datos: " ++ str_exn e;
              suggestion := "Revisa el formato de los datos en el archivo" |}).

Definition times100 (x : float) : float := PrimFloat.mul x 100.

(** [sum([info['missing_count'] for info in missing_info.values()])] *)
Definition total_missing_count (missing_info : pydict) : Z :=
  fold_left
    (fun total entry =>
       match snd entry with
       | PDict info =>
           match dict_get "missing_count" info with
           | Some (PInt n) => total + n
           | _ => total
           end
       | _ => total
       end)
    missing_info 0.

Definition missing_column (df : DataFrame) (acc : pydict * list (string * float))
  (col : Series) : exec DataValidator unit (pydict * list (string * float)) :=
  let '(missing_info, critical_missing) := acc in
  let column := name col in
  let missing_count := isnull_sum col in
  let missing_pct :=
    times100 (np_div (float_of_Z missing_count) (float_of_Z (n_rows df))) in
  let missing_info :=
    dict_set column
      (PDict [ (SStr "missing_count", PInt missing_count);
               (SStr "missing_percentage", PFloat missing_pct);
               (SStr "has_missing", PBool (0 <? missing_count)) ])
      missing_info in
  if PrimFloat.ltb 50 missing_pct then
    ret (missing_info, (critical_missing ++ [(column, missing_pct)])%list)
  else if PrimFloat.ltb 20 missing_pct then
    append_warning
      {| type := "valores_faltantes"; severity := "warning";
         message := "⚠️ La columna '" ++ column ++ "' tiene "
                    ++ format_float L ".1f" missing_pct ++ "% de valores faltantes";
         suggestion := "Considera estrategias de imputación o eliminación de esta columna" |} ;;
    ret (missing_info, critical_missing)
  else ret (missing_info, critical_missing).

Definition _validate_missing_values (df : DataFrame) : check :=
  try_except
    ('(missing_info, critical_missing) <-
        for_fold (columns df) ([], []) (missing_column df) ;;
     set_result "missing_values" (PDict missing_info) ;;
     for_each critical_missing
       (fun crit =>
          append_error
            {| type := "valores_faltantes"; severity := "error";
               message := "❌ La columna '" ++ fst crit ++ "' tiene "
                          ++ format_float L ".1f" (snd crit) ++ "% de valores faltantes";
               suggestion := "Esta columna no es útil para análisis. Considera eliminarla" |}) ;;
     let total_missing := total_missing_count missing_info in
     when (0 <? total_missing)
       (append_suggestion
          {| type := "valores_faltantes"; severity := "suggestion";
             message := "💡 Se detectaron " ++ str_int total_missing
                        ++ " valores faltantes en total";
             suggestion := "Revisa las estrategias de manejo de valores faltantes antes del análisis" |}))
    (fun e =>
       append_error
         {| type := "valores_faltantes"; severity := "error";
            message := "❌ Error al validar valores faltantes: " ++ str_exn e;
            suggestion := "Verifica la integridad de los datos" |}).

Definition _validate_duplicates (df : DataFrame) : check :=
  try_except
    (let duplicate_count := duplicated_sum df in
     let duplicate_pct :=
       times100 (np_div (float_of_Z duplicate_count) (float_of_Z (n_rows df))) in
     set_result "duplicates"
       (PDict [ (SStr "duplicate_count", PInt duplicate_count);
                (SStr "duplicate_percentage", PFloat duplicate_pct);
                (SStr "has_duplicates", PBool (0 <? duplicate_count)) ]) ;;
     when (0 <? duplicate_count)
       (if PrimFloat.ltb 10 duplicate_pct then
          append_warning
            {| type := "duplicados"; severity := "warning";
               message := "⚠️ Se encontraron " ++ str_int duplicate_count
                          ++ " filas duplicadas (" ++ format_float L ".1f" duplicate_pct ++ "%)";
               suggestion := "Considera eliminar duplicados antes del análisis" |}
        else
          append_suggestion
            {| type := "duplicados"; severity := "suggestion";
               message := "💡 Se encontraron " ++ str_int duplicate_count
                          ++ " filas duplicadas (" ++ format_float L ".1f" duplicate_pct ++ "%)";
               suggestion := "Revisa si los duplicados son intencionales" |}))
    (fun e =>
       append_error
         {| type := "duplicados"; severity := "error";
            message := "❌ Error al validar duplicados: " ++ str_exn e;
            suggestion := "Verifica la estructura de los datos" |}).

Definition outliers_column (outlier_info : pydict) (col : Series)
  : exec DataValidator unit pydict :=
  let column := name col in
  let col_data := dropna col in
  if len col_data <? 4 then ret outlier_info        (* continue *)
  else
    let Q1 := quantile L col_data 0.25 in
    let Q3 := quantile L col_data 0.75 in
    let IQR := PrimFloat.sub Q3 Q1 in
    let lower_bound := PrimFloat.sub Q1 (PrimFloat.mul 1.5 IQR) in
    let upper_bound := PrimFloat.add Q3 (PrimFloat.mul 1.5 IQR) in
    let outliers :=
      filter (fun x => PrimFloat.ltb (number x) lower_bound
                       || PrimFloat.ltb upper_bound (number x)) col_data in
    let outlier_count := len outliers in
    ratio <- eval (truediv outlier_count (len col_data)) ;;
    let outlier_pct := times100 ratio in
    let outlier_info :=
      dict_set column
        (PDict [ (SStr "outlier_count", PInt outlier_count);
                 (SStr "outlier_percentage", PFloat outlier_pct);
                 (SStr "lower_bound", PFloat lower_bound);
                 (SStr "upper_bound", PFloat upper_bound);
                 (SStr "has_outliers", PBool (0 <? outlier_count)) ])
        outlier_info in
    (if PrimFloat.ltb 5 outlier_pct then
       append_warning
         {| type := "outliers"; severity := "warning";
            message := "⚠️ La columna '" ++ column ++ "' tiene " ++ str_int outlier_count
                       ++ " valores atípicos (" ++ format_float L ".1f" outlier_pct ++ "%)";
            suggestion := "Revisa estos valores antes del análisis estadístico" |}
     else
       when (0 <? outlier_count)
         (append_suggestion
            {| type := "outliers"; severity := "suggestion";
               message := "💡 La columna '" ++ column ++ "' tiene " ++ str_int outlier_count
                          ++ " valores atípicos";
               suggestion := "Considera si estos valores son errores o datos válidos" |})) ;;
    ret outlier_info.

Definition _validate_outliers (df : DataFrame) : check :=
  try_except
    (outlier_info <- for_fold (numeric_columns df) [] outliers_column ;;
     set_result "outliers" (PDict outlier_info))
    (fun e =>
       append_error
         {| type := "outliers"; severity := "error";
            message := "❌ Error al detectar outliers: " ++ str_exn e;
            suggestion := "Verifica que las columnas numéricas tengan datos válidos" |}).

(** The entries of [consistency_issues]. *)
Record Issue := {
  issue_column : string;
  issue : string;
  unique_count : Z;
  unique_ratio : float
}.

Definition pyval_of_issue (i : Issue) : pyval :=
  PDict [ (SStr "column", PStr (issue_column i));
          (SStr "issue", PStr (issue i));
          (SStr "unique_count", PInt (unique_count i));
          (SStr "unique_ratio", PFloat (unique_ratio i)) ].

Definition consistency_column (consistency_issues : list Issue) (col : Series)
  : exec DataValidator unit (list Issue) :=
  let column := name col in
  let col_data := dropna col in
  if len col_data =? 0 then ret consistency_issues       (* continue *)
  else
    unique_ratio <- eval (truediv (nunique col) (len col_data)) ;;
    if String.eqb (dtype col) "object" && PrimFloat.ltb 0.8 unique_ratio
       && (50 <? nunique col) then
      ret (consistency_issues ++
           [ {| issue_column := column; issue := "high_cardinality_categorical";
                unique_count := nunique col; unique_ratio := unique_ratio |} ])%list
    else if existsb (String.eqb (dtype col)) ["int64"; "float64"]
            && (nunique col <? 10) && (100 <? len col_data) then
      ret (consistency_issues ++
           [ {| issue_column := column; issue := "low_cardinality_numeric";
                unique_count := nunique col; unique_ratio := unique_ratio |} ])%list
    else ret consistency_issues.

Definition suggest_issue (i : Issue) : check :=
  if String.eqb (issue i) "high_cardinality_categorical" then
    append_suggestion
      {| type := "consistencia"; severity := "suggestion";
         message := "💡 La columna '" ++ issue_column i ++ "' tiene muchos valores únicos ("
                    ++ str_int (unique_count i) ++ ")";
         suggestion := "Podría ser un identificador. Considera si es útil para análisis" |}
  else if String.eqb (issue i) "low_cardinality_numeric" then
    append_suggestion
      {| type := "consistencia"; severity := "suggestion";
         message := "💡 La columna numérica '" ++ issue_column i
                    ++ "' tiene pocos valores únicos (" ++ str_int (unique_count i) ++ ")";
         suggestion := "Podría ser una variable categórica codificada numéricamente" |}
  else ret tt.

Definition _validate_data_consistency (df : DataFrame) : check :=
  try_except
    (consistency_issues <- for_fold (columns df) [] consistency_column ;;
     for_each consistency_issues suggest_issue ;;
     set_result "consistency" (PList (map pyval_of_issue consistency_issues)))
    (fun e =>
       append_error
         {| type := "consistencia"; severity := "error";
            message := "❌ Error al validar consistencia: " ++ str_exn e;
            suggestion := "Revisa la estructura y tipos de datos" |}).

(** [re.match(r'^[A-Z]{1,3}\d+$', column)]: [$] also matches before a
    final newline. *)
Fixpoint digits_to_end (s : string) : bool :=
  match s with
  | EmptyString => true
  | String c s' =>
      if is_digit c then digits_to_end s'
      else Ascii.eqb c "010" && String.eqb s' ""
  end.

Definition digits1_to_end (s : string) : bool :=
  match s with
  | String c s' => is_digit c && digits_to_end s'
  | EmptyString => false
  end.

Definition code_like (s : string) : bool :=
  match s with
  | String a s1 =>
      is_upper a &&
      (digits1_to_end s1 ||
       match s1 with
       | String b s2 =>
           is_upper b &&
           (digits1_to_end s2 ||
            match s2 with
            | String c s3 => is_upper c && digits1_to_end s3
            | EmptyString => false
            end)
       | EmptyString => false
       end)
  | EmptyString => false
  end.

(** [re.search(r'[^\w\s\-_]', column)] *)
Definition special_character (c : ascii) : bool :=
  negb (is_word c || is_space c || Ascii.eqb c "-" || Ascii.eqb c "_").

Definition name_issues (column : string) : list string :=
  ((if negb (String.eqb column (strip column)) then ["trailing_spaces"] else []) ++
   (if string_exists special_character column then ["special_characters"] else []) ++
   (if 50 <? Z.of_nat (String.length column) then ["too_long"] else []) ++
   (if Z.of_nat (String.length column) <? 2 then ["too_short"] else []) ++
   (if code_like column then ["code_like"] else []))%list.

Definition contains (issues : list string) (x : string) : bool :=
  existsb (String.eqb x) issues.

Definition names_column (column_issues : list (string * list string)) (col : Series)
  : exec DataValidator unit (list (string * list string)) :=
  let column := name col in
  let issues := name_issues column in
  match issues with
  | [] => ret column_issues
  | _ => ret (column_issues ++ [(column, issues)])%list
  end.

Definition suggest_name (col_issue : string * list string) : check :=
  let column := fst col_issue in
  let issues := snd col_issue in
  when (contains issues "trailing_spaces")
    (append_suggestion
       {| type := "nombres_columnas"; severity := "suggestion";
          message := "💡 La columna '" ++ column ++ "' tiene espacios al inicio o final";
          suggestion := "Considera limpiar los nombres de columnas" |}) ;;
  when (contains issues "special_characters")
    (append_suggestion
       {| type := "nombres_columnas"; severity := "suggestion";
          message := "💡 La columna '" ++ column ++ "' contiene caracteres especiales";
          suggestion := "Usa solo letras, números, guiones y guiones bajos" |}) ;;
  when (contains issues "too_long")
    (append_suggestion
       {| type := "nombres_columnas"; severity := "suggestion";
          message := "💡 La columna '" ++ column ++ "' tiene un nombre muy largo";
          suggestion := "Considera usar un nombre más corto y descriptivo" |}) ;;
  when (contains issues "code_like")
    (append_suggestion
       {| type := "nombres_columnas"; severity := "suggestion";
          message := "💡 La columna '" ++ column ++ "' parece ser un código";
          suggestion := "Considera usar un nombre más descriptivo" |}).

Definition pyval_of_name_issue (col_issue : string * list string) : pyval :=
  PDict [ (SStr "column", PStr (fst col_issue));
          (SStr "issues", PList (map PStr (snd col_issue))) ].

Definition _validate_column_names (df : DataFrame) : check :=
  try_except
    (column_issues <- for_fold (columns df) [] names_column ;;
     for_each column_issues suggest_name ;;
     set_result "column_names" (PList (map pyval_of_name_issue column_issues)))
    (fun e =>
       append_error
         {| type := "nombres_columnas"; severity := "error";
            message := "❌ Error al validar nombres de columnas: " ++ str_exn e;
            suggestion := "Verifica que los nombres de columnas sean válidos" |}).

(** The dict [validate_dataframe] returns. *)
Record Report := {
  is_valid : bool;
  errors : list Finding;
  report_warnings : list Finding;
  report_suggestions : list Finding;
  validation_details : pydict
}.

Definition validate_dataframe (df : DataFrame) (file_name : string)
  : DataValidator -> returned Report * DataValidator :=
  call
    (modify (fun _ => init) ;;
     invoke (call (_validate_basic_structure df file_name)) ;;
     invoke (call (_validate_data_types df)) ;;
     invoke (call (_validate_missing_values df)) ;;
     invoke (call (_validate_duplicates df)) ;;
     invoke (call (_validate_outliers df)) ;;
     invoke (call (_validate_data_consistency df)) ;;
     invoke (call (_validate_column_names df)) ;;
     self <- gets (fun self => self) ;;
     return_
       {| is_valid := len (error_messages self) =? 0;
          errors := error_messages self;
          report_warnings := warnings self;
          report_suggestions := suggestions self;
          validation_details := validation_results self |}).

End Checks.

(** [_calculate_validation_score] *)
Definition _calculate_validation_score (self : DataValidator) : Z :=
  let score := 100 in
  let score := score - len (error_messages self) * 20 in
  let score := score - len (warnings self) * 5 in
  let score := score - len (suggestions self) * 1 in
  Z.max 0 (Z.min 100 score).

Record Summary := {
  total_errors : Z;
  total_warnings : Z;
  total_suggestions : Z;
  is_ready_for_analysis : bool;
  validation_score : Z
}.

Definition get_validation_summary (self : DataValidator) : Summary :=
  {| total_errors := len (error_messages self);
     total_warnings := len (warnings self);
     total_suggestions := len (suggestions self);
     is_ready_for_analysis := len (error_messages self) =? 0;
     validation_score := _calculate_validation_score self |}.

End Validation.

(** ** [statistical_analysis.py] *)

Module Statistics.

Record StatisticalAnalysis := {
  results_history : list pydict
}.

(** [StatisticalAnalysis.__init__] *)
Definition init : StatisticalAnalysis := {| results_history := [] |}.

Definition body := exec StatisticalAnalysis pydict.

(** [self.results_history.append(result)] *)
Definition append_history (result : pydict) : body unit :=
  modify (fun self => {| results_history := (results_history self ++ [result])%list |}).

(** [{'error': msg}] *)
Definition error (msg : string) : pydict := [(SStr "error", PStr msg)].

(** ['error' in result], the test the callers make. *)
Definition is_error (result : pydict) : bool := dict_has "error" result.

Definition pyval_of_cell (c : cell) : pyval :=
  match c with
  | Some a => pyval_of_scalar a
  | None => PNone
  end.

Definition sq (x : float) : float := PrimFloat.mul x x.

(** [sum(l)] on floats: the fold starts from the integer [0]. *)
Definition py_sum (l : list float) : float := fold_left PrimFloat.add l PrimFloat.zero.

Definition get_analysis_history (self : StatisticalAnalysis) : list pydict :=
  results_history self.

Definition clear_history (self : StatisticalAnalysis) : StatisticalAnalysis :=
  {| results_history := [] |}.

Section Methods.
Context (L : PyLib).

Definition fmt := format_float L.

(** *** Interpretations *)

Definition _interpret_t_test_one_sample (sample_mean test_value p_value alpha : float)
  : string :=
  if PrimFloat.ltb p_value alpha then
    let direction := if PrimFloat.ltb test_value sample_mean then "mayor" else "menor" in
    "La media muestral (" ++ fmt ".3f" sample_mean ++ ") es significativamente "
    ++ direction ++ " que el valor de prueba (" ++ fmt "" test_value ++ ") (p = "
    ++ fmt ".4f" p_value ++ ")."
  else
    "No hay evidencia suficiente para concluir que la media poblacional difiere de "
    ++ fmt "" test_value ++ " (p = " ++ fmt ".4f" p_value ++ ").".

Definition _interpret_t_test_two_samples (mean1 mean2 p_value alpha : float) : string :=
  if PrimFloat.ltb p_value alpha then
    let higher_group := if PrimFloat.ltb mean2 mean1 then "Grupo 1" else "Grupo 2" in
    "Existe una diferencia significativa entre los grupos (p = " ++ fmt ".4f" p_value
    ++ "). " ++ higher_group ++ " tiene una media mayor."
  else
    "No hay evidencia suficiente de diferencia entre los grupos (p = "
    ++ fmt ".4f" p_value ++ ").".

Definition _interpret_anova (f_stat p_value alpha eta_squared : float) : string :=
  if PrimFloat.ltb p_value alpha then
    let effect_size :=
      if PrimFloat.ltb eta_squared 0.06 then "pequeño"
      else if PrimFloat.ltb eta_squared 0.14 then "mediano" else "grande" in
    "Existe al menos una diferencia significativa entre los grupos (F = "
    ++ fmt ".3f" f_stat ++ ", p = " ++ fmt ".4f" p_value ++ "). Tamaño del efecto: "
    ++ effect_size ++ " (η² = " ++ fmt ".3f" eta_squared ++ ")."
  else
    "No hay evidencia de diferencias significativas entre los grupos (F = "
    ++ fmt ".3f" f_stat ++ ", p = " ++ fmt ".4f" p_value ++ ").".

Definition _interpret_chi_square (chi2 p_value alpha cramers_v : float) : string :=
  if PrimFloat.ltb p_value alpha then
    let strength :=
      if PrimFloat.ltb cramers_v 0.3 then "débil"
      else if PrimFloat.ltb cramers_v 0.5 then "moderada" else "fuerte" in
    "Existe una asociación significativa entre las variables (χ² = "
    ++ fmt ".3f" chi2 ++ ", p = " ++ fmt ".4f" p_value ++ "). Fuerza de asociación: "
    ++ strength ++ " (V = " ++ fmt ".3f" cramers_v ++ ")."
  else
    "No hay evidencia de asociación entre las variables (χ² = "
    ++ fmt ".3f" chi2 ++ ", p = " ++ fmt ".4f" p_value ++ ").".

Definition _interpret_correlation_strength (abs_corr : float) : string :=
  if PrimFloat.ltb abs_corr 0.1 then "muy débil"
  else if PrimFloat.ltb abs_corr 0.3 then "débil"
  else if PrimFloat.ltb abs_corr 0.5 then "moderada"
  else if PrimFloat.ltb abs_corr 0.7 then "fuerte"
  else "muy fuerte".

Definition _interpret_correlation (corr_coef p_value alpha : float) (strength : string)
  : string :=
  let direction := if PrimFloat.ltb 0 corr_coef then "positiva" else "negativa" in
  if PrimFloat.ltb p_value alpha then
    "Existe una correlación " ++ direction ++ " " ++ strength
    ++ " y estadísticamente significativa (r = " ++ fmt ".3f" corr_coef ++ ", p = "
    ++ fmt ".4f" p_value ++ ")."
  else
    "La correlación " ++ direction ++ " " ++ strength
    ++ " no es estadísticamente significativa (r = " ++ fmt ".3f" corr_coef ++ ", p = "
    ++ fmt ".4f" p_value ++ ").".

Definition _interpret_regression (r_squared f_p_value alpha : float) : string :=
  if PrimFloat.ltb f_p_value alpha then
    let variance_explained := PrimFloat.mul r_squared 100 in
    "El modelo es estadísticamente significativo (p = " ++ fmt ".4f" f_p_value
    ++ ") y explica " ++ fmt ".1f" variance_explained
    ++ "% de la varianza en la variable dependiente."
  else
    "El modelo no es estadísticamente significativo (p = " ++ fmt ".4f" f_p_value ++ ").".

Definition pair_tuple (p : float * float) : pyval := PTuple [PFloat (fst p); PFloat (snd p)].

(** *** The tests *)

Definition t_test_one_sample (data : DataFrame) (column : string)
  (test_value alpha : float)
  : StatisticalAnalysis -> returned pydict * StatisticalAnalysis :=
  call (try_except
    (col <- eval (getitem data column) ;;
     let sample_data := dropna col in
     ' (t_stat, p_value) <- eval (ttest_1samp L sample_data test_value) ;;
     let n := len sample_data in
     mean <- eval (Lib.mean L sample_data) ;;
     std <- eval (Lib.std L sample_data) ;;
     let se := np_div std (PrimFloat.sqrt (float_of_Z n)) in
     ci <- eval (t_interval L (PrimFloat.sub 1 alpha) (n - 1) mean se) ;;
     let is_significant := PrimFloat.ltb p_value alpha in
     let effect_size := np_div (PrimFloat.sub mean test_value) std in
     let result : pydict :=
       [ (SStr "test_type", PStr "Prueba t de una muestra");
         (SStr "variable", PStr column);
         (SStr "test_value", PFloat test_value);
         (SStr "sample_size", PInt n);
         (SStr "sample_mean", PFloat mean);
         (SStr "sample_std", PFloat std);
         (SStr "standard_error", PFloat se);
         (SStr "t_statistic", PFloat t_stat);
         (SStr "p_value", PFloat p_value);
         (SStr "alpha", PFloat alpha);
         (SStr "is_significant", PBool is_significant);
         (SStr "confidence_interval", pair_tuple ci);
         (SStr "effect_size", PFloat effect_size);
         (SStr "interpretation",
          PStr (_interpret_t_test_one_sample mean test_value p_value alpha)) ] in
     append_history result ;;
     return_ result)
    (fun e => return_ (error ("Error en prueba t de una muestra: " ++ str_exn e)))).

Definition t_test_two_samples (data : DataFrame) (column group_column : string)
  (alpha : float) (equal_var : bool)
  : StatisticalAnalysis -> returned pydict * StatisticalAnalysis :=
  call (try_except
    (group_col <- eval (getitem data group_column) ;;
     let groups := unique group_col in
     if negb (len groups =? 2) then
       return_ (error "La variable de agrupación debe tener exactamente 2 grupos")
     else
       col1 <- eval (getitem (where_ data (eq_mask group_col (nth 0 groups None))) column) ;;
       let group1_data := dropna col1 in
       col2 <- eval (getitem (where_ data (eq_mask group_col (nth 1 groups None))) column) ;;
       let group2_data := dropna col2 in
       ' (t_stat, p_value) <-
         (if equal_var then eval (ttest_ind L group1_data group2_data true)
          else eval (ttest_ind L group1_data group2_data false)) ;;
       let n1 := len group1_data in
       let n2 := len group2_data in
       mean1 <- eval (Lib.mean L group1_data) ;;
       mean2 <- eval (Lib.mean L group2_data) ;;
       std1 <- eval (Lib.std L group1_data) ;;
       std2 <- eval (Lib.std L group2_data) ;;
       let pooled_std :=
         PrimFloat.sqrt
           (np_div (PrimFloat.add (PrimFloat.mul (float_of_Z (n1 - 1)) (sq std1))
                                  (PrimFloat.mul (float_of_Z (n2 - 1)) (sq std2)))
                   (float_of_Z (n1 + n2 - 2))) in
       let effect_size := np_div (PrimFloat.sub mean1 mean2) pooled_std in
       let result : pydict :=
         [ (SStr "test_type", PStr "Prueba t de dos muestras independientes");
           (SStr "variable", PStr column);
           (SStr "group_variable", PStr group_column);
           (SStr "groups", PList (map pyval_of_cell groups));
           (SStr "sample_sizes", PList [PInt n1; PInt n2]);
           (SStr "means", PList [PFloat mean1; PFloat mean2]);
           (SStr "std_devs", PList [PFloat std1; PFloat std2]);
           (SStr "t_statistic", PFloat t_stat);
           (SStr "p_value", PFloat p_value);
           (SStr "alpha", PFloat alpha);
           (SStr "is_significant", PBool (PrimFloat.ltb p_value alpha));
           (SStr "effect_size", PFloat effect_size);
           (SStr "equal_variances", PBool equal_var);
           (SStr "interpretation",
            PStr (_interpret_t_test_two_samples mean1 mean2 p_value alpha)) ] in
       append_history result ;;
       return_ result)
    (fun e => return_ (error ("Error en prueba t de dos muestras: " ++ str_exn e)))).

(** The loop that builds [groups] and [group_names]. *)
Definition anova_group (data : DataFrame) (dependent_var : string) (level_col : Series)
  (acc : list (list scalar) * list cell) (group_name : cell)
  : body (list (list scalar) * list cell) :=
  let '(groups, group_names) := acc in
  col <- eval (getitem (where_ data (eq_mask level_col group_name)) dependent_var) ;;
  let group_data := dropna col in
  if 0 <? len group_data then
    ret ((groups ++ [group_data])%list, (group_names ++ [group_name])%list)
  else ret (groups, group_names).

Definition anova_group_stats (acc : list pyval) (g : list scalar * cell)
  : body (list pyval) :=
  let '(group, group_name) := g in
  mean <- eval (Lib.mean L group) ;;
  std <- eval (Lib.std L group) ;;
  min <- eval (Lib.min L group) ;;
  max <- eval (Lib.max L group) ;;
  ret (acc ++ [ PDict [ (SStr "group", pyval_of_cell group_name);
                        (SStr "n", PInt (len group));
                        (SStr "mean", PFloat mean);
                        (SStr "std", PFloat std);
                        (SStr "min", PFloat min);
                        (SStr "max", PFloat max) ] ])%list.

(** [data[dependent_var].mean()], evaluated anew in each term of the sums. *)
Definition grand_mean (data : DataFrame) (dependent_var : string) : body float :=
  col <- eval (getitem data dependent_var) ;;
  eval (Lib.mean L (dropna col)).

Definition between_term (data : DataFrame) (dependent_var : string)
  (acc : list float) (group : list scalar) : body (list float) :=
  group_mean <- eval (Lib.mean L group) ;;
  all_mean <- grand_mean data dependent_var ;;
  ret (acc ++ [PrimFloat.mul (float_of_Z (len group))
                             (sq (PrimFloat.sub group_mean all_mean))])%list.

Definition total_term (data : DataFrame) (dependent_var : string)
  (acc : list float) (x : scalar) : body (list float) :=
  all_mean <- grand_mean data dependent_var ;;
  x <- eval (as_float x) ;;
  ret (acc ++ [sq (PrimFloat.sub x all_mean)])%list.

Definition anova_one_way (data : DataFrame) (dependent_var independent_var : string)
  (alpha : float)
  : StatisticalAnalysis -> returned pydict * StatisticalAnalysis :=
  call (try_except
    (level_col <- eval (getitem data independent_var) ;;
     ' (groups, group_names) <-
       for_fold (unique level_col) ([], [])
                (anova_group data dependent_var level_col) ;;
     if len groups <? 2 then
       return_ (error "Se necesitan al menos 2 grupos para ANOVA")
     else
       ' (f_stat, p_value) <- eval (f_oneway L groups) ;;
       group_stats <- for_fold (combine groups group_names) [] anova_group_stats ;;
       between <- for_fold groups [] (between_term data dependent_var) ;;
       let ss_between := py_sum between in
       total <- for_fold (List.concat groups) [] (total_term data dependent_var) ;;
       let ss_total := py_sum total in
       let eta_squared :=
         if PrimFloat.ltb 0 ss_total then np_div ss_between ss_total else 0%float in
       let result : pydict :=
         [ (SStr "test_type", PStr "ANOVA de un factor");
           (SStr "dependent_variable", PStr dependent_var);
           (SStr "independent_variable", PStr independent_var);
           (SStr "groups", PList (map pyval_of_cell group_names));
           (SStr "group_statistics", PList group_stats);
           (SStr "f_statistic", PFloat f_stat);
           (SStr "p_value", PFloat p_value);
           (SStr "alpha", PFloat alpha);
           (SStr "is_significant", PBool (PrimFloat.ltb p_value alpha));
           (SStr "eta_squared",
            if PrimFloat.ltb 0 ss_total then PFloat eta_squared else PInt 0);
           (SStr "interpretation",
            PStr (_interpret_anova f_stat p_value alpha eta_squared)) ] in
       append_history result ;;
       return_ result)
    (fun e => return_ (error ("Error en ANOVA: " ++ str_exn e)))).

(** [table.to_dict()]: one dict per column label, keyed by the row labels. *)
Definition to_dict {A} (wrap : A -> pyval) (index cols : list scalar)
  (cells : list (list A)) : pydict :=
  map (fun jc : nat * scalar =>
         (snd jc,
          PDict (map (fun ir : scalar * list A =>
                        (fst ir,
                         match nth_error (snd ir) (fst jc) with
                         | Some x => wrap x
                         | None => PNone
                         end))
                     (combine index cells))))
      (combine (seq 0 (List.length cols)) cols).

Definition chi_square_test (data : DataFrame) (var1 var2 : string) (alpha : float)
  : StatisticalAnalysis -> returned pydict * StatisticalAnalysis :=
  call (try_except
    (col1 <- eval (getitem data var1) ;;
     col2 <- eval (getitem data var2) ;;
     contingency_table <- eval (crosstab L col1 col2) ;;
     ' (chi2, p_value, dof, expected) <- eval (chi2_contingency L contingency_table) ;;
     let n := fold_left Z.add (List.concat (ct_counts contingency_table)) 0 in
     let shape_min :=
       Z.min (len (ct_index contingency_table)) (len (ct_columns contingency_table)) in
     let cramers_v :=
       PrimFloat.sqrt (np_div chi2 (float_of_Z (n * (shape_min - 1)))) in
     let result : pydict :=
       [ (SStr "test_type", PStr "Prueba de chi-cuadrado de independencia");
         (SStr "variable_1", PStr var1);
         (SStr "variable_2", PStr var2);
         (SStr "contingency_table",
          PDict (to_dict PInt (ct_index contingency_table)
                         (ct_columns contingency_table) (ct_counts contingency_table)));
         (SStr "expected_frequencies",
          PDict (to_dict PFloat (ct_index contingency_table)
                         (ct_columns contingency_table) expected));
         (SStr "chi2_statistic", PFloat chi2);
         (SStr "p_value", PFloat p_value);
         (SStr "degrees_of_freedom", PInt dof);
         (SStr "alpha", PFloat alpha);
         (SStr "is_significant", PBool (PrimFloat.ltb p_value alpha));
         (SStr "cramers_v", PFloat cramers_v);
         (SStr "interpretation",
          PStr (_interpret_chi_square chi2 p_value alpha cramers_v)) ] in
     append_history result ;;
     return_ result)
    (fun e => return_ (error ("Error en prueba de chi-cuadrado: " ++ str_exn e)))).

Definition correlation_analysis (data : DataFrame) (var1 var2 method : string)
  (alpha : float)
  : StatisticalAnalysis -> returned pydict * StatisticalAnalysis :=
  call (try_except
    (selected <- eval (getitems data [var1; var2]) ;;
     let valid_data := dropna_rows selected in
     if n_rows valid_data <? 3 then
       return_ (error "Se necesitan al menos 3 observaciones válidas")
     else
       ' (corr_coef, p_value) <-
         (if String.eqb method "pearson" then
            x <- eval (getitem valid_data var1) ;;
            y <- eval (getitem valid_data var2) ;;
            eval (pearsonr L (dropna x) (dropna y))
          else if String.eqb method "spearman" then
            x <- eval (getitem valid_data var1) ;;
            y <- eval (getitem valid_data var2) ;;
            eval (spearmanr L (dropna x) (dropna y))
          else if String.eqb method "kendall" then
            x <- eval (getitem valid_data var1) ;;
            y <- eval (getitem valid_data var2) ;;
            eval (kendalltau L (dropna x) (dropna y))
          else
            return_ (error "Método no válido. Use: pearson, spearman, o kendall")) ;;
       let strength := _interpret_correlation_strength (PrimFloat.abs corr_coef) in
       let result : pydict :=
         [ (SStr "test_type", PStr ("Correlación de " ++ capitalize method));
           (SStr "variable_1", PStr var1);
           (SStr "variable_2", PStr var2);
           (SStr "method", PStr method);
           (SStr "sample_size", PInt (n_rows valid_data));
           (SStr "correlation_coefficient", PFloat corr_coef);
           (SStr "p_value", PFloat p_value);
           (SStr "alpha", PFloat alpha);
           (SStr "is_significant", PBool (PrimFloat.ltb p_value alpha));
           (SStr "strength", PStr strength);
           (SStr "interpretation",
            PStr (_interpret_correlation corr_coef p_value alpha strength)) ] in
       append_history result ;;
       return_ result)
    (fun e => return_ (error ("Error en análisis de correlación: " ++ str_exn e)))).

Definition linear_regression (data : DataFrame) (dependent_var : string)
  (independent_vars : string + list string) (alpha : float)
  : StatisticalAnalysis -> returned pydict * StatisticalAnalysis :=
  call (try_except
    (let independent_vars :=
       match independent_vars with          (* isinstance(independent_vars, str) *)
       | inl one => [one]
       | inr many => many
       end in
     let all_vars := dependent_var :: independent_vars in
     selected <- eval (getitems data all_vars) ;;
     let valid_data := dropna_rows selected in
     if n_rows valid_data <? len independent_vars + 2 then
       return_ (error "Datos insuficientes para regresión")
     else
       X <- eval (getitems valid_data independent_vars) ;;
       y <- eval (getitem valid_data dependent_var) ;;
       model <- eval (ols_fit L (dropna y) (columns X)) ;;
       let y_pred := predict model in
       let r_squared := rsquared model in
       let adj_r_squared := rsquared_adj model in
       mse <- eval (mean_squared_error L (dropna y) y_pred) ;;
       let rmse := PrimFloat.sqrt mse in
       let keys := map SStr ("const" :: independent_vars) in
       let result : pydict :=
         [ (SStr "test_type", PStr "Regresión lineal");
           (SStr "dependent_variable", PStr dependent_var);
           (SStr "independent_variables", PList (map PStr independent_vars));
           (SStr "sample_size", PInt (n_rows valid_data));
           (SStr "r_squared", PFloat r_squared);
           (SStr "adj_r_squared", PFloat adj_r_squared);
           (SStr "mse", PFloat mse);
           (SStr "rmse", PFloat rmse);
           (SStr "f_statistic", PFloat (fvalue model));
           (SStr "f_p_value", PFloat (f_pvalue model));
           (SStr "coefficients", PDict (dict_zip keys (map PFloat (params model)) []));
           (SStr "p_values", PDict (dict_zip keys (map PFloat (pvalues model)) []));
           (SStr "confidence_intervals",
            PDict (dict_zip keys
                     (map (fun ci => PList (map PFloat ci)) (conf_int model)) []));
           (SStr "is_significant", PBool (PrimFloat.ltb (f_pvalue model) alpha));
           (SStr "summary", PStr (summary model));
           (SStr "interpretation",
            PStr (_interpret_regression r_squared (f_pvalue model) alpha)) ] in
       append_history result ;;
       return_ result)
    (fun e => return_ (error ("Error en regresión lineal: " ++ str_exn e)))).

(** [df[key] = column_values]: replaces the column or adds it last. *)
Fixpoint set_column (cols : list Series) (c : Series) : list Series :=
  match cols with
  | [] => [c]
  | c' :: cols' =>
      if String.eqb (name c') (name c) then c :: cols' else c' :: set_column cols' c
  end.

Definition setitem (df : DataFrame) (key : string) (column_values : list scalar)
  : exn + DataFrame :=
  if len column_values =? n_rows df then
    inr {| n_rows := n_rows df;
           columns := set_column (columns df)
                        {| name := key; dtype := "int32";
                           values := map Some column_values |} |}
  else inl (ValueError "Length of values does not match length of index").

(** [range(n)] *)
Definition range (n : Z) : list Z := map Z.of_nat (seq 0 (Z.to_nat n)).

Definition cluster_variable (cluster_subset : DataFrame) (stats_dict : pydict)
  (var : string) : body pydict :=
  col <- eval (getitem cluster_subset var) ;;
  mean <- eval (Lib.mean L (dropna col)) ;;
  let stats_dict := dict_set (SStr (var ++ "_mean")) (PFloat mean) stats_dict in
  col <- eval (getitem cluster_subset var) ;;
  std <- eval (Lib.std L (dropna col)) ;;
  ret (dict_set (SStr (var ++ "_std")) (PFloat std) stats_dict).

Definition cluster_statistics (result_data : DataFrame) (variables : list string)
  (cluster_stats : list pyval) (i : Z) : body (list pyval) :=
  labels <- eval (getitem result_data "cluster") ;;
  let cluster_subset :=
    where_ result_data (eq_mask labels (Some (SNum (float_of_Z i)))) in
  ratio <- eval (truediv (n_rows cluster_subset) (n_rows result_data)) ;;
  let stats_dict : pydict :=
    [ (SStr "cluster", PInt i);
      (SStr "size", PInt (n_rows cluster_subset));
      (SStr "percentage", PFloat (PrimFloat.mul ratio 100)) ] in
  stats_dict <- for_fold variables stats_dict (cluster_variable cluster_subset) ;;
  ret (cluster_stats ++ [PDict stats_dict])%list.

(** [df.to_dict('records')] *)
Definition to_records (df : DataFrame) : list pyval :=
  map (fun r =>
         PDict (fold_left (fun rec kv => dict_set (SStr (name (fst kv)))
                                                  (pyval_of_cell (snd kv)) rec)
                          (combine (columns df) r) []))
      (rows df).

Definition kmeans_clustering (data : DataFrame) (variables : list string)
  (n_clusters random_state : Z)
  : StatisticalAnalysis -> returned pydict * StatisticalAnalysis :=
  call (try_except
    (selected <- eval (getitems data variables) ;;
     let cluster_data := dropna_rows selected in
     if n_rows cluster_data <? n_clusters then
       return_ (error ("Se necesitan al menos " ++ str_int n_clusters ++ " observaciones"))
     else
       kmeans <- eval (kmeans_fit L cluster_data n_clusters random_state) ;;
       let cluster_labels := labels_ kmeans in
       result_data <-
         eval (setitem cluster_data "cluster"
                       (map (fun l => SNum (float_of_Z l)) cluster_labels)) ;;
       cluster_stats <-
         for_fold (range n_clusters) [] (cluster_statistics result_data variables) ;;
       let inertia := inertia_ kmeans in
       let result : pydict :=
         [ (SStr "analysis_type", PStr "K-means Clustering");
           (SStr "variables", PList (map PStr variables));
           (SStr "n_clusters", PInt n_clusters);
           (SStr "sample_size", PInt (n_rows cluster_data));
           (SStr "cluster_labels", PList (map PInt cluster_labels));
           (SStr "centroids",
            PList (map (fun c => PList (map PFloat c)) (centroids kmeans)));
           (SStr "cluster_statistics", PList cluster_stats);
           (SStr "inertia", PFloat inertia);
           (SStr "data_with_clusters", PList (to_records result_data)) ] in
       append_history result ;;
       return_ result)
    (fun e => return_ (error ("Error en clustering K-means: " ++ str_exn e)))).

End Methods.
End Statistics.

(** ** Calls

    One call of an operation of [StatisticalAnalysis], with its arguments. *)

Module Calls.
Import Statistics.

Inductive Operation :=
| T_test_one_sample (data : DataFrame) (column : string) (test_value alpha : float)
| T_test_two_samples (data : DataFrame) (column group_column : string)
    (alpha : float) (equal_var : bool)
| Anova_one_way (data : DataFrame) (dependent_var independent_var : string) (alpha : float)
| Chi_square_test (data : DataFrame) (var1 var2 : string) (alpha : float)
| Correlation_analysis (data : DataFrame) (var1 var2 method : string) (alpha : float)
| Linear_regression (data : DataFrame) (dependent_var : string)
    (independent_vars : string + list string) (alpha : float)
| Kmeans_clustering (data : DataFrame) (variables : list string)
    (n_clusters random_state : Z).

Definition run (L : PyLib) (op : Operation)
  : StatisticalAnalysis -> returned pydict * StatisticalAnalysis :=
  match op with
  | T_test_one_sample data column test_value alpha =>
      t_test_one_sample L data column test_value alpha
  | T_test_two_samples data column group_column alpha equal_var =>
      t_test_two_samples L data column group_column alpha equal_var
  | Anova_one_way data dependent_var independent_var alpha =>
      anova_one_way L data dependent_var independent_var alpha
  | Chi_square_test data var1 var2 alpha => chi_square_test L data var1 var2 alpha
  | Correlation_analysis data var1 var2 method alpha =>
      correlation_analysis L data var1 var2 method alpha
  | Linear_regression data dependent_var independent_vars alpha =>
      linear_regression L data dependent_var independent_vars alpha
  | Kmeans_clustering data variables n_clusters random_state =>
      kmeans_clustering L data variables n_clusters random_state
  end.

(** The significance level of a test; the clustering has none. *)
Definition alpha_of (op : Operation) : option float :=
  match op with
  | T_test_one_sample _ _ _ alpha => Some alpha
  | T_test_two_samples _ _ _ alpha _ => Some alpha
  | Anova_one_way _ _ _ alpha => Some alpha
  | Chi_square_test _ _ _ alpha => Some alpha
  | Correlation_analysis _ _ _ _ alpha => Some alpha
  | Linear_regression _ _ _ alpha => Some alpha
  | Kmeans_clustering _ _ _ _ => None
  end.

(** The key under which a test stores the p-value it decides on: the
    regression stores that of the overall F test. *)
Definition p_value_key (op : Operation) : string :=
  match op with
  | Linear_regression _ _ _ _ => "f_p_value"
  | _ => "p_value"
  end.

(** The dict a call returned ([{}] if it raised). *)
Definition result_of {S} (x : returned pydict * S) : pydict :=
  match fst x with
  | Returned r => r
  | Raised _ => []
  end.

(** A session: the calls [ops] made one after the other on the same object;
    the results in the order of the calls, and the object at the end. *)
Fixpoint run_all (L : PyLib) (ops : list Operation) (self : StatisticalAnalysis)
  : list pydict * StatisticalAnalysis :=
  match ops with
  | [] => ([], self)
  | op :: ops' =>
      let out := run L op self in
      let rest := run_all L ops' (snd out) in
      (result_of out :: fst rest, snd rest)
  end.

End Calls.
Export Calls.

(** ** A library to run the operations on concrete tables

    Means, deviations and extrema are computed.  The tests answer the
    statistic [stat] and the p-value [p] they are given, except on a sample
    of fewer than two observations, where scipy computes NaN for both and
    does not raise. *)

Module Fixture.

Definition numbers (l : list scalar) : list float := map number l.

Definition sum (l : list float) : float := fold_left PrimFloat.add l PrimFloat.zero.

Definition mean (l : list scalar) : float :=
  np_div (sum (numbers l)) (float_of_Z (len l)).

(** The sample deviation, [ddof = 1]. *)
Definition std (l : list scalar) : float :=
  let m := mean l in
  PrimFloat.sqrt
    (np_div (sum (map (fun x => PrimFloat.mul (PrimFloat.sub x m) (PrimFloat.sub x m))
                      (numbers l)))
            (float_of_Z (len l - 1))).

Definition extremum (better : float -> float -> bool) (l : list scalar) : float :=
  match numbers l with
  | [] => PrimFloat.nan
  | x :: l' => fold_left (fun best y => if better y best then y else best) l' x
  end.

Definition answer (stat p : float) (n : Z) : float * float :=
  if n <? 2 then (PrimFloat.nan, PrimFloat.nan) else (stat, p).

Definition lib (stat p : float) : PyLib :=
  {| format_float := fun spec _ => "{:" ++ spec ++ "}";
     memory_usage := fun df => 8 * n_rows df * len (columns df);
     quantile := fun _ _ => PrimFloat.nan;
     Lib.mean := fun l => inr (mean l);
     Lib.std := fun l => inr (std l);
     Lib.min := fun l => inr (extremum PrimFloat.ltb l);
     Lib.max := fun l => inr (extremum (fun y best => PrimFloat.ltb best y) l);
     ttest_1samp := fun sample _ => inr (answer stat p (len sample));
     t_interval := fun _ df loc scale =>
       inr (if df <? 1 then (PrimFloat.nan, PrimFloat.nan)
            else (PrimFloat.sub loc scale, PrimFloat.add loc scale));
     ttest_ind := fun a b _ => inr (answer stat p (Z.min (len a) (len b)));
     f_oneway := fun groups => inr (answer stat p (len groups));
     crosstab := fun a b =>
       inr {| ct_index := distinct scalar_eqb [] (dropna a);
              ct_columns := distinct scalar_eqb [] (dropna b);
              ct_counts := [] |};
     chi2_contingency := fun _ => inr (stat, p, 0, []);
     pearsonr := fun a _ => inr (answer stat p (len a));
     spearmanr := fun a _ => inr (answer stat p (len a));
     kendalltau := fun a _ => inr (answer stat p (len a));
     ols_fit := fun y _ =>
       inr {| rsquared := stat; rsquared_adj := stat; fvalue := stat; f_pvalue := p;
              params := []; pvalues := []; conf_int := []; summary := "";
              predict := numbers y |};
     mean_squared_error := fun _ _ => inr PrimFloat.zero;
     kmeans_fit := fun df _ _ =>
       inr {| labels_ := map (fun _ => 0) (rows df);
              centroids := [];
              inertia_ := PrimFloat.zero |} |}.

End Fixture.

(** * Properties *)

(** ** Reasoning about method bodies of [StatisticalAnalysis]

    [good E Q c]: the statement [c] leaves the history alone unless it
    returns a result that is not an error, which then satisfies [Q] and is
    the one entry appended; an error it returns has a message of [E]. *)

Module StatisticsFacts.
Import Statistics.

Definition good {A} (E : list string) (Q : pydict -> Prop) (c : body A) : Prop :=
  forall s,
    match c s with
    | (Raise _, s') => s' = s
    | (Next _, s') => s' = s
    | (Return r, s') =>
        (exists msg, r = error msg /\ In msg E /\ s' = s) \/
        (is_error r = false /\ Q r /\
         s' = {| results_history := (results_history s ++ [r])%list |})
    end.

(** What a caller observes of a method: it returns, either an error with
    the history untouched, or a result satisfying [Q], appended.  The error
    is one of [E] or reports an exception after [prefix]. *)
Definition method_spec (E : list string) (prefix : string) (Q : pydict -> Prop)
  (m : StatisticalAnalysis -> returned pydict * StatisticalAnalysis) : Prop :=
  forall s, exists r,
    (m s = (Returned r, s) /\
     exists msg, r = error msg /\ (In msg E \/ exists e, msg = prefix ++ str_exn e)) \/
    (m s = (Returned r, {| results_history := (results_history s ++ [r])%list |})
     /\ is_error r = false /\ Q r).

Lemma good_ret {A} E Q (a : A) : good E Q (ret a).
Proof. intros s; reflexivity. Qed.

Lemma good_eval {A} E Q (x : exn + A) : good E Q (eval x).
Proof. intros s; unfold eval; destruct x; reflexivity. Qed.

Lemma good_return_error {A} E Q msg : In msg E -> good (A := A) E Q (return_ (error msg)).
Proof. intros Hin s; cbn. left; eauto. Qed.

Lemma good_bind {A B} E Q (c : body A) (k : A -> body B) :
  good E Q c -> (forall a, good E Q (k a)) -> good E Q (bind c k).
Proof.
  intros Hc Hk s. unfold bind. specialize (Hc s).
  destruct (c s) as [[e | r | a] s']; auto.
  subst s'. apply Hk.
Qed.

Lemma good_for_fold {X Acc} E Q (l : list X) (f : Acc -> X -> body Acc) :
  (forall acc x, good E Q (f acc x)) -> forall acc, good E Q (for_fold l acc f).
Proof.
  intros Hf. induction l as [| x l IH]; intros acc; cbn [for_fold].
  - apply good_ret.
  - apply good_bind; auto.
Qed.

Lemma good_commit E (Q : pydict -> Prop) (result : pydict) :
  is_error result = false -> Q result ->
  good (A := pydict) E Q (bind (append_history result) (fun _ => return_ result)).
Proof. intros He HQ s; cbn. right; auto. Qed.

(** [final E Q c]: moreover [c] does not fall through, as a body that ends
    in [return] in every branch. *)
Definition final {A} (E : list string) (Q : pydict -> Prop) (c : body A) : Prop :=
  good E Q c /\ forall s, match fst (c s) with Next _ => False | _ => True end.

Lemma final_return_error {A} E Q msg :
  In msg E -> final (A := A) E Q (return_ (error msg)).
Proof. split; [now apply good_return_error | intros s; exact I]. Qed.

Lemma final_commit E (Q : pydict -> Prop) (result : pydict) :
  is_error result = false -> Q result ->
  final (A := pydict) E Q (bind (append_history result) (fun _ => return_ result)).
Proof. intros He HQ. split; [now apply good_commit | intros s; exact I]. Qed.

Lemma final_bind {A B} E Q (c : body A) (k : A -> body B) :
  good E Q c -> (forall a, final E Q (k a)) -> final E Q (bind c k).
Proof.
  intros Hc Hk. split.
  - apply good_bind; [assumption | intros a; apply Hk].
  - intros s. unfold bind. destruct (c s) as [[e | r | a] s']; cbn; auto.
    apply (proj2 (Hk a) s').
Qed.

Lemma method_spec_intro E Q (c : body pydict) (prefix : string) :
  final E Q c ->
  method_spec E prefix Q
    (call (try_except c (fun e => return_ (error (prefix ++ str_exn e))))).
Proof.
  intros [Hc Hn] s. unfold call, try_except. specialize (Hc s). specialize (Hn s).
  destruct (c s) as [[e | r | a] s']; cbn in Hn.
  - subst s'. exists (error (prefix ++ str_exn e)). left. cbn. eauto 6.
  - destruct Hc as [(msg & -> & Hin & ->) | (He & HQ & ->)].
    + exists (error msg). left; eauto.
    + exists r. right; auto.
  - contradiction.
Qed.

Lemma is_error_error msg : is_error (error msg) = true.
Proof. reflexivity. Qed.

Ltac head_of t := lazymatch t with ?f _ => head_of f | _ => t end.

(** One step of the proof that a body is [good] or [final]. *)
Ltac good_step :=
  lazymatch goal with
  | |- good _ _ (let '(_, _) := ?x in _) => destruct x
  | |- good _ _ (bind _ _) => apply good_bind; [ | intros ]
  | |- good _ _ (eval _) => apply good_eval
  | |- good _ _ (ret _) => apply good_ret
  | |- good _ _ (return_ (error _)) => apply good_return_error; cbn; auto 10
  | |- good _ _ (for_fold _ _ _) => apply good_for_fold; intros
  | |- good _ _ (if ?b then _ else _) => destruct b
  | |- good _ _ (match ?x with _ => _ end) => destruct x
  | |- good _ _ ?c => let h := head_of c in progress unfold h
  end.

Ltac final_step :=
  lazymatch goal with
  | |- final _ _ (return_ (error _)) => apply final_return_error; cbn; auto 10
  | |- final _ _ (bind (append_history _) _) => apply final_commit
  | |- final _ _ (bind _ _) => apply final_bind; [ repeat good_step | intros ]
  | |- final _ _ (if ?b then _ else _) => destruct b
  | |- final _ _ (match ?x with _ => _ end) => destruct x
  end.

(** *** The fields every body writes *)

Definition has_keys (keys : list string) (r : pydict) : Prop :=
  Forall (fun k : string => dict_has k r = true) keys.

Definition lacks_keys (keys : list string) (r : pydict) : Prop :=
  Forall (fun k : string => dict_has k r = false) keys.

(** [is_significant] is the comparison of the p-value stored under [pkey]
    with [alpha]. *)
Definition significance (pkey : string) (alpha : float) (r : pydict) : Prop :=
  exists p, dict_get pkey r = Some (PFloat p) /\
            dict_get "is_significant" r = Some (PBool (PrimFloat.ltb p alpha)).

Definition common_fields : list string :=
  ["test_type"; "p_value"; "alpha"; "is_significant"; "interpretation"].

(** The result of one of the five tests that store [p_value] and [alpha]. *)
Definition test_result (label : string) (alpha : float) (r : pydict) : Prop :=
  dict_get "test_type" r = Some (PStr label) /\
  dict_get "alpha" r = Some (PFloat alpha) /\
  significance "p_value" alpha r /\
  has_keys common_fields r.

(** The result of the regression: the p-value of the F test is under
    [f_p_value]; there is no [p_value] and no [alpha]. *)
Definition regression_fields : list string :=
  ["test_type"; "f_p_value"; "is_significant"; "interpretation"].

Definition regression_result (alpha : float) (r : pydict) : Prop :=
  dict_get "test_type" r = Some (PStr "Regresión lineal") /\
  significance "f_p_value" alpha r /\
  has_keys regression_fields r /\
  lacks_keys ["p_value"; "alpha"] r.

(** The result of the clustering: labelled under [analysis_type], none of
    the fields of a test. *)
Definition clustering_result (r : pydict) : Prop :=
  dict_get "analysis_type" r = Some (PStr "K-means Clustering") /\
  lacks_keys common_fields r.

Ltac fields :=
  repeat lazymatch goal with
  | |- _ /\ _ => split
  | |- significance _ _ _ => eexists; split; reflexivity
  | |- has_keys _ _ => unfold has_keys, common_fields, regression_fields; repeat constructor
  | |- lacks_keys _ _ => unfold lacks_keys, common_fields; repeat constructor
  | |- _ = _ => reflexivity
  end.

Ltac method_spec_tac result :=
  apply method_spec_intro; repeat final_step; unfold result; fields.

Definition two_groups_message : string :=
  "La variable de agrupación debe tener exactamente 2 grupos".
Definition anova_groups_message : string := "Se necesitan al menos 2 grupos para ANOVA".
Definition three_pairs_message : string := "Se necesitan al menos 3 observaciones válidas".
Definition invalid_method_message : string :=
  "Método no válido. Use: pearson, spearman, o kendall".
Definition regression_data_message : string := "Datos insuficientes para regresión".
Definition kmeans_message (n_clusters : Z) : string :=
  "Se necesitan al menos " ++ str_int n_clusters ++ " observaciones".

Section Specs.
Context (L : PyLib).

Lemma t_test_one_sample_spec data column test_value alpha :
  method_spec [] "Error en prueba t de una muestra: "
              (test_result "Prueba t de una muestra" alpha)
              (t_test_one_sample L data column test_value alpha).
Proof. unfold t_test_one_sample. method_spec_tac test_result. Qed.

Lemma t_test_two_samples_spec data column group_column alpha equal_var :
  method_spec [two_groups_message] "Error en prueba t de dos muestras: "
              (test_result "Prueba t de dos muestras independientes" alpha)
              (t_test_two_samples L data column group_column alpha equal_var).
Proof. unfold t_test_two_samples. method_spec_tac test_result. Qed.

Lemma anova_one_way_spec data dependent_var independent_var alpha :
  method_spec [anova_groups_message] "Error en ANOVA: "
              (test_result "ANOVA de un factor" alpha)
              (anova_one_way L data dependent_var independent_var alpha).
Proof. unfold anova_one_way. method_spec_tac test_result. Qed.

Lemma chi_square_test_spec data var1 var2 alpha :
  method_spec [] "Error en prueba de chi-cuadrado: "
              (test_result "Prueba de chi-cuadrado de independencia" alpha)
              (chi_square_test L data var1 var2 alpha).
Proof. unfold chi_square_test. method_spec_tac test_result. Qed.

Lemma correlation_analysis_spec data var1 var2 method alpha :
  method_spec [three_pairs_message; invalid_method_message]
              "Error en análisis de correlación: "
              (test_result ("Correlación de " ++ capitalize method) alpha)
              (correlation_analysis L data var1 var2 method alpha).
Proof. unfold correlation_analysis. method_spec_tac test_result. Qed.

Lemma linear_regression_spec data dependent_var independent_vars alpha :
  method_spec [regression_data_message] "Error en regresión lineal: "
              (regression_result alpha)
              (linear_regression L data dependent_var independent_vars alpha).
Proof. unfold linear_regression. method_spec_tac regression_result. Qed.

Lemma kmeans_clustering_spec data variables n_clusters random_state :
  method_spec [kmeans_message n_clusters] "Error en clustering K-means: "
              clustering_result
              (kmeans_clustering L data variables n_clusters random_state).
Proof. unfold kmeans_clustering. method_spec_tac clustering_result. Qed.

End Specs.
End StatisticsFacts.

(** ** The results and the history of [StatisticalAnalysis] *)

Import Statistics StatisticsFacts.

(** What the result of each operation looks like when it is not an error. *)
Definition result_kind (op : Operation) : pydict -> Prop :=
  match op with
  | T_test_one_sample _ _ _ alpha => test_result "Prueba t de una muestra" alpha
  | T_test_two_samples _ _ _ alpha _ =>
      test_result "Prueba t de dos muestras independientes" alpha
  | Anova_one_way _ _ _ alpha => test_result "ANOVA de un factor" alpha
  | Chi_square_test _ _ _ alpha =>
      test_result "Prueba de chi-cuadrado de independencia" alpha
  | Correlation_analysis _ _ _ method alpha =>
      test_result ("Correlación de " ++ capitalize method) alpha
  | Linear_regression _ _ _ alpha => regression_result alpha
  | Kmeans_clustering _ _ _ _ => clustering_result
  end.

Lemma run_spec L op :
  exists E prefix, method_spec E prefix (result_kind op) (run L op).
Proof.
  destruct op; cbn [run result_kind]; do 2 eexists.
  - apply t_test_one_sample_spec.
  - apply t_test_two_samples_spec.
  - apply anova_one_way_spec.
  - apply chi_square_test_spec.
  - apply correlation_analysis_spec.
  - apply linear_regression_spec.
  - apply kmeans_clustering_spec.
Qed.

(** A call never raises; what it returns is an error and the object is
    unchanged, or a result of the kind of the operation, appended. *)
Lemma run_cases L op self :
  exists result,
    (run L op self = (Returned result, self) /\ is_error result = true) \/
    (run L op self =
       (Returned result,
        {| results_history := (results_history self ++ [result])%list |})
     /\ is_error result = false /\ result_kind op result).
Proof.
  destruct (run_spec L op) as (E & prefix & H).
  destruct (H self) as [r [[Hrun (msg & -> & _)] | (Hrun & He & HQ)]].
  - exists (error msg). left. auto using is_error_error.
  - exists r. right. auto.
Qed.

Lemma run_success L op self result self' :
  run L op self = (Returned result, self') ->
  is_error result = false ->
  result_kind op result /\
  self' = {| results_history := (results_history self ++ [result])%list |}.
Proof.
  intros Hrun He.
  destruct (run_cases L op self) as [r [[Hr Her] | (Hr & _ & HQ)]];
    rewrite Hrun in Hr; injection Hr as -> ->.
  - congruence.
  - auto.
Qed.

(** C7: within one [StatisticalAnalysis] object every call returns; a call
    that returns a result which is not an error appends exactly that result
    at the end of the history, and a call that returns an error leaves the
    history as it was; so after any session [get_analysis_history] lists
    the results that are not errors in the order of the calls;
    [clear_history] empties the history. *)
Theorem history_records_successful_calls :
  forall (L : PyLib) (self : StatisticalAnalysis),
    (forall op : Operation,
        exists result self',
          run L op self = (Returned result, self') /\
          get_analysis_history self' =
            (if is_error result then get_analysis_history self
             else get_analysis_history self ++ [result])%list) /\
    (forall ops : list Operation,
        get_analysis_history (snd (run_all L ops self))
        = (get_analysis_history self
           ++ filter (fun r => negb (is_error r)) (fst (run_all L ops self)))%list) /\
    get_analysis_history (clear_history self) = [].
Proof.
  intros L self. split; [| split; [| reflexivity]].
  - intros op. destruct (run_cases L op self) as [r [[Hr He] | (Hr & He & _)]].
    + exists r, self. rewrite He. auto.
    + eexists r, _. rewrite He. split; [exact Hr | reflexivity].
  - intros ops. revert self. induction ops as [| op ops IH]; intros self.
    + cbn. now rewrite app_nil_r.
    + cbn [run_all fst snd filter]. rewrite IH. unfold result_of.
      destruct (run_cases L op self) as [r [[Hr He] | (Hr & He & _)]];
        rewrite Hr; cbn [fst snd]; rewrite He; cbn [negb].
      * reflexivity.
      * unfold get_analysis_history. cbn [results_history].
        now rewrite <- app_assoc.
Qed.

(** C1: for each of the six tests and every [alpha], the field
    [is_significant] of a result is true exactly when the p-value of the
    result is strictly below [alpha]; for the regression the p-value is that
    of the overall F test, stored under [f_p_value]. *)
Theorem is_significant_iff_p_value_below_alpha :
  forall (L : PyLib) (op : Operation) (alpha : float)
         (self self' : StatisticalAnalysis) (result : pydict),
    alpha_of op = Some alpha ->
    run L op self = (Returned result, self') ->
    is_error result = false ->
    exists p b,
      dict_get (p_value_key op) result = Some (PFloat p) /\
      dict_get "is_significant" result = Some (PBool b) /\
      (b = true <-> PrimFloat.ltb p alpha = true).
Proof.
  intros L op alpha self self' result Ha Hrun He.
  destruct (run_success L op self result self' Hrun He) as [HQ _].
  destruct op; cbn in Ha; inversion Ha; subst; cbn [result_kind p_value_key] in *.
  1-5: destruct HQ as (_ & _ & (p & Hp & Hs) & _);
       exists p, (PrimFloat.ltb p alpha); repeat split; auto.
  destruct HQ as (_ & (p & Hp & Hs) & _);
    exists p, (PrimFloat.ltb p alpha); repeat split; auto.
Qed.

(** A column of three scores and the table that holds it. *)
Definition scores : DataFrame :=
  {| n_rows := 3;
     columns := [ {| name := "score"; dtype := "float64";
                     values := [Some (SNum 5); Some (SNum 7); Some (SNum 9)] |} ] |}.

Lemma is_significant_iff_p_value_below_alpha_witness :
  exists p b,
    dict_get "p_value"
      (result_of (t_test_one_sample (Fixture.lib 2.5 0.01) scores "score" 5 0.05 init))
      = Some (PFloat p) /\
    dict_get "is_significant"
      (result_of (t_test_one_sample (Fixture.lib 2.5 0.01) scores "score" 5 0.05 init))
      = Some (PBool b) /\
    (b = true <-> PrimFloat.ltb p 0.05 = true).
Proof.
  exact (is_significant_iff_p_value_below_alpha (Fixture.lib 2.5 0.01)
           (T_test_one_sample scores "score" 5 0.05) 0.05 init _ _
           eq_refl eq_refl eq_refl).
Defined.

(** On the three scores, with a p-value of 0.01 from the library, the test
    is significant at 0.05 and not at 0.001. *)
Example scores_significant_at_5_percent :
  dict_get "is_significant"
    (result_of (t_test_one_sample (Fixture.lib 2.5 0.01) scores "score" 5 0.05 init))
  = Some (PBool true).
Proof. reflexivity. Qed.

Example scores_not_significant_at_1_per_mille :
  dict_get "is_significant"
    (result_of (t_test_one_sample (Fixture.lib 2.5 0.01) scores "score" 5 0.001 init))
  = Some (PBool false).
Proof. reflexivity. Qed.

(** A column that is not in the table: the exception is reported. *)
Example unknown_column_is_reported :
  t_test_one_sample (Fixture.lib 2.5 0.01) scores "age" 5 0.05 init
  = (Returned (error "Error en prueba t de una muestra: 'age'"), init).
Proof. reflexivity. Qed.

(** C4, as stated, fails: the result of the clustering is not an error and
    has no [p_value] (nor any other of the five fields). *)
Lemma kmeans_result_lacks_test_fields :
  let result :=
    result_of (kmeans_clustering (Fixture.lib 2.5 0.01) scores ["score"] 1 42 init) in
  is_error result = false /\
  dict_has "p_value" result = false /\
  ~ has_keys common_fields result.
Proof.
  cbv zeta. split; [reflexivity |]. split; [reflexivity |].
  intros H. unfold has_keys, common_fields in H.
  apply Forall_inv in H. discriminate H.
Qed.

(** C4, amended: a result that is not an error has the fields [test_type],
    [p_value], [alpha], [is_significant] and [interpretation] when it comes
    from the one-sample t, two-sample t, ANOVA, chi-square or correlation
    test; the result of the regression has [test_type], [is_significant] and
    [interpretation], its p-value under [f_p_value], and neither [p_value]
    nor [alpha]; the result of the clustering has none of the five and is
    labelled under [analysis_type]. *)
Theorem result_fields_by_kind :
  forall (L : PyLib) (op : Operation) (self self' : StatisticalAnalysis)
         (result : pydict),
    run L op self = (Returned result, self') ->
    is_error result = false ->
    match op with
    | Kmeans_clustering _ _ _ _ =>
        lacks_keys common_fields result /\ dict_has "analysis_type" result = true
    | Linear_regression _ _ _ _ =>
        has_keys regression_fields result /\ lacks_keys ["p_value"; "alpha"] result
    | _ => has_keys common_fields result
    end.
Proof.
  intros L op self self' result Hrun He.
  destruct (run_success L op self result self' Hrun He) as [HQ _].
  destruct op; cbn [result_kind] in HQ.
  1-5: apply HQ.
  - destruct HQ as (_ & _ & Hh & Hl). auto.
  - destruct HQ as (Ha & Hl). split; [exact Hl |].
    unfold dict_has. now rewrite Ha.
Qed.

Lemma result_fields_by_kind_witness :
  has_keys common_fields
    (result_of (t_test_one_sample (Fixture.lib 2.5 0.01) scores "score" 5 0.05 init)).
Proof.
  exact (result_fields_by_kind (Fixture.lib 2.5 0.01)
           (T_test_one_sample scores "score" 5 0.05) init _ _ eq_refl eq_refl).
Defined.

(** ** The guards of the tests *)

Section Guards.
Context (L : PyLib).

(** The first statements of [t_test_two_samples]: with a number of groups
    other than two the call returns the error and nothing else happens. *)
Lemma two_samples_wrong_count data column group_column alpha equal_var self group_col :
  getitem data group_column = inr group_col ->
  len (unique group_col) <> 2 ->
  t_test_two_samples L data column group_column alpha equal_var self
  = (Returned (error two_groups_message), self).
Proof.
  intros Hget Hn. unfold t_test_two_samples, call, try_except, bind at 1.
  rewrite Hget. cbn [eval].
  apply Z.eqb_neq in Hn. rewrite Hn. reflexivity.
Qed.

(** With exactly two groups the call goes on to the test: whatever it
    returns then is the result of the test or reports an exception. *)
Lemma two_samples_right_count data column group_column alpha equal_var self group_col :
  getitem data group_column = inr group_col ->
  len (unique group_col) = 2 ->
  exists r,
    (t_test_two_samples L data column group_column alpha equal_var self
     = (Returned r, self) /\
     exists e, r = error ("Error en prueba t de dos muestras: " ++ str_exn e)) \/
    (t_test_two_samples L data column group_column alpha equal_var self
     = (Returned r, {| results_history := (results_history self ++ [r])%list |}) /\
     is_error r = false /\
     test_result "Prueba t de dos muestras independientes" alpha r).
Proof.
  intros Hget Hn. unfold t_test_two_samples.
  match goal with
  | |- context [try_except (bind (eval (getitem data group_column)) ?k) ?h] =>
      assert (Hfin : final [] (test_result "Prueba t de dos muestras independientes" alpha)
                           (k group_col));
      [ | change (try_except (bind (eval (getitem data group_column)) k) h)
            with (try_except (fun s => bind (eval (getitem data group_column)) k s) h) ]
  end.
  - cbv beta. apply Z.eqb_eq in Hn. rewrite Hn. cbn [negb].
    repeat final_step; unfold test_result; fields.
  - apply (method_spec_intro _ _ _ "Error en prueba t de dos muestras: ") in Hfin.
    destruct (Hfin self) as [r [[Hr (msg & -> & [[] | [e ->]])] | (Hr & He & HQ)]].
    + exists (error ("Error en prueba t de dos muestras: " ++ str_exn e)).
      left. split; [| eauto].
      rewrite <- Hr. unfold call, try_except, bind at 1. rewrite Hget. reflexivity.
    + exists r. right. split; [| auto].
      rewrite <- Hr. unfold call, try_except, bind at 1. rewrite Hget. reflexivity.
Qed.


(** [unique] counts the missing value as one more value than [nunique]. *)
Lemma seen_present (a : scalar) (c : cell) (seen : list cell) :
  isna c = false -> c = Some a ->
  existsb (cell_same c) seen = existsb (scalar_eqb a) (present seen).
Proof.
  intros Hc ->. induction seen as [| y seen IH]; [reflexivity |].
  cbn [existsb present]. unfold cell_same at 1. rewrite Hc.
  destruct (isna y) eqn:Hy.
  - exact IH.
  - destruct y as [b |]; [| discriminate Hy].
    cbn [existsb]. now rewrite IH.
Qed.

Lemma seen_missing (c : cell) (seen : list cell) :
  isna c = true -> existsb (cell_same c) seen = existsb isna seen.
Proof.
  intros Hc. induction seen as [| y seen IH]; [reflexivity |].
  cbn [existsb]. unfold cell_same at 1. now rewrite Hc, IH.
Qed.

Lemma distinct_cells (l seen : list cell) :
  len (distinct cell_same seen l)
  = len (distinct scalar_eqb (present seen) (present l))
    + (if existsb isna seen then 0 else if existsb isna l then 1 else 0).
Proof.
  unfold len. revert seen. induction l as [| c l IH]; intros seen.
  - cbn. destruct (existsb isna seen); reflexivity.
  - cbn [distinct present existsb]. destruct (isna c) eqn:Hc.
    + rewrite (seen_missing c seen Hc). cbn [orb].
      destruct (existsb isna seen) eqn:Hs.
      * rewrite IH, Hs. reflexivity.
      * cbn [List.length]. rewrite Nat2Z.inj_succ, IH.
        cbn [existsb present]. rewrite Hc. cbn [orb]. lia.
    + destruct c as [a |]; [| discriminate Hc].
      rewrite (seen_present a (Some a) seen Hc eq_refl).
      cbn [distinct orb].
      destruct (existsb (scalar_eqb a) (present seen)).
      * apply IH.
      * cbn [List.length]. rewrite !Nat2Z.inj_succ, IH.
        cbn [existsb present]. rewrite Hc. cbn [orb]. lia.
Qed.

(** The two missing values of an object column. *)
Definition is_none (c : cell) : bool :=
  match c with None => true | Some _ => false end.

Definition is_nan_cell (c : cell) : bool :=
  match c with Some _ => isna c | None => false end.

Lemma isna_kinds (c : cell) : isna c = is_none c || is_nan_cell c.
Proof. destruct c; reflexivity. Qed.

Lemma existsb_isna_kinds (l : list cell) :
  existsb isna l = existsb is_none l || existsb is_nan_cell l.
Proof.
  induction l as [| c l IH]; [reflexivity |].
  cbn [existsb]. rewrite IH, isna_kinds.
  destruct (is_none c), (is_nan_cell c), (existsb is_none l); reflexivity.
Qed.

Lemma object_seen_present (a : scalar) (seen : list cell) :
  isna (Some a) = false ->
  existsb (object_same (Some a)) seen = existsb (scalar_eqb a) (present seen).
Proof.
  intros Hc. induction seen as [| y seen IH]; [reflexivity |].
  cbn [existsb present]. destruct y as [b |].
  - unfold object_same at 1. rewrite Hc.
    destruct (isna (Some b)) eqn:Hy; [exact IH |].
    cbn [existsb]. now rewrite IH.
  - cbn [object_same isna orb]. exact IH.
Qed.

Lemma object_seen_none (seen : list cell) :
  existsb (object_same None) seen = existsb is_none seen.
Proof.
  induction seen as [| y seen IH]; [reflexivity |].
  cbn [existsb]. rewrite IH. destruct y; reflexivity.
Qed.

Lemma object_seen_nan (a : scalar) (seen : list cell) :
  isna (Some a) = true ->
  existsb (object_same (Some a)) seen = existsb is_nan_cell seen.
Proof.
  intros Hc. induction seen as [| y seen IH]; [reflexivity |].
  cbn [existsb]. rewrite IH. destruct y as [b |]; [| reflexivity].
  unfold object_same. rewrite Hc. reflexivity.
Qed.

Lemma distinct_objects (l seen : list cell) :
  len (distinct object_same seen l)
  = len (distinct scalar_eqb (present seen) (present l))
    + (if existsb is_none seen then 0 else if existsb is_none l then 1 else 0)
    + (if existsb is_nan_cell seen then 0 else if existsb is_nan_cell l then 1 else 0).
Proof.
  unfold len. revert seen. induction l as [| c l IH]; intros seen.
  - cbn. destruct (existsb is_none seen), (existsb is_nan_cell seen); reflexivity.
  - cbn [distinct present existsb]. destruct c as [a |].
    + destruct (isna (Some a)) eqn:Hc.
      * rewrite (object_seen_nan a seen Hc).
        assert (Hn : is_nan_cell (Some a) = true) by exact Hc.
        rewrite Hn. cbn [is_none orb].
        destruct (existsb is_nan_cell seen) eqn:Hs.
        -- rewrite IH, Hs. reflexivity.
        -- cbn [List.length]. rewrite Nat2Z.inj_succ, IH.
           cbn [existsb present is_none]. rewrite Hc, Hn. cbn [orb].
           destruct (existsb is_none seen), (existsb is_none l); lia.
      * rewrite (object_seen_present a seen Hc).
        assert (Hn : is_nan_cell (Some a) = false) by exact Hc.
        rewrite Hn. cbn [is_none orb distinct].
        destruct (existsb (scalar_eqb a) (present seen)).
        -- apply IH.
        -- cbn [List.length]. rewrite !Nat2Z.inj_succ, IH.
           cbn [existsb present is_none]. rewrite Hc, Hn. cbn [orb]. lia.
    + rewrite object_seen_none. cbn [is_none is_nan_cell isna orb].
      destruct (existsb is_none seen) eqn:Hs.
      * rewrite IH, Hs. reflexivity.
      * cbn [List.length]. rewrite Nat2Z.inj_succ, IH.
        cbn [existsb present is_none is_nan_cell isna]. rewrite Hs. cbn [orb].
        destruct (existsb is_nan_cell seen), (existsb is_nan_cell l); lia.
Qed.

(** The missing values that [unique] keeps: [None] and NaN in an object
    column, one missing value in a column of another dtype. *)
Definition missing_kinds (s : Series) : Z :=
  if String.eqb (dtype s) "object" then
    (if existsb is_none (values s) then 1 else 0)
    + (if existsb is_nan_cell (values s) then 1 else 0)
  else if existsb isna (values s) then 1 else 0.

(** [unique] counts the missing values that [nunique] leaves out. *)
Lemma unique_counts_missing (s : Series) :
  len (unique s) = nunique s + missing_kinds s.
Proof.
  unfold unique, nunique, dropna, missing_kinds.
  destruct (String.eqb (dtype s) "object").
  - rewrite distinct_objects. cbn [existsb present]. lia.
  - now rewrite distinct_cells.
Qed.

Lemma missing_kinds_bounds (s : Series) :
  (existsb isna (values s) = true -> 1 <= missing_kinds s <= 2) /\
  (existsb isna (values s) = false -> missing_kinds s = 0).
Proof.
  unfold missing_kinds. rewrite existsb_isna_kinds.
  destruct (String.eqb (dtype s) "object"), (existsb is_none (values s)),
    (existsb is_nan_cell (values s)); cbn; split; intros; try lia; discriminate.
Qed.

End Guards.

(** Scores of two classes. *)
Definition two_classes : DataFrame :=
  {| n_rows := 4;
     columns := [ {| name := "score"; dtype := "float64";
                     values := [Some (SNum 5); Some (SNum 7); Some (SNum 6); Some (SNum 9)] |};
                  {| name := "class"; dtype := "object";
                     values := [Some (SStr "a"); Some (SStr "a");
                                Some (SStr "b"); Some (SStr "b")] |} ] |}.

Definition class_column : Series :=
  {| name := "class"; dtype := "object";
     values := [Some (SStr "a"); Some (SStr "a"); Some (SStr "b"); Some (SStr "b")] |}.

(** C5, as stated, fails: with exactly two groups the call can still
    return an error object.  Here the grouping column has the two values
    [a] and [b] and the column to test is not in the table: the exception
    is reported in an error object. *)
Lemma two_groups_can_still_give_an_error :
  getitem two_classes "class" = inr class_column /\
  len (unique class_column) = 2 /\
  t_test_two_samples (Fixture.lib 2.5 0.01) two_classes "age" "class" 0.05 true init
  = (Returned (error "Error en prueba t de dos muestras: 'age'"), init) /\
  is_error (error "Error en prueba t de dos muestras: 'age'") = true.
Proof. repeat split; reflexivity. Qed.



(** An object column that holds both [None] and NaN. *)
Definition holds_none_and_nan (s : Series) : bool :=
  String.eqb (dtype s) "object"
  && existsb is_none (values s) && existsb is_nan_cell (values s).

(** C9: in [t_test_two_samples] a missing value of the grouping column is
    one of the groups that are counted: when the column has exactly two
    distinct values that are not missing and at least one missing value,
    three groups are counted (four when an object column holds both [None]
    and NaN, which are two values there) and the call returns the error
    about the number of groups, leaving the history as it was. *)
Theorem missing_group_value_counts_as_a_group :
  forall (L : PyLib) (data : DataFrame) (column group_column : string)
         (alpha : float) (equal_var : bool) (self : StatisticalAnalysis)
         (group_col : Series),
    getitem data group_column = inr group_col ->
    nunique group_col = 2 ->
    existsb isna (values group_col) = true ->
    len (unique group_col) = (if holds_none_and_nan group_col then 4 else 3) /\
    t_test_two_samples L data column group_column alpha equal_var self
    = (Returned (error two_groups_message), self).
Proof.
  intros L data column group_column alpha equal_var self group_col Hget Hn Hna.
  assert (H3 : len (unique group_col) = (if holds_none_and_nan group_col then 4 else 3)).
  { rewrite unique_counts_missing, Hn. unfold missing_kinds, holds_none_and_nan.
    rewrite existsb_isna_kinds in *.
    destruct (String.eqb (dtype group_col) "object"),
      (existsb is_none (values group_col)), (existsb is_nan_cell (values group_col));
      cbn in *; try reflexivity; discriminate Hna. }
  split; [exact H3 |].
  apply two_samples_wrong_count with (group_col := group_col); [exact Hget |].
  rewrite H3. destruct (holds_none_and_nan group_col); lia.
Qed.

(** Two classes and a row whose class is missing. *)
Definition class_with_missing : Series :=
  {| name := "class"; dtype := "object";
     values := [Some (SStr "a"); Some (SStr "b"); None; Some (SStr "b"); Some (SStr "a")] |}.

Definition two_classes_and_missing : DataFrame :=
  {| n_rows := 5;
     columns := [ {| name := "score"; dtype := "float64";
                     values := [Some (SNum 5); Some (SNum 7); Some (SNum 6);
                                Some (SNum 9); Some (SNum 8)] |};
                  class_with_missing ] |}.

Lemma missing_group_value_counts_as_a_group_witness :
  len (unique class_with_missing) = 3 /\
  t_test_two_samples (Fixture.lib 2.5 0.01) two_classes_and_missing
    "score" "class" 0.05 true init
  = (Returned (error two_groups_message), init).
Proof.
  exact (missing_group_value_counts_as_a_group (Fixture.lib 2.5 0.01)
           two_classes_and_missing "score" "class" 0.05 true init class_with_missing
           eq_refl eq_refl eq_refl).
Defined.

(** ** The method of the correlation *)

(** Two complete pairs. *)
Definition two_pairs : DataFrame :=
  {| n_rows := 2;
     columns := [ {| name := "x"; dtype := "float64";
                     values := [Some (SNum 1); Some (SNum 2)] |};
                  {| name := "y"; dtype := "float64";
                     values := [Some (SNum 3); Some (SNum 5)] |} ] |}.

(** C6, as stated, fails: with an unknown method and two pairs the call
    reports the number of observations, not the method; the rows were
    filtered and counted before the method was looked at. *)
Lemma unknown_method_reported_after_the_pairs_are_counted :
  correlation_analysis (Fixture.lib 2.5 0.01) two_pairs "x" "y" "cosine" 0.05 init
  = (Returned (error three_pairs_message), init) /\
  error three_pairs_message <> error invalid_method_message.
Proof. split; [reflexivity | discriminate]. Qed.

(** C6, amended: for a method other than [pearson], [spearman] and
    [kendall], [correlation_analysis] never raises and returns an error,
    leaving the history as it was.  The method is looked at after the two
    columns are selected and the complete pairs counted: the error is the
    invalid-method message when both columns are in the table and at least
    3 complete pairs remain, the message about the observations when fewer
    remain, and the report of the exception when a column is not there. *)
Theorem unknown_method_is_an_error :
  forall (L : PyLib) (data : DataFrame) (var1 var2 method : string)
         (alpha : float) (self : StatisticalAnalysis),
    method <> "pearson" -> method <> "spearman" -> method <> "kendall" ->
    correlation_analysis L data var1 var2 method alpha self
    = (Returned
         (error
            match getitems data [var1; var2] with
            | inl e => "Error en análisis de correlación: " ++ str_exn e
            | inr selected =>
                if n_rows (dropna_rows selected) <? 3 then three_pairs_message
                else invalid_method_message
            end),
       self).
Proof.
  intros L data var1 var2 method alpha self Hp Hs Hk.
  apply String.eqb_neq in Hp, Hs, Hk.
  unfold correlation_analysis, call, try_except, bind, eval.
  destruct (getitems data [var1; var2]) as [e | selected]; [reflexivity |].
  destruct (n_rows (dropna_rows selected) <? 3); [reflexivity |].
  rewrite Hp, Hs, Hk. reflexivity.
Qed.

(** Three complete pairs and one without [y]. *)
Definition three_pairs : DataFrame :=
  {| n_rows := 4;
     columns := [ {| name := "x"; dtype := "float64";
                     values := [Some (SNum 1); Some (SNum 2); Some (SNum 3); Some (SNum 4)] |};
                  {| name := "y"; dtype := "float64";
                     values := [Some (SNum 3); Some (SNum 5); None; Some (SNum 8)] |} ] |}.

Lemma unknown_method_is_an_error_witness :
  correlation_analysis (Fixture.lib 2.5 0.01) three_pairs "x" "y" "cosine" 0.05 init
  = (Returned (error invalid_method_message), init).
Proof.
  exact (unknown_method_is_an_error (Fixture.lib 2.5 0.01) three_pairs "x" "y"
           "cosine" 0.05 init
           ltac:(discriminate) ltac:(discriminate) ltac:(discriminate)).
Defined.

(** With a known method the same pairs are correlated. *)
Example three_pairs_correlated :
  let out := correlation_analysis (Fixture.lib 0.9 0.01) three_pairs "x" "y" "pearson"
               0.05 init in
  dict_get "test_type" (result_of out) = Some (PStr "Correlación de Pearson") /\
  dict_get "sample_size" (result_of out) = Some (PInt 3) /\
  dict_get "strength" (result_of out) = Some (PStr "muy fuerte") /\
  get_analysis_history (snd out) = [result_of out].
Proof. cbv zeta. repeat split; vm_compute; reflexivity. Qed.

(** ** Minimum sample sizes *)

(** A column with one observation. *)
Definition one_score : DataFrame :=
  {| n_rows := 1;
     columns := [ {| name := "score"; dtype := "float64"; values := [Some (SNum 5)] |} ] |}.

(** C3, as stated, fails: on one observation the one-sample t-test returns
    a result, not an error; its statistic and p-value are NaN and it is
    entered in the history. *)
Lemma t_test_one_sample_accepts_one_observation :
  let out := t_test_one_sample (Fixture.lib 2.5 0.01) one_score "score" 5 0.05 init in
  is_error (result_of out) = false /\
  dict_get "sample_size" (result_of out) = Some (PInt 1) /\
  dict_get "t_statistic" (result_of out) = Some (PFloat PrimFloat.nan) /\
  dict_get "p_value" (result_of out) = Some (PFloat PrimFloat.nan) /\
  get_analysis_history (snd out) = [result_of out].
Proof. cbv zeta. repeat split; vm_compute; reflexivity. Qed.

Section Minimum.
Context (L : PyLib).

Lemma correlation_needs_three_pairs data var1 var2 method alpha self selected :
  getitems data [var1; var2] = inr selected ->
  n_rows (dropna_rows selected) < 3 ->
  correlation_analysis L data var1 var2 method alpha self
  = (Returned (error three_pairs_message), self).
Proof.
  intros Hget Hn. apply Z.ltb_lt in Hn.
  unfold correlation_analysis, call, try_except, bind, eval.
  rewrite Hget, Hn. reflexivity.
Qed.

Definition predictors (independent_vars : string + list string) : list string :=
  match independent_vars with inl one => [one] | inr many => many end.

Lemma regression_needs_predictors_plus_two data dependent_var independent_vars alpha
  self selected :
  getitems data (dependent_var :: predictors independent_vars) = inr selected ->
  n_rows (dropna_rows selected) < len (predictors independent_vars) + 2 ->
  linear_regression L data dependent_var independent_vars alpha self
  = (Returned (error regression_data_message), self).
Proof.
  intros Hget Hn. apply Z.ltb_lt in Hn.
  unfold linear_regression, call, try_except, bind, eval.
  unfold predictors in *. rewrite Hget, Hn. reflexivity.
Qed.

Lemma kmeans_needs_one_row_per_cluster data variables n_clusters random_state
  self selected :
  getitems data variables = inr selected ->
  n_rows (dropna_rows selected) < n_clusters ->
  kmeans_clustering L data variables n_clusters random_state self
  = (Returned (error (kmeans_message n_clusters)), self).
Proof.
  intros Hget Hn. apply Z.ltb_lt in Hn.
  unfold kmeans_clustering, call, try_except, bind, eval.
  rewrite Hget, Hn. reflexivity.
Qed.

(** The one-sample t-test does not look at the size of the sample: when
    the column is there and the library answers, the call returns the
    result built from the answers. *)
Lemma t_test_one_sample_any_size data column test_value alpha self col t p m sd ci :
  getitem data column = inr col ->
  ttest_1samp L (dropna col) test_value = inr (t, p) ->
  Lib.mean L (dropna col) = inr m ->
  Lib.std L (dropna col) = inr sd ->
  t_interval L (PrimFloat.sub 1 alpha) (len (dropna col) - 1) m
             (np_div sd (PrimFloat.sqrt (float_of_Z (len (dropna col))))) = inr ci ->
  exists r,
    t_test_one_sample L data column test_value alpha self
    = (Returned r, {| results_history := (results_history self ++ [r])%list |}) /\
    is_error r = false /\
    dict_get "sample_size" r = Some (PInt (len (dropna col))) /\
    dict_get "t_statistic" r = Some (PFloat t) /\
    dict_get "p_value" r = Some (PFloat p).
Proof.
  intros Hget Ht Hm Hs Hci.
  unfold t_test_one_sample, call, try_except, bind, eval.
  rewrite Hget, Ht. cbv beta iota. rewrite Hm, Hs, Hci.
  eexists; (split; [reflexivity | repeat split; reflexivity]).
Qed.

End Minimum.

(** C3, amended: the operations that check the size of their sample return
    an error below their minimum and leave the history as it was: the
    correlation with fewer than 3 pairs left after the rows missing either
    variable are dropped, the regression with fewer complete rows than the
    number of predictors plus 2, the clustering with fewer complete rows
    than clusters.  The one-sample t-test has no minimum: whenever the
    column is in the table and the library answers, whatever the size of
    the sample, it returns a result that is not an error, made of those
    answers. *)
Theorem sample_size_guards :
  forall (L : PyLib) (self : StatisticalAnalysis),
    (forall data var1 var2 method alpha selected,
        getitems data [var1; var2] = inr selected ->
        n_rows (dropna_rows selected) < 3 ->
        correlation_analysis L data var1 var2 method alpha self
        = (Returned (error three_pairs_message), self)) /\
    (forall data dependent_var independent_vars alpha selected,
        getitems data (dependent_var :: predictors independent_vars) = inr selected ->
        n_rows (dropna_rows selected) < len (predictors independent_vars) + 2 ->
        linear_regression L data dependent_var independent_vars alpha self
        = (Returned (error regression_data_message), self)) /\
    (forall data variables n_clusters random_state selected,
        getitems data variables = inr selected ->
        n_rows (dropna_rows selected) < n_clusters ->
        kmeans_clustering L data variables n_clusters random_state self
        = (Returned (error (kmeans_message n_clusters)), self)) /\
    (forall data column test_value alpha col t p m sd ci,
        getitem data column = inr col ->
        ttest_1samp L (dropna col) test_value = inr (t, p) ->
        Lib.mean L (dropna col) = inr m ->
        Lib.std L (dropna col) = inr sd ->
        t_interval L (PrimFloat.sub 1 alpha) (len (dropna col) - 1) m
                   (np_div sd (PrimFloat.sqrt (float_of_Z (len (dropna col))))) = inr ci ->
        exists r,
          t_test_one_sample L data column test_value alpha self
          = (Returned r, {| results_history := (results_history self ++ [r])%list |}) /\
          is_error r = false /\
          dict_get "sample_size" r = Some (PInt (len (dropna col))) /\
          dict_get "t_statistic" r = Some (PFloat t) /\
          dict_get "p_value" r = Some (PFloat p)).
Proof.
  intros L self. repeat split; intros.
  - eapply correlation_needs_three_pairs; eauto.
  - eapply regression_needs_predictors_plus_two; eauto.
  - eapply kmeans_needs_one_row_per_cluster; eauto.
  - eapply t_test_one_sample_any_size; eauto.
Qed.

Lemma sample_size_guards_witness :
  correlation_analysis (Fixture.lib 2.5 0.01) two_pairs "x" "y" "pearson" 0.05 init
  = (Returned (error three_pairs_message), init).
Proof.
  exact (proj1 (sample_size_guards (Fixture.lib 2.5 0.01) init)
           two_pairs "x" "y" "pearson" 0.05%float _ eq_refl eq_refl).
Defined.

(** ** Reasoning about the checks of [DataValidator]

    A check only appends findings, and which ones does not depend on what
    the lists held before: [tidy c] says that running [c] on any validator
    has the outcome it has on a fresh one and appends the findings it
    appends there, each in the list of its severity. *)

Module ValidationFacts.
Import Validation.

(** [s'] holds the findings of [s] followed by those of [d]. *)
Definition extends (s d s' : DataValidator) : Prop :=
  error_messages s' = (error_messages s ++ error_messages d)%list /\
  warnings s' = (warnings s ++ warnings d)%list /\
  suggestions s' = (suggestions s ++ suggestions d)%list.

Definition by_severity (s : DataValidator) : Prop :=
  Forall (fun f => severity f = "error") (error_messages s) /\
  Forall (fun f => severity f = "warning") (warnings s) /\
  Forall (fun f => severity f = "suggestion") (suggestions s).

Definition tidy {R A} (c : exec DataValidator R A) : Prop :=
  (forall s, fst (c s) = fst (c init) /\ extends s (snd (c init)) (snd (c s))) /\
  by_severity (snd (c init)).

(** [safe c]: no exception leaves [c]. *)
Definition safe {R A} (c : exec DataValidator R A) : Prop :=
  forall s, match fst (c s) with Raise _ => False | _ => True end.

Lemma extends_refl s : extends s init s.
Proof. unfold extends; cbn. now rewrite !app_nil_r. Qed.

Lemma extends_trans s d1 s1 d2 s2 d12 :
  extends s d1 s1 -> extends s1 d2 s2 -> extends d1 d2 d12 -> extends s d12 s2.
Proof.
  intros (He1 & Hw1 & Hs1) (He2 & Hw2 & Hs2) (He & Hw & Hs). unfold extends.
  rewrite He2, Hw2, Hs2, He1, Hw1, Hs1, He, Hw, Hs, !app_assoc. auto.
Qed.

Lemma by_severity_init : by_severity init.
Proof. repeat split; constructor. Qed.

Lemma by_severity_extends d1 d2 d12 :
  by_severity d1 -> by_severity d2 -> extends d1 d2 d12 -> by_severity d12.
Proof.
  intros (A1 & B1 & C1) (A2 & B2 & C2) (He & Hw & Hs). unfold by_severity.
  rewrite He, Hw, Hs. repeat split; apply Forall_app; auto.
Qed.

Lemma tidy_pure {R A} (o : outcome R A) : tidy (fun s => (o, s)).
Proof.
  split; [| apply by_severity_init].
  intros s; cbn. split; [reflexivity | apply extends_refl].
Qed.

Lemma tidy_ret {R A} (a : A) : tidy (R := R) (ret a).
Proof. apply tidy_pure. Qed.

Lemma tidy_return {R A} (r : R) : tidy (A := A) (return_ r).
Proof. apply tidy_pure. Qed.

Lemma tidy_eval {R A} (x : exn + A) : tidy (R := R) (eval x).
Proof. unfold eval. destruct x; apply tidy_pure. Qed.

Lemma tidy_bind {R A B} (c : exec DataValidator R A) (k : A -> exec DataValidator R B) :
  tidy c -> (forall a, tidy (k a)) -> tidy (bind c k).
Proof.
  intros [Hc Sc] Hk.
  assert (Hall : forall s, fst (bind c k s) = fst (bind c k init) /\
                           extends s (snd (bind c k init)) (snd (bind c k s))).
  { intros s. destruct (Hc s) as [Ho He]. unfold bind.
    destruct (c s) as [o s1]; destruct (c init) as [o0 d1]; cbn in Ho, He. subst o0.
    destruct o as [e | r | a]; cbn; auto.
    destruct (Hk a) as [Hka _].
    destruct (Hka s1) as [Ho1 He1]. destruct (Hka d1) as [Ho2 He2].
    split; [congruence |].
    eapply extends_trans; eauto. }
  split; [exact Hall |].
  unfold bind. destruct (c init) as [o d1]; cbn in Sc.
  destruct o as [e | r | a]; cbn; auto.
  destruct (Hk a) as [Hka Ska]. destruct (Hka d1) as [_ He].
  apply (by_severity_extends d1 (snd (k a init))); auto.
Qed.

Lemma tidy_try_except {R A} (c : exec DataValidator R A) (h : exn -> exec DataValidator R A) :
  tidy c -> (forall e, tidy (h e)) -> tidy (try_except c h).
Proof.
  intros [Hc Sc] Hh.
  assert (Hall : forall s, fst (try_except c h s) = fst (try_except c h init) /\
                           extends s (snd (try_except c h init)) (snd (try_except c h s))).
  { intros s. destruct (Hc s) as [Ho He]. unfold try_except.
    destruct (c s) as [o s1]; destruct (c init) as [o0 d1]; cbn in Ho, He. subst o0.
    destruct o as [e | r | a]; cbn; auto.
    destruct (Hh e) as [Hhe _].
    destruct (Hhe s1) as [Ho1 He1]. destruct (Hhe d1) as [Ho2 He2].
    split; [congruence |].
    eapply extends_trans; eauto. }
  split; [exact Hall |].
  unfold try_except. destruct (c init) as [o d1]; cbn in Sc.
  destruct o as [e | r | a]; cbn; auto.
  destruct (Hh e) as [Hhe She]. destruct (Hhe d1) as [_ He].
  apply (by_severity_extends d1 (snd (h e init))); auto.
Qed.

Lemma tidy_for_fold {R X Acc} (l : list X) (f : Acc -> X -> exec DataValidator R Acc) :
  (forall acc x, tidy (f acc x)) -> forall acc, tidy (for_fold l acc f).
Proof.
  intros Hf. induction l as [| x l IH]; intros acc; cbn [for_fold].
  - apply tidy_ret.
  - apply tidy_bind; auto.
Qed.

Lemma tidy_for_each {R X} (l : list X) (f : X -> exec DataValidator R unit) :
  (forall x, tidy (f x)) -> tidy (for_each l f).
Proof.
  intros Hf. induction l as [| x l IH]; cbn [for_each].
  - apply tidy_ret.
  - apply tidy_bind; auto.
Qed.

Lemma tidy_when b (c : check) : tidy c -> tidy (when b c).
Proof. intros Hc. unfold when. destruct b; [exact Hc | apply tidy_ret]. Qed.

Lemma tidy_append_error f : severity f = "error" -> tidy (append_error f).
Proof.
  intros Hf. split.
  - intros s. split; [reflexivity |]. unfold extends; cbn. now rewrite !app_nil_r.
  - repeat split; cbn; auto.
Qed.

Lemma tidy_append_warning f : severity f = "warning" -> tidy (append_warning f).
Proof.
  intros Hf. split.
  - intros s. split; [reflexivity |]. unfold extends; cbn. now rewrite !app_nil_r.
  - repeat split; cbn; auto.
Qed.

Lemma tidy_append_suggestion f : severity f = "suggestion" -> tidy (append_suggestion f).
Proof.
  intros Hf. split.
  - intros s. split; [reflexivity |]. unfold extends; cbn. now rewrite !app_nil_r.
  - repeat split; cbn; auto.
Qed.

Lemma tidy_set_result key v : tidy (set_result key v).
Proof.
  split.
  - intros s. split; [reflexivity |]. unfold extends; cbn. now rewrite !app_nil_r.
  - apply by_severity_init.
Qed.

Ltac head_of t := lazymatch t with ?f _ => head_of f | _ => t end.

Ltac tidy_step :=
  lazymatch goal with
  | |- tidy (let '(_, _) := ?x in _) => destruct x
  | |- tidy (bind _ _) => apply tidy_bind; [ | intros ]
  | |- tidy (try_except _ _) => apply tidy_try_except; [ | intros ]
  | |- tidy (eval _) => apply tidy_eval
  | |- tidy (ret _) => apply tidy_ret
  | |- tidy (return_ _) => apply tidy_return
  | |- tidy (for_fold _ _ _) => apply tidy_for_fold; intros
  | |- tidy (for_each _ _) => apply tidy_for_each; intros
  | |- tidy (when _ _) => apply tidy_when
  | |- tidy (append_error _) => apply tidy_append_error; reflexivity
  | |- tidy (append_warning _) => apply tidy_append_warning; reflexivity
  | |- tidy (append_suggestion _) => apply tidy_append_suggestion; reflexivity
  | |- tidy (set_result _ _) => apply tidy_set_result
  | |- tidy (if ?b then _ else _) => destruct b
  | |- tidy (match ?x with _ => _ end) => destruct x
  | |- tidy ?c => let h := head_of c in progress unfold h
  end.

Lemma safe_try_except {R A} (c : exec DataValidator R A) (h : exn -> exec DataValidator R A) :
  (forall e, safe (h e)) -> safe (try_except c h).
Proof.
  intros Hh s. unfold try_except.
  destruct (c s) as [[e | r | a] s1]; cbn; auto. apply Hh.
Qed.

Lemma safe_append_error f : safe (R := unit) (append_error f).
Proof. intros s; exact I. Qed.

Section Checks.
Context (L : PyLib) (df : DataFrame).

Lemma tidy_basic_structure file_name : tidy (_validate_basic_structure L df file_name).
Proof. repeat tidy_step. Qed.

Lemma tidy_data_types : tidy (_validate_data_types L df).
Proof. repeat tidy_step. Qed.

Lemma tidy_missing_values : tidy (_validate_missing_values L df).
Proof. repeat tidy_step. Qed.

Lemma tidy_duplicates : tidy (_validate_duplicates L df).
Proof. repeat tidy_step. Qed.

Lemma tidy_outliers : tidy (_validate_outliers L df).
Proof. repeat tidy_step. Qed.

Lemma tidy_data_consistency : tidy (_validate_data_consistency df).
Proof. repeat tidy_step. Qed.

Lemma tidy_column_names : tidy (_validate_column_names df).
Proof. repeat tidy_step. Qed.

Lemma safe_basic_structure file_name : safe (_validate_basic_structure L df file_name).
Proof. apply safe_try_except. intros e. apply safe_append_error. Qed.

Lemma safe_data_types : safe (_validate_data_types L df).
Proof. apply safe_try_except. intros e. apply safe_append_error. Qed.

Lemma safe_missing_values : safe (_validate_missing_values L df).
Proof. apply safe_try_except. intros e. apply safe_append_error. Qed.

Lemma safe_duplicates : safe (_validate_duplicates L df).
Proof. apply safe_try_except. intros e. apply safe_append_error. Qed.

Lemma safe_outliers : safe (_validate_outliers L df).
Proof. apply safe_try_except. intros e. apply safe_append_error. Qed.

Lemma safe_data_consistency : safe (_validate_data_consistency df).
Proof. apply safe_try_except. intros e. apply safe_append_error. Qed.

Lemma safe_column_names : safe (_validate_column_names df).
Proof. apply safe_try_except. intros e. apply safe_append_error. Qed.

(** The seven checks in the order [validate_dataframe] calls them. *)
Definition checks (file_name : string) : list check :=
  [ _validate_basic_structure L df file_name;
    _validate_data_types L df;
    _validate_missing_values L df;
    _validate_duplicates L df;
    _validate_outliers L df;
    _validate_data_consistency df;
    _validate_column_names df ].

Lemma checks_tidy file_name : Forall tidy (checks file_name).
Proof.
  unfold checks.
  repeat (apply Forall_cons;
          [ solve [ auto using tidy_basic_structure, tidy_data_types,
                      tidy_missing_values, tidy_duplicates, tidy_outliers,
                      tidy_data_consistency, tidy_column_names ] | ]).
  apply Forall_nil.
Qed.

End Checks.

(** The validator after the checks [cs] ran one after the other. *)
Definition run_checks (cs : list check) (s : DataValidator) : DataValidator :=
  fold_left (fun s c => snd (c s)) cs s.

(** What a check finds, that is what it appends to a fresh validator. *)
Definition found (c : check) : DataValidator := snd (c init).

Definition report_of (self : DataValidator) : Report :=
  {| is_valid := len (error_messages self) =? 0;
     errors := error_messages self;
     report_warnings := warnings self;
     report_suggestions := suggestions self;
     validation_details := validation_results self |}.

Lemma invoke_call_safe {R B} (c : check) (k : unit -> exec DataValidator R B) s :
  safe c -> bind (invoke (call c)) k s = k tt (snd (c s)).
Proof.
  intros Hc. specialize (Hc s). unfold bind, invoke, call.
  destruct (c s) as [[e | [] | []] s1]; cbn in *; [contradiction | reflexivity ..].
Qed.

(** [validate_dataframe] starts from empty lists, runs the seven checks and
    reports the lists they leave. *)
Lemma validate_dataframe_runs_checks L df file_name self :
  validate_dataframe L df file_name self
  = (Returned (report_of (run_checks (checks L df file_name) init)),
     run_checks (checks L df file_name) init).
Proof.
  unfold validate_dataframe. unfold call at 1.
  change (bind (modify (fun _ => init)) ?k self) with (k tt init).
  cbv beta.
  rewrite invoke_call_safe by apply safe_basic_structure.
  rewrite invoke_call_safe by apply safe_data_types.
  rewrite invoke_call_safe by apply safe_missing_values.
  rewrite invoke_call_safe by apply safe_duplicates.
  rewrite invoke_call_safe by apply safe_outliers.
  rewrite invoke_call_safe by apply safe_data_consistency.
  rewrite invoke_call_safe by apply safe_column_names.
  reflexivity.
Qed.

Lemma run_checks_extends (cs : list check) :
  Forall tidy cs ->
  forall s, exists d,
    extends s d (run_checks cs s) /\ by_severity d /\
    error_messages d = List.concat (map (fun c => error_messages (found c)) cs) /\
    warnings d = List.concat (map (fun c => warnings (found c)) cs) /\
    suggestions d = List.concat (map (fun c => suggestions (found c)) cs).
Proof.
  induction 1 as [| c cs Hc Hcs IH]; intros s.
  - exists init. split; [apply extends_refl |]. split; [apply by_severity_init | auto].
  - cbn [run_checks fold_left]. destruct Hc as [Hc Sc].
    destruct (Hc s) as [_ He1].
    destruct (IH (snd (c s))) as (d & He2 & Sd & Ee & Ew & Es).
    exists {| validation_results := [];
              error_messages := (error_messages (found c) ++ error_messages d)%list;
              warnings := (warnings (found c) ++ warnings d)%list;
              suggestions := (suggestions (found c) ++ suggestions d)%list |}.
    split; [| split].
    + eapply extends_trans; [exact He1 | exact He2 |].
      unfold extends, found; cbn. auto.
    + apply (by_severity_extends (found c) d); auto.
      unfold extends; cbn; auto.
    + cbn. rewrite Ee, Ew, Es. auto.
Qed.

(** After [validate_dataframe] each list holds findings of its severity. *)
Lemma validate_dataframe_by_severity L df file_name self :
  by_severity (snd (validate_dataframe L df file_name self)).
Proof.
  rewrite validate_dataframe_runs_checks. cbn [snd].
  destruct (run_checks_extends _ (checks_tidy L df file_name) init)
    as (d & (He & Hw & Hs) & (Se & Sw & Ss) & _).
  unfold by_severity. rewrite He, Hw, Hs. cbn. auto.
Qed.

(** The findings of the report are those of the seven checks, check after
    check. *)
Lemma validate_dataframe_findings L df file_name self :
  let report := report_of (snd (validate_dataframe L df file_name self)) in
  errors report
  = List.concat (map (fun c => error_messages (found c)) (checks L df file_name)) /\
  report_warnings report
  = List.concat (map (fun c => warnings (found c)) (checks L df file_name)) /\
  report_suggestions report
  = List.concat (map (fun c => suggestions (found c)) (checks L df file_name)).
Proof.
  cbv zeta. rewrite validate_dataframe_runs_checks. cbn [snd report_of errors
    report_warnings report_suggestions].
  destruct (run_checks_extends _ (checks_tidy L df file_name) init)
    as (d & (He & Hw & Hs) & _ & Ee & Ew & Es).
  rewrite He, Hw, Hs, Ee, Ew, Es. cbn [init error_messages warnings suggestions app].
  auto.
Qed.

End ValidationFacts.

(** ** The summary of a validation *)

Import Validation ValidationFacts.

(** The score in the words of the specification: 100, less 20 for each
    error, 5 for each warning and 1 for each suggestion, brought back into
    the interval from 0 to 100. *)
Definition clamp (x : Z) : Z :=
  if x <? 0 then 0 else if 100 <? x then 100 else x.

Definition spec_score (errors warnings suggestions : Z) : Z :=
  clamp (100 - errors * 20 - warnings * 5 - suggestions * 1).

(** The findings of a given severity among [l]. *)
Definition count_severity (sev : string) (l : list Finding) : Z :=
  len (filter (fun f => String.eqb (severity f) sev) l).

Lemma len_app {A} (l1 l2 : list A) : len (l1 ++ l2) = len l1 + len l2.
Proof. unfold len. rewrite length_app. lia. Qed.

Lemma count_severity_app sev l1 l2 :
  count_severity sev (l1 ++ l2) = count_severity sev l1 + count_severity sev l2.
Proof. unfold count_severity. now rewrite filter_app, len_app. Qed.

Lemma count_severity_same sev l :
  Forall (fun f => severity f = sev) l -> count_severity sev l = len l.
Proof.
  unfold count_severity, len. induction 1 as [| f l Hf _ IH]; [reflexivity |].
  cbn [filter]. rewrite Hf, String.eqb_refl. cbn [List.length]. lia.
Qed.

Lemma count_severity_other sev sev' l :
  sev' <> sev -> Forall (fun f => severity f = sev') l -> count_severity sev l = 0.
Proof.
  intros Hne. unfold count_severity, len. induction 1 as [| f l Hf _ IH]; [reflexivity |].
  cbn [filter]. rewrite Hf. apply String.eqb_neq in Hne. now rewrite Hne.
Qed.

(** In a validator whose lists hold findings of their severity, the length
    of each list is the number of findings of that severity. *)
Lemma counts_by_severity self :
  by_severity self ->
  let findings := (error_messages self ++ warnings self ++ suggestions self)%list in
  count_severity "error" findings = len (error_messages self) /\
  count_severity "warning" findings = len (warnings self) /\
  count_severity "suggestion" findings = len (suggestions self).
Proof.
  intros (He & Hw & Hs). cbv zeta. rewrite !count_severity_app.
  rewrite (count_severity_same "error" _ He), (count_severity_same "warning" _ Hw),
    (count_severity_same "suggestion" _ Hs).
  rewrite (count_severity_other "error" "warning"), (count_severity_other "error" "suggestion"),
    (count_severity_other "warning" "error"), (count_severity_other "warning" "suggestion"),
    (count_severity_other "suggestion" "error"), (count_severity_other "suggestion" "warning");
    auto; try discriminate.
  repeat split; lia.
Qed.

Lemma score_is_spec_score self :
  validation_score (get_validation_summary self)
  = spec_score (len (error_messages self)) (len (warnings self)) (len (suggestions self)).
Proof.
  cbn [get_validation_summary validation_score].
  unfold _calculate_validation_score, spec_score, clamp.
  destruct (Z.ltb_spec (100 - len (error_messages self) * 20 - len (warnings self) * 5
                        - len (suggestions self) * 1) 0);
    destruct (Z.ltb_spec 100 (100 - len (error_messages self) * 20
                              - len (warnings self) * 5 - len (suggestions self) * 1));
    lia.
Qed.

Lemma spec_score_bounds e w g : 0 <= spec_score e w g <= 100.
Proof.
  unfold spec_score, clamp.
  destruct (Z.ltb_spec (100 - e * 20 - w * 5 - g * 1) 0);
    destruct (Z.ltb_spec 100 (100 - e * 20 - w * 5 - g * 1)); lia.
Qed.

(** C2: whatever findings a validator holds, [get_validation_summary] gives
    the score 100 less 20 for each error, 5 for each warning and 1 for each
    suggestion, brought back into the interval from 0 to 100, and says the
    data are ready exactly when there is no error; the score depends on the
    three counts alone.  After [validate_dataframe] the three counts are
    the numbers of findings of each severity that the call gathered. *)
Theorem validation_score_from_finding_counts :
  (forall self : DataValidator,
      let summary := get_validation_summary self in
      validation_score summary
      = spec_score (total_errors summary) (total_warnings summary)
                   (total_suggestions summary) /\
      0 <= validation_score summary <= 100 /\
      (is_ready_for_analysis summary = true <-> total_errors summary = 0)) /\
  (forall self self' : DataValidator,
      len (error_messages self) = len (error_messages self') ->
      len (warnings self) = len (warnings self') ->
      len (suggestions self) = len (suggestions self') ->
      validation_score (get_validation_summary self)
      = validation_score (get_validation_summary self')) /\
  (forall (L : PyLib) (df : DataFrame) (file_name : string) (before : DataValidator),
      let self := snd (validate_dataframe L df file_name before) in
      let findings := (error_messages self ++ warnings self ++ suggestions self)%list in
      let summary := get_validation_summary self in
      validation_score summary
      = spec_score (count_severity "error" findings) (count_severity "warning" findings)
                   (count_severity "suggestion" findings) /\
      (is_ready_for_analysis summary = true <-> count_severity "error" findings = 0)).
Proof.
  split; [| split].
  - intros self summary. subst summary.
    split; [apply score_is_spec_score |].
    split; [rewrite score_is_spec_score; apply spec_score_bounds |].
    cbn [get_validation_summary is_ready_for_analysis total_errors].
    apply Z.eqb_eq.
  - intros self self' He Hw Hs. rewrite !score_is_spec_score. congruence.
  - intros L df file_name before self findings summary.
    destruct (counts_by_severity self (validate_dataframe_by_severity L df file_name before))
      as (He & Hw & Hs).
    fold findings in He, Hw, Hs. rewrite He, Hw, Hs. subst summary.
    split; [apply score_is_spec_score |].
    cbn [get_validation_summary is_ready_for_analysis]. apply Z.eqb_eq.
Qed.

(** ** The check of the types *)

Module TypesFacts.

(** [k / n] on two positive Python ints. *)
Definition ratio (k n : Z) : float := PrimFloat.div (float_of_Z k) (float_of_Z n).

(** A text column without a value that is not missing. *)
Definition empty_text (c : Series) : bool :=
  String.eqb (dtype c) "object" && (len (dropna c) =? 0).

Definition upto (n : Z) : list Z := map Z.of_nat (seq 0 (Z.to_nat n)).

(** The two thresholds on every sample of at most 100 values: the float
    comparisons of the source decide [k/n > 0.8] and [k/n > 0.5] exactly. *)
Definition thresholds_exact (n k : Z) : bool :=
  Bool.eqb (PrimFloat.ltb 0.8 (ratio k n)) (4 * n <? 5 * k)
  && Bool.eqb (PrimFloat.ltb 0.5 (ratio k n)) (n <? 2 * k).

Definition thresholds_table : bool :=
  forallb (fun n => forallb (fun k => thresholds_exact (n + 1) k) (upto (n + 2)))
          (upto 100).

Lemma thresholds_table_true : thresholds_table = true.
Proof. vm_compute. reflexivity. Qed.

Lemma in_upto n k : 0 <= k < n -> In k (upto n).
Proof.
  intros Hk. unfold upto. apply in_map_iff. exists (Z.to_nat k).
  split; [lia |]. apply in_seq. lia.
Qed.

Lemma thresholds n k :
  0 < n <= 100 -> 0 <= k <= n ->
  PrimFloat.ltb 0.8 (ratio k n) = (4 * n <? 5 * k) /\
  PrimFloat.ltb 0.5 (ratio k n) = (n <? 2 * k).
Proof.
  intros Hn Hk. pose proof thresholds_table_true as H. unfold thresholds_table in H.
  rewrite forallb_forall in H. specialize (H (n - 1) ltac:(apply in_upto; lia)).
  rewrite forallb_forall in H. specialize (H k ltac:(apply in_upto; lia)).
  replace (n - 1 + 1) with n in H by lia.
  unfold thresholds_exact in H. apply andb_true_iff in H as [H1 H2].
  apply Bool.eqb_prop in H1, H2. auto.
Qed.

Import Validation ValidationFacts.

Lemma truediv_ratio k n : n <> 0 -> truediv k n = inr (ratio k n).
Proof. intros Hn. unfold truediv. apply Z.eqb_neq in Hn. now rewrite Hn. Qed.

Lemma len_head {A} m (l : list A) : len (head m l) = Z.min (Z.of_nat m) (len l).
Proof. unfold len, head. rewrite length_firstn. lia. Qed.

Lemma len_nonneg {A} (l : list A) : 0 <= len l.
Proof. unfold len. lia. Qed.

Lemma count_fold_bounds {A} (f : Z -> A -> Z) :
  (forall n x, n <= f n x <= n + 1) ->
  forall l a, a <= fold_left f l a <= a + len l.
Proof.
  intros Hf. unfold len. induction l as [| x l IH]; intros a; cbn [fold_left List.length].
  - lia.
  - specialize (IH (f a x)). specialize (Hf a x). lia.
Qed.

Section Types.
Context (L : PyLib).

Lemma count_convertible_bounds sample :
  0 <= count_convertible L sample <= len sample.
Proof.
  unfold count_convertible.
  match goal with
  | |- _ <= fold_left ?f _ _ <= _ =>
      pose proof (count_fold_bounds f) as H
  end.
  apply H. intros n x. destruct (float_of_str _); lia.
Qed.

Lemma count_date_like_bounds sample :
  0 <= count_date_like L sample <= len sample.
Proof.
  unfold count_date_like.
  match goal with
  | |- _ <= fold_left ?f _ _ <= _ =>
      pose proof (count_fold_bounds f) as H
  end.
  apply H. intros n x. destruct (_looks_like_date _); lia.
Qed.

(** What one text column adds to [problematic_columns]: the thresholds are
    those of the source, decided on the integers. *)
Definition numeric_problem (c : Series) : list Problem :=
  let sample := head 100 (dropna c) in
  let k := count_convertible L sample in
  if String.eqb (dtype c) "object" && (4 * len sample <? 5 * k)
  then [numeric_as_text (name c) (ratio k (len sample))]
  else [].

Definition date_problem (c : Series) : list Problem :=
  let sample := head 10 (dropna c) in
  let k := count_date_like L sample in
  if String.eqb (dtype c) "object" && (len sample <? 2 * k)
  then [date_as_text (name c) (ratio k (len sample))]
  else [].

Definition column_problems (c : Series) : list Problem :=
  (numeric_problem c ++ date_problem c)%list.

Definition type_entry (c : Series) : pyval :=
  PDict [ (SStr "dtype", PStr (dtype c));
          (SStr "non_null_count", PInt (count c));
          (SStr "unique_count", PInt (nunique c)) ].

(** One iteration of the loop: it raises on an empty text column and
    otherwise records the column and its problems. *)
Lemma types_column_run acc c s :
  types_column L acc c s
  = if empty_text c then (Raise ZeroDivisionError, s)
    else (Next (dict_set (name c) (type_entry c) (fst acc),
                (snd acc ++ column_problems c)%list), s).
Proof.
  destruct acc as [type_info problems].
  unfold types_column, empty_text, column_problems, numeric_problem, date_problem.
  cbn [fst snd].
  destruct (String.eqb (dtype c) "object") eqn:Hd; cbn [andb].
  2:{ cbn. now rewrite app_nil_r. }
  pose proof (len_nonneg (dropna c)) as Hlen.
  pose proof (len_head 100 (dropna c)) as H100.
  pose proof (len_head 10 (dropna c)) as H10.
  pose proof (count_convertible_bounds (head 100 (dropna c))) as Hk.
  pose proof (count_date_like_bounds (head 10 (dropna c))) as Hkd.
  destruct (Z.eqb_spec (len (dropna c)) 0) as [H0 | H0].
  - rewrite H0. cbn [Z.ltb Z.compare].
    assert (Hs : len (head 10 (dropna c)) = 0) by lia.
    unfold bind, ret, eval, truediv. rewrite Hs. reflexivity.
  - assert (Hpos : (0 <? len (dropna c)) = true) by (apply Z.ltb_lt; lia).
    rewrite Hpos.
    destruct (thresholds (len (head 100 (dropna c)))
                (count_convertible L (head 100 (dropna c))) ltac:(lia) ltac:(lia))
      as [Hn _].
    destruct (thresholds (len (head 10 (dropna c)))
                (count_date_like L (head 10 (dropna c))) ltac:(lia) ltac:(lia))
      as [_ Hdt].
    assert (Hp10 : (0 <? len (head 10 (dropna c))) = true) by (apply Z.ltb_lt; lia).
    unfold bind, ret, eval.
    rewrite !truediv_ratio by lia. rewrite Hn, Hdt, Hp10, andb_true_r.
    destruct (4 * len (head 100 (dropna c)) <? 5 * count_convertible L (head 100 (dropna c)));
      destruct (len (head 10 (dropna c)) <? 2 * count_date_like L (head 10 (dropna c)));
      cbn [app]; rewrite ?app_nil_r, <- ?app_assoc; reflexivity.
Qed.


Lemma types_loop_fails cols acc s :
  existsb empty_text cols = true ->
  for_fold cols acc (types_column L) s = (Raise ZeroDivisionError, s).
Proof.
  revert acc. induction cols as [| c cols IH]; intros acc H; [discriminate H |].
  cbn [for_fold existsb] in *. unfold bind. rewrite types_column_run.
  destruct (empty_text c); [reflexivity |]. apply IH. exact H.
Qed.


(** The finding the check reports when the loop divides by zero. *)
Definition types_error : Finding :=
  {| type := "tipos_datos"; severity := "error";
     message := "❌ Error al validar tipos de datos: division by zero";
     suggestion := "Revisa el formato de los datos en el archivo" |}.





(** With an empty text column the check appends its error and nothing else. *)
Lemma validate_data_types_fails df s :
  existsb empty_text (columns df) = true ->
  _validate_data_types L df s
  = (Next tt,
     {| validation_results := validation_results s;
        error_messages := (error_messages s ++ [types_error])%list;
        warnings := warnings s;
        suggestions := suggestions s |}).
Proof.
  intros H. unfold _validate_data_types, try_except, bind at 1.
  rewrite (types_loop_fails _ _ _ H). reflexivity.
Qed.


End Types.
End TypesFacts.

Import TypesFacts.


Lemma some_empty_text (cols : list Series) c :
  In c cols -> dtype c = "object" -> dropna c = [] ->
  existsb empty_text cols = true.
Proof.
  intros Hin Hd Hn. apply existsb_exists. exists c. split; [exact Hin |].
  unfold empty_text. rewrite Hd, Hn. reflexivity.
Qed.






(** Prices written with a decimal comma. *)
Definition prices : Series :=
  {| name := "price"; dtype := "object";
     values := [Some (SStr "12,5"); None; Some (SStr "7,3"); Some (SStr "9,0")] |}.



(** ** A text column without values *)

(** C10: when the table has a text column without a value that is not
    missing, the ratio of date-like values divides by zero.  The check of
    the types catches the exception: it appends one finding, of severity
    error and of the category of the types, and nothing else, so no
    suggestion about the type of any column.  The report of
    [validate_dataframe] is then not valid, and it holds, besides that
    error, what the checks of the structure, the missing values, the
    duplicates, the outliers, the consistency and the column names find,
    each as on a fresh validator. *)
Theorem empty_text_column_fails_type_check :
  forall (L : PyLib) (df : DataFrame) (file_name : string)
         (before : DataValidator) (c : Series),
    In c (columns df) -> dtype c = "object" -> dropna c = [] ->
    truediv (count_date_like L (head 10 (dropna c))) (len (head 10 (dropna c)))
    = inl ZeroDivisionError /\
    (forall s,
        _validate_data_types L df s
        = (Next tt,
           {| validation_results := validation_results s;
              error_messages := (error_messages s ++ [types_error])%list;
              warnings := warnings s;
              suggestions := suggestions s |})) /\
    type types_error = "tipos_datos" /\ severity types_error = "error" /\
    exists report,
      validate_dataframe L df file_name before
      = (Returned report, snd (validate_dataframe L df file_name before)) /\
      is_valid report = false /\
      errors report
      = (error_messages (found (_validate_basic_structure L df file_name))
         ++ [types_error]
         ++ error_messages (found (_validate_missing_values L df))
         ++ error_messages (found (_validate_duplicates L df))
         ++ error_messages (found (_validate_outliers L df))
         ++ error_messages (found (_validate_data_consistency df))
         ++ error_messages (found (_validate_column_names df)))%list /\
      report_warnings report
      = (warnings (found (_validate_basic_structure L df file_name))
         ++ warnings (found (_validate_missing_values L df))
         ++ warnings (found (_validate_duplicates L df))
         ++ warnings (found (_validate_outliers L df))
         ++ warnings (found (_validate_data_consistency df))
         ++ warnings (found (_validate_column_names df)))%list /\
      report_suggestions report
      = (suggestions (found (_validate_basic_structure L df file_name))
         ++ suggestions (found (_validate_missing_values L df))
         ++ suggestions (found (_validate_duplicates L df))
         ++ suggestions (found (_validate_outliers L df))
         ++ suggestions (found (_validate_data_consistency df))
         ++ suggestions (found (_validate_column_names df)))%list.
Proof.
  intros L df file_name before c Hin Hd Hn.
  pose proof (some_empty_text _ c Hin Hd Hn) as Hex.
  split; [rewrite Hn; reflexivity |].
  split; [intros s; apply (validate_data_types_fails L df s Hex) |].
  split; [reflexivity |]. split; [reflexivity |].
  destruct (validate_dataframe_findings L df file_name before) as (He & Hw & Hs).
  rewrite validate_dataframe_runs_checks in He, Hw, Hs |- *. cbn [snd] in *.
  set (final := run_checks (checks L df file_name) init) in *.
  exists (report_of final). split; [reflexivity |].
  assert (Hf : found (_validate_data_types L df)
               = {| validation_results := []; error_messages := [types_error];
                    warnings := []; suggestions := [] |}).
  { unfold found. rewrite (validate_data_types_fails L df init Hex). reflexivity. }
  unfold checks in He, Hw, Hs. cbn [map List.concat] in He, Hw, Hs.
  rewrite Hf in He, Hw, Hs. cbn [error_messages warnings suggestions] in He, Hw, Hs.
  rewrite !app_nil_r in He, Hw, Hs. cbn [app] in Hw, Hs.
  split; [| split; [exact He | split; [exact Hw | exact Hs]]].
  cbn [report_of is_valid]. cbn [report_of errors] in He. rewrite He.
  apply Z.eqb_neq. rewrite len_app, (len_app [types_error]).
  pose proof (len_nonneg (error_messages (found (_validate_basic_structure L df file_name)))).
  match goal with |- _ + (_ + len ?l) <> 0 => pose proof (len_nonneg l) end.
  change (len [types_error]) with 1. lia.
Qed.

(** A table with prices as text and a column of notes that are all missing. *)
Definition notes : Series :=
  {| name := "notes"; dtype := "object"; values := [None; None; None; None] |}.

Definition prices_and_notes : DataFrame :=
  {| n_rows := 4; columns := [prices; notes] |}.

Lemma empty_text_column_fails_type_check_witness :
  exists report,
    validate_dataframe (Fixture.lib 2.5 0.01) prices_and_notes "prices.csv" init
    = (Returned report,
       snd (validate_dataframe (Fixture.lib 2.5 0.01) prices_and_notes "prices.csv" init))
    /\ is_valid report = false.
Proof.
  destruct (empty_text_column_fails_type_check (Fixture.lib 2.5 0.01) prices_and_notes
              "prices.csv" init notes (or_intror (or_introl eq_refl)) eq_refl eq_refl)
    as (_ & _ & _ & _ & report & Hrun & Hvalid & _).
  exists report. split; [exact Hrun | exact Hvalid].
Defined.

(** In that table more than 80% of the prices are numbers, yet the report
    has no suggestion about the type of a column: the error of the check
    stands in for them. *)
Example prices_and_notes_report :
  let report :=
    report_of (snd (validate_dataframe (Fixture.lib 2.5 0.01) prices_and_notes
                      "prices.csv" init)) in
  map type (errors report) = ["tipos_datos"; "valores_faltantes"] /\
  map type (report_warnings report) = ["valores_faltantes"] /\
  map type (report_suggestions report) = ["valores_faltantes"] /\
  validation_score (get_validation_summary
                      (snd (validate_dataframe (Fixture.lib 2.5 0.01) prices_and_notes
                              "prices.csv" init))) = 54.
Proof. cbv zeta. repeat split; vm_compute; reflexivity. Qed.

(** * Further properties of the checks *)

(** ** What a loop over the columns appends *)

Module CheckFacts.
Import Validation ValidationFacts.

(** The findings of [d] appended to the lists of [s]. *)
Definition add (s d : DataValidator) : DataValidator :=
  {| validation_results := validation_results s;
     error_messages := (error_messages s ++ error_messages d)%list;
     warnings := (warnings s ++ warnings d)%list;
     suggestions := (suggestions s ++ suggestions d)%list |}.



Definition only_suggestions (l : list Finding) : DataValidator :=
  {| validation_results := []; error_messages := []; warnings := []; suggestions := l |}.

(** All the findings of [ds], in order. *)
Definition add_all (ds : list DataValidator) : DataValidator :=
  fold_right (fun d rest => add d rest) init ds.










Lemma add_all_suggestions {X} (f : X -> list Finding) (l : list X) :
  add_all (map (fun x => only_suggestions (f x)) l) = only_suggestions (flat_map f l).
Proof.
  induction l as [| x l IH]; [reflexivity |].
  cbn [map add_all fold_right flat_map]. fold (add_all (map (fun x => only_suggestions (f x)) l)).
  rewrite IH. reflexivity.
Qed.

Section Missing.
Context (L : PyLib) (df : DataFrame).

(** The percentage the check computes for a column. *)
Definition missing_pct (c : Series) : float :=
  times100 (np_div (float_of_Z (isnull_sum c)) (float_of_Z (n_rows df))).






Definition missing_entry (c : Series) : pyval :=
  PDict [ (SStr "missing_count", PInt (isnull_sum c));
          (SStr "missing_percentage", PFloat (missing_pct c));
          (SStr "has_missing", PBool (0 <? isnull_sum c)) ].




(** [missing_info] after the loop. *)
Definition missing_info : pydict :=
  fold_left (fun info c => dict_set (name c) (missing_entry c) info) (columns df) [].




End Missing.





Section Structure.
Context (L : PyLib) (df : DataFrame) (file_name : string).

Definition empty_error : Finding :=
  {| type := "estructura"; severity := "error";
     message := "❌ El archivo '" ++ file_name ++ "' está vacío";
     suggestion := "Verifica que el archivo contenga datos válidos" |}.

Definition no_columns_error : Finding :=
  {| type := "estructura"; severity := "error";
     message := "❌ El archivo '" ++ file_name ++ "' no tiene columnas";
     suggestion := "Verifica el formato del archivo" |}.

Definition few_rows_warning : Finding :=
  {| type := "estructura"; severity := "warning";
     message := "⚠️ El archivo '" ++ file_name ++ "' tiene muy pocas filas ("
                ++ str_int (n_rows df) ++ ")";
     suggestion := "Se recomiendan al menos 10 filas para análisis estadísticos" |}.

Definition large_warning : Finding :=
  {| type := "rendimiento"; severity := "warning";
     message := "⚠️ Archivo grande detectado (" ++ str_int_comma (n_rows df) ++ " filas)";
     suggestion := "El procesamiento puede ser lento. Considera usar una muestra para pruebas iniciales" |}.

Definition basic_info : pyval :=
  PDict [ (SStr "rows", PInt (n_rows df));
          (SStr "columns", PInt (len (columns df)));
          (SStr "size_mb",
           PFloat (np_div (float_of_Z (memory_usage L df)) (float_of_Z (1024 ^ 2))));
          (SStr "is_large", PBool (100000 <? n_rows df)) ].

(** The check of the structure, run on any validator. *)
Lemma basic_structure_run s :
  _validate_basic_structure L df file_name s
  = if empty df then
      (Return tt,
       {| validation_results := validation_results s;
          error_messages := (error_messages s ++ [empty_error])%list;
          warnings := warnings s;
          suggestions := suggestions s |})
    else
      (Next tt,
       {| validation_results := dict_set "basic_info" basic_info (validation_results s);
          error_messages := error_messages s;
          warnings :=
            (warnings s
             ++ (if n_rows df <? 2 then [few_rows_warning] else [])
             ++ (if 100000 <? n_rows df then [large_warning] else []))%list;
          suggestions := suggestions s |}).
Proof.
  unfold _validate_basic_structure, try_except, bind at 1.
  destruct (empty df) eqn:He; [reflexivity |].
  unfold empty in He. apply orb_false_iff in He as [_ Hc].
  assert (Hc1 : (len (columns df) <? 1) = false).
  { apply Z.ltb_ge. apply Z.eqb_neq in Hc. unfold len in *. lia. }
  unfold when at 1, ret at 1. cbv beta iota.
  unfold bind, when. rewrite Hc1.
  unfold basic_info, few_rows_warning, large_warning.
  destruct (n_rows df <? 2); destruct (100000 <? n_rows df);
    unfold append_warning, set_result, modify, ret;
    cbn [error_messages warnings suggestions validation_results app];
    rewrite ?app_nil_r, <- ?app_assoc; reflexivity.
Qed.

End Structure.

Section Duplicates.
Context (L : PyLib) (df : DataFrame).

Definition duplicate_pct : float :=
  times100 (np_div (float_of_Z (duplicated_sum df)) (float_of_Z (n_rows df))).





End Duplicates.

Import TypesFacts.

Section Outliers.
Context (L : PyLib).


Definition lower_bound (c : Series) : float :=
  let Q1 := quantile L (dropna c) 0.25 in
  let Q3 := quantile L (dropna c) 0.75 in
  PrimFloat.sub Q1 (PrimFloat.mul 1.5 (PrimFloat.sub Q3 Q1)).

Definition upper_bound (c : Series) : float :=
  let Q1 := quantile L (dropna c) 0.25 in
  let Q3 := quantile L (dropna c) 0.75 in
  PrimFloat.add Q3 (PrimFloat.mul 1.5 (PrimFloat.sub Q3 Q1)).

Definition outlier_count (c : Series) : Z :=
  len (filter (fun x => PrimFloat.ltb (number x) (lower_bound c)
                        || PrimFloat.ltb (upper_bound c) (number x)) (dropna c)).

Definition outlier_pct (c : Series) : float :=
  times100 (ratio (outlier_count c) (len (dropna c))).










End Outliers.

Section Consistency.

(** The share of distinct values among those that are not missing. *)
Definition unique_ratio_of (c : Series) : float := ratio (nunique c) (len (dropna c)).

(** A text column that looks like an identifier. *)
Definition high_cardinality (c : Series) : bool :=
  negb (len (dropna c) =? 0)
  && String.eqb (dtype c) "object" && PrimFloat.ltb 0.8 (unique_ratio_of c)
  && (50 <? nunique c).

(** A numeric column that looks like a code. *)
Definition low_cardinality (c : Series) : bool :=
  negb (len (dropna c) =? 0)
  && existsb (String.eqb (dtype c)) ["int64"; "float64"]
  && (nunique c <? 10) && (100 <? len (dropna c)).

Definition column_issues (c : Series) : list Issue :=
  if high_cardinality c then
    [ {| issue_column := name c; issue := "high_cardinality_categorical";
         unique_count := nunique c; unique_ratio := unique_ratio_of c |} ]
  else if low_cardinality c then
    [ {| issue_column := name c; issue := "low_cardinality_numeric";
         unique_count := nunique c; unique_ratio := unique_ratio_of c |} ]
  else [].








End Consistency.

Section Names.

(** The suggestions for one column name; [too_short] has none. *)
Definition name_suggestions (column : string) : list Finding :=
  let issues := name_issues column in
  ((if contains issues "trailing_spaces" then
      [ {| type := "nombres_columnas"; severity := "suggestion";
           message := "💡 La columna '" ++ column ++ "' tiene espacios al inicio o final";
           suggestion := "Considera limpiar los nombres de columnas" |} ] else [])
   ++ (if contains issues "special_characters" then
         [ {| type := "nombres_columnas"; severity := "suggestion";
              message := "💡 La columna '" ++ column ++ "' contiene caracteres especiales";
              suggestion := "Usa solo letras, números, guiones y guiones bajos" |} ] else [])
   ++ (if contains issues "too_long" then
         [ {| type := "nombres_columnas"; severity := "suggestion";
              message := "💡 La columna '" ++ column ++ "' tiene un nombre muy largo";
              suggestion := "Considera usar un nombre más corto y descriptivo" |} ] else [])
   ++ (if contains issues "code_like" then
         [ {| type := "nombres_columnas"; severity := "suggestion";
              message := "💡 La columna '" ++ column ++ "' parece ser un código";
              suggestion := "Considera usar un nombre más descriptivo" |} ] else []))%list.




Lemma name_suggestions_nil column :
  name_issues column = [] -> name_suggestions column = [].
Proof. intros H. unfold name_suggestions. rewrite H. reflexivity. Qed.


End Names.

End CheckFacts.

(** ** What each check finds *)

Import CheckFacts.

(** X1: the check of the structure reports an empty table (no row or no
    column) with one error and stops there: no warning and no [basic_info].
    On any other table it reports no error, records [basic_info], and warns
    about fewer than 2 rows and about more than 100000 rows.  The error
    "no columns" is never reported: a table without columns is empty. *)
Theorem structure_check_findings :
  forall (L : PyLib) (df : DataFrame) (file_name : string),
    let d := found (_validate_basic_structure L df file_name) in
    (empty df = true ->
     error_messages d = [empty_error file_name] /\ warnings d = [] /\
     suggestions d = [] /\ dict_has "basic_info" (validation_results d) = false) /\
    (empty df = false ->
     error_messages d = [] /\ suggestions d = [] /\
     warnings d
     = ((if n_rows df <? 2 then [few_rows_warning df file_name] else [])
        ++ (if 100000 <? n_rows df then [large_warning df] else []))%list /\
     dict_get "basic_info" (validation_results d) = Some (basic_info L df)) /\
    ~ In (no_columns_error file_name) (error_messages d).
Proof.
  intros L df file_name d. subst d. unfold found.
  rewrite basic_structure_run. destruct (empty df); cbn [snd].
  - split; [intros _; repeat split; reflexivity |]. split; [discriminate |].
    cbn. intros [H | []]. apply (f_equal suggestion) in H. discriminate H.
  - split; [discriminate |]. split; [| cbn; tauto].
    intros _. cbn [error_messages warnings suggestions validation_results init app].
    repeat split; reflexivity.
Qed.




(** Two rows that are the same, and a third. *)
Definition repeated_rows : DataFrame :=
  {| n_rows := 3;
     columns := [ {| name := "x"; dtype := "float64";
                     values := [Some (SNum 1); Some (SNum 1); Some (SNum 2)] |};
                  {| name := "y"; dtype := "object";
                     values := [None; None; Some (SStr "b")] |} ] |}.

Example repeated_rows_warned :
  duplicated_sum repeated_rows = 1 /\
  map type (warnings (found (_validate_duplicates (Fixture.lib 2.5 0.01) repeated_rows)))
  = ["duplicados"].
Proof. split; vm_compute; reflexivity. Qed.














(** X9: [validate_dataframe] starts from empty lists: its report and the
    validator it leaves do not depend on what the validator held before,
    so that validating again gives the same report and findings do not
    pile up. *)
Theorem validate_dataframe_forgets_the_past :
  forall (L : PyLib) (df : DataFrame) (file_name : string) (s1 s2 : DataValidator),
    validate_dataframe L df file_name s1 = validate_dataframe L df file_name s2 /\
    validate_dataframe L df file_name (snd (validate_dataframe L df file_name s1))
    = validate_dataframe L df file_name s1.
Proof.
  intros L df file_name s1 s2. now rewrite !validate_dataframe_runs_checks.
Qed.

(** ** Column names and dates *)




Lemma word_is_not_space (c : ascii) : is_word c = true -> is_space c = false.
Proof. destruct c as [[] [] [] [] [] [] [] []]; vm_compute; intuition congruence. Qed.

Lemma word_is_not_special (c : ascii) : is_word c = true -> special_character c = false.
Proof. intros H. unfold special_character. now rewrite H. Qed.

Lemma rstrip_words (s : string) :
  string_exists (fun c => negb (is_word c)) s = false -> rstrip s = s.
Proof.
  induction s as [| c s IH]; [reflexivity |].
  cbn [string_exists rstrip]. intros H. apply orb_false_iff in H as [Hc Hs].
  apply negb_false_iff in Hc. rewrite (IH Hs).
  destruct s; [now rewrite (word_is_not_space c Hc) | reflexivity].
Qed.

Lemma lstrip_words (s : string) :
  string_exists (fun c => negb (is_word c)) s = false -> lstrip s = s.
Proof.
  destruct s as [| c s]; [reflexivity |].
  cbn [string_exists lstrip]. intros H. apply orb_false_iff in H as [Hc _].
  apply negb_false_iff in Hc. now rewrite (word_is_not_space c Hc).
Qed.

Lemma no_special_words (s : string) :
  string_exists (fun c => negb (is_word c)) s = false ->
  string_exists special_character s = false.
Proof.
  induction s as [| c s IH]; [reflexivity |].
  cbn [string_exists]. intros H. apply orb_false_iff in H as [Hc Hs].
  apply negb_false_iff in Hc. now rewrite (word_is_not_special c Hc), (IH Hs).
Qed.

(** X8: a name of 2 to 50 characters, all of them letters, digits or
    underscores, that does not begin with an upper-case letter has no
    issue: the check of the column names records nothing for it and
    suggests nothing. *)
Theorem plain_name_has_no_issue :
  forall (first : ascii) (rest : string),
    let column := String first rest in
    (2 <= String.length column <= 50)%nat ->
    string_exists (fun c => negb (is_word c)) column = false ->
    is_upper first = false ->
    name_issues column = [] /\ name_suggestions column = [].
Proof.
  intros first rest column Hlen Hw Hup.
  assert (Hi : name_issues column = []).
  { unfold name_issues, strip. rewrite (rstrip_words column Hw), (lstrip_words column Hw).
    rewrite String.eqb_refl, (no_special_words column Hw). cbn [negb].
    replace (50 <? Z.of_nat (String.length column)) with false
      by (symmetry; apply Z.ltb_ge; lia).
    replace (Z.of_nat (String.length column) <? 2) with false
      by (symmetry; apply Z.ltb_ge; lia).
    subst column. cbn [code_like]. rewrite Hup. reflexivity. }
  split; [exact Hi | now apply name_suggestions_nil].
Qed.

Lemma plain_name_has_no_issue_witness :
  name_issues "precio_total" = [] /\ name_suggestions "precio_total" = [].
Proof.
  exact (plain_name_has_no_issue "p" "recio_total" ltac:(cbn; lia) eq_refl eq_refl).
Defined.

Lemma match_pattern_prefix (p : list (option ascii)) (s t : string) :
  match_pattern p s = true -> match_pattern p (s ++ t) = true.
Proof.
  revert s. induction p as [| [d |] p IH]; intros s H; [reflexivity | |];
    (destruct s as [| c s]; [destruct p; discriminate H |]);
    cbn [match_pattern append] in *; apply andb_true_iff in H as [Hc Hs];
    rewrite Hc, (IH s Hs); reflexivity.
Qed.

Lemma match_pattern_length (p : list (option ascii)) (s : string) :
  match_pattern p s = true -> (List.length p <= String.length s)%nat.
Proof.
  revert s. induction p as [| [d |] p IH]; intros s H; cbn [List.length]; [lia | |];
    (destruct s as [| c s]; [discriminate H |]);
    cbn [match_pattern String.length] in *; apply andb_true_iff in H as [_ Hs];
    specialize (IH s Hs); lia.
Qed.

(** X10: [_looks_like_date] looks only at the beginning of the text: a
    text of fewer than 10 characters never looks like a date, and a text
    that looks like a date still does whatever is appended to it. *)
Theorem looks_like_date_reads_a_prefix :
  (forall value, _looks_like_date value = true -> (10 <= String.length value)%nat) /\
  (forall value rest, _looks_like_date value = true ->
                      _looks_like_date (value ++ rest) = true).
Proof.
  split.
  - intros value H. unfold _looks_like_date in H.
    apply existsb_exists in H as (p & Hin & Hm).
    apply match_pattern_length in Hm.
    unfold date_patterns in Hin. cbn [In] in Hin.
    destruct Hin as [<- | [<- | [<- | [<- | []]]]]; exact Hm.
  - intros value rest H. unfold _looks_like_date in *.
    apply existsb_exists in H as (p & Hin & Hm).
    apply existsb_exists. exists p. split; [exact Hin |].
    now apply match_pattern_prefix.
Qed.

Lemma looks_like_date_reads_a_prefix_witness :
  _looks_like_date ("2024-02-30" ++ " (pendiente)") = true.
Proof.
  exact (proj2 looks_like_date_reads_a_prefix "2024-02-30" " (pendiente)" eq_refl).
Defined.

(** * [suggest_data_cleaning] and [create_validation_report] *)

Module Reports.
Import Validation.





Section Cleaning.
(** [pd.to_numeric(series, errors='coerce')], of which only the exception
    matters: the converted column is dropped. *)
Context (to_numeric : Series -> exn + unit).



End Cleaning.



Section Report.
Context (L : PyLib) (to_numeric : Series -> exn + unit).
(** [datetime.now().isoformat()] *)
Context (now : string).


End Report.
End Reports.

(** ** The cleaning suggestions and the full report *)

Import Reports.


















(** * Further properties of the analyses *)

(** ** The interpretation and the significance *)

(** The text says that the result is significant: the interpretations of
    a significant result begin with one of these words, those of a result
    that is not significant with none of them. *)
Definition affirms (s : string) : bool :=
  String.prefix "Existe " s || String.prefix "La media muestral " s
  || String.prefix "El modelo es " s.

(** The interpretation of [r] affirms exactly when [is_significant] is
    true, that is when the p-value under [pkey] is below [alpha]. *)
Definition interpreted (pkey : string) (alpha : float) (r : pydict) : Prop :=
  exists p s,
    dict_get pkey r = Some (PFloat p) /\
    dict_get "is_significant" r = Some (PBool (PrimFloat.ltb p alpha)) /\
    dict_get "interpretation" r = Some (PStr s) /\
    affirms s = PrimFloat.ltb p alpha.

Ltac interpreted_tac :=
  lazymatch goal with
  | |- is_error _ = false => reflexivity
  | |- interpreted _ _ _ =>
      do 2 eexists;
      split; [reflexivity | split; [reflexivity | split; [reflexivity |]]];
      unfold _interpret_t_test_one_sample, _interpret_t_test_two_samples,
        _interpret_anova, _interpret_chi_square, _interpret_correlation,
        _interpret_regression;
      lazymatch goal with
      | |- context [if PrimFloat.ltb ?p ?a then _ else _] =>
          destruct (PrimFloat.ltb p a); reflexivity
      end
  end.

Section Interpretations.
Context (L : PyLib).

Lemma t_test_one_sample_interpreted data column test_value alpha :
  method_spec [] "Error en prueba t de una muestra: " (interpreted "p_value" alpha)
              (t_test_one_sample L data column test_value alpha).
Proof.
  unfold t_test_one_sample. apply method_spec_intro; repeat final_step; interpreted_tac.
Qed.

Lemma t_test_two_samples_interpreted data column group_column alpha equal_var :
  method_spec [two_groups_message] "Error en prueba t de dos muestras: "
              (interpreted "p_value" alpha)
              (t_test_two_samples L data column group_column alpha equal_var).
Proof.
  unfold t_test_two_samples. apply method_spec_intro; repeat final_step; interpreted_tac.
Qed.

Lemma anova_one_way_interpreted data dependent_var independent_var alpha :
  method_spec [anova_groups_message] "Error en ANOVA: " (interpreted "p_value" alpha)
              (anova_one_way L data dependent_var independent_var alpha).
Proof.
  unfold anova_one_way. apply method_spec_intro; repeat final_step; interpreted_tac.
Qed.

Lemma chi_square_test_interpreted data var1 var2 alpha :
  method_spec [] "Error en prueba de chi-cuadrado: " (interpreted "p_value" alpha)
              (chi_square_test L data var1 var2 alpha).
Proof.
  unfold chi_square_test. apply method_spec_intro; repeat final_step; interpreted_tac.
Qed.

Lemma correlation_analysis_interpreted data var1 var2 method alpha :
  method_spec [three_pairs_message; invalid_method_message]
              "Error en análisis de correlación: " (interpreted "p_value" alpha)
              (correlation_analysis L data var1 var2 method alpha).
Proof.
  unfold correlation_analysis. apply method_spec_intro; repeat final_step; interpreted_tac.
Qed.

Lemma linear_regression_interpreted data dependent_var independent_vars alpha :
  method_spec [regression_data_message] "Error en regresión lineal: "
              (interpreted "f_p_value" alpha)
              (linear_regression L data dependent_var independent_vars alpha).
Proof.
  unfold linear_regression. apply method_spec_intro; repeat final_step; interpreted_tac.
Qed.

End Interpretations.

(** What a method that meets its specification returned, when it is not an
    error. *)
Lemma method_spec_success E prefix Q m s r s' :
  method_spec E prefix Q m -> m s = (Returned r, s') -> is_error r = false -> Q r.
Proof.
  intros Hm Hr He. destruct (Hm s) as [r0 [[H0 (msg & -> & _)] | (H0 & _ & HQ)]];
    rewrite Hr in H0; injection H0 as -> _.
  - discriminate He.
  - exact HQ.
Qed.

Lemma run_interpreted L op alpha self self' result :
  alpha_of op = Some alpha ->
  run L op self = (Returned result, self') ->
  is_error result = false ->
  interpreted (p_value_key op) alpha result.
Proof.
  intros Ha Hrun He.
  destruct op; cbn in Ha; inversion Ha; subst; cbn [run p_value_key] in *.
  - eapply method_spec_success; eauto using t_test_one_sample_interpreted.
  - eapply method_spec_success; eauto using t_test_two_samples_interpreted.
  - eapply method_spec_success; eauto using anova_one_way_interpreted.
  - eapply method_spec_success; eauto using chi_square_test_interpreted.
  - eapply method_spec_success; eauto using correlation_analysis_interpreted.
  - eapply method_spec_success; eauto using linear_regression_interpreted.
Qed.

(** X14: the interpretation of a result never contradicts its field
    [is_significant].  For each of the six tests, the text of a result that
    is not an error affirms a difference, an association, a correlation or
    a significant model exactly when the p-value of the result is strictly
    below [alpha], which is when [is_significant] is true. *)
Theorem interpretation_agrees_with_significance :
  forall (L : PyLib) (op : Operation) (alpha : float)
         (self self' : StatisticalAnalysis) (result : pydict),
    alpha_of op = Some alpha ->
    run L op self = (Returned result, self') ->
    is_error result = false ->
    exists p s,
      dict_get (p_value_key op) result = Some (PFloat p) /\
      dict_get "interpretation" result = Some (PStr s) /\
      dict_get "is_significant" result = Some (PBool (affirms s)) /\
      (affirms s = true <-> PrimFloat.ltb p alpha = true).
Proof.
  intros L op alpha self self' result Ha Hrun He.
  destruct (run_interpreted L op alpha self self' result Ha Hrun He)
    as (p & s & Hp & Hs & Hi & Hsay).
  exists p, s. rewrite Hsay. repeat split; auto.
Qed.

Lemma interpretation_agrees_with_significance_witness :
  exists p s,
    dict_get "p_value"
      (result_of (t_test_one_sample (Fixture.lib 2.5 0.01) scores "score" 5 0.05 Statistics.init))
    = Some (PFloat p) /\
    dict_get "interpretation"
      (result_of (t_test_one_sample (Fixture.lib 2.5 0.01) scores "score" 5 0.05 Statistics.init))
    = Some (PStr s) /\
    dict_get "is_significant"
      (result_of (t_test_one_sample (Fixture.lib 2.5 0.01) scores "score" 5 0.05 Statistics.init))
    = Some (PBool (affirms s)) /\
    (affirms s = true <-> PrimFloat.ltb p 0.05 = true).
Proof.
  exact (interpretation_agrees_with_significance (Fixture.lib 2.5 0.01)
           (T_test_one_sample scores "score" 5 0.05) 0.05 Statistics.init _ _
           eq_refl eq_refl eq_refl).
Defined.

(** ** The labels of the history *)

(** [item.get('test_type', item.get('analysis_type', 'Desconocido'))], the
    label under which the dashboard lists an entry of the history. *)
Definition history_label (item : pydict) : pyval :=
  match dict_get "test_type" item with
  | Some v => v
  | None =>
      match dict_get "analysis_type" item with
      | Some v => v
      | None => PStr "Desconocido"
      end
  end.

Definition known_labels : list string :=
  [ "Prueba t de una muestra"; "Prueba t de dos muestras independientes";
    "ANOVA de un factor"; "Prueba de chi-cuadrado de independencia";
    "Correlación de Pearson"; "Correlación de Spearman"; "Correlación de Kendall";
    "Regresión lineal"; "K-means Clustering" ].

(** An entry as the dashboard expects it: not an error, listed under one of
    the nine labels, and its [p_value], if it has one, a number. *)
Definition labelled (item : pydict) : Prop :=
  is_error item = false /\
  (exists s, history_label item = PStr s /\ In s known_labels) /\
  (dict_has "p_value" item = true -> exists p, dict_get "p_value" item = Some (PFloat p)).

(** A correlation that is not an error was asked with one of the three
    methods. *)
Lemma correlation_method_known L data var1 var2 method alpha self r self' :
  correlation_analysis L data var1 var2 method alpha self = (Returned r, self') ->
  is_error r = false ->
  In method ["pearson"; "spearman"; "kendall"].
Proof.
  intros Hr He.
  destruct (String.eqb_spec method "pearson") as [-> | Hp]; [cbn; auto |].
  destruct (String.eqb_spec method "spearman") as [-> | Hs]; [cbn; auto |].
  destruct (String.eqb_spec method "kendall") as [-> | Hk]; [cbn; auto |].
  exfalso. apply String.eqb_neq in Hp, Hs, Hk.
  unfold correlation_analysis, call, try_except, bind, eval in Hr.
  destruct (getitems data [var1; var2]) as [e | selected].
  - injection Hr as <- _. discriminate He.
  - destruct (n_rows (dropna_rows selected) <? 3).
    + injection Hr as <- _. discriminate He.
    + rewrite Hp, Hs, Hk in Hr. injection Hr as <- _. discriminate He.
Qed.

Ltac in_list := cbn; repeat first [left; reflexivity | right].

Lemma test_result_labelled label alpha r :
  In label known_labels -> is_error r = false -> test_result label alpha r -> labelled r.
Proof.
  intros Hin He (Ht & _ & (p & Hp & _) & _). split; [exact He |]. split.
  - exists label. unfold history_label. now rewrite Ht.
  - intros _. eauto.
Qed.

Lemma run_labelled L op self r self' :
  run L op self = (Returned r, self') -> is_error r = false -> labelled r.
Proof.
  intros Hr He. destruct (run_success L op self r self' Hr He) as [HQ _].
  destruct op; cbn [result_kind run] in *.
  1-4: eapply test_result_labelled; eauto; in_list.
  - eapply test_result_labelled; eauto.
    destruct (correlation_method_known _ _ _ _ _ _ _ _ _ Hr He)
      as [<- | [<- | [<- | []]]]; in_list.
  - destruct HQ as (Ht & _ & _ & Hl). split; [exact He |]. split.
    + exists "Regresión lineal". unfold history_label. rewrite Ht. split; [reflexivity | in_list].
    + intros Hp. apply Forall_inv in Hl. congruence.
  - destruct HQ as (Ha & Hl). split; [exact He |]. split.
    + exists "K-means Clustering". unfold history_label.
      unfold lacks_keys, common_fields in Hl. apply Forall_inv in Hl.
      unfold dict_has in Hl. destruct (dict_get "test_type" r); [discriminate Hl |].
      rewrite Ha. split; [reflexivity | in_list].
    + intros Hp. unfold lacks_keys, common_fields in Hl.
      apply Forall_inv_tail, Forall_inv in Hl. congruence.
Qed.

Lemma run_all_labelled L ops self :
  Forall labelled (get_analysis_history self) ->
  Forall labelled (get_analysis_history (snd (run_all L ops self))).
Proof.
  revert self. induction ops as [| op ops IH]; intros self Hself; [exact Hself |].
  cbn [run_all snd]. apply IH.
  destruct (run_cases L op self) as [r [[Hr He] | (Hr & He & _)]]; rewrite Hr; cbn [snd].
  - exact Hself.
  - unfold get_analysis_history in *. cbn [results_history].
    apply Forall_app. split; [exact Hself |].
    constructor; [| constructor]. eapply run_labelled; eauto.
Qed.

(** X15: the history holds only what the dashboard can list.  After any
    session on a new object, and after any session on an object of which
    this held before, every entry of the history is a result that is not an
    error, its label [item.get('test_type', item.get('analysis_type',
    'Desconocido'))] is one of nine known labels, never ['Desconocido'],
    and its [p_value], when it has one, is a number. *)
Theorem history_entries_are_labelled :
  forall (L : PyLib) (ops : list Operation),
    Forall labelled (get_analysis_history (snd (run_all L ops Statistics.init))) /\
    (forall self : StatisticalAnalysis,
        Forall labelled (get_analysis_history self) ->
        Forall labelled (get_analysis_history (snd (run_all L ops self))) /\
        Forall labelled
          (get_analysis_history (snd (run_all L ops (clear_history self))))) /\
    ~ In "Desconocido" known_labels.
Proof.
  intros L ops. split; [| split].
  - apply run_all_labelled. constructor.
  - intros self Hself. split; apply run_all_labelled; [exact Hself | constructor].
  - cbn. intuition discriminate.
Qed.

(** ** The groups of the ANOVA *)

Section Anova.
Context (L : PyLib) (data : DataFrame) (dependent_var independent_var : string).
Context (level_col dependent_col : Series).

(** The observations of a level: the values of the dependent variable in
    the rows of the level, without the missing ones. *)
Definition level_data (group_name : cell) : list scalar :=
  present (select (eq_mask level_col group_name) (values dependent_col)).

Definition has_data (group_name : cell) : bool := 0 <? len (level_data group_name).

Lemma find_column_where key mask (cols : list Series) c :
  find_column key cols = Some c ->
  find_column key (map (fun c => {| name := name c; dtype := dtype c;
                                    values := select mask (values c) |}) cols)
  = Some {| name := name c; dtype := dtype c; values := select mask (values c) |}.
Proof.
  induction cols as [| c' cols IH]; [discriminate |].
  cbn [find_column map name]. destruct (String.eqb (name c') key).
  - now intros [= ->].
  - exact IH.
Qed.

Lemma getitem_where mask key c :
  getitem data key = inr c ->
  getitem (where_ data mask) key
  = inr {| name := name c; dtype := dtype c; values := select mask (values c) |}.
Proof.
  unfold getitem. cbn [where_ columns].
  destruct (find_column key (columns data)) as [c' |] eqn:Hf; [| discriminate].
  intros [= ->]. now rewrite (find_column_where key mask _ c Hf).
Qed.

Lemma select_none {A} (mask : list bool) (l : list A) :
  Forall (fun b => b = false) mask -> select mask l = [].
Proof.
  intros H. revert l. induction H as [| b mask -> _ IH]; intros l.
  - destruct l; reflexivity.
  - destruct l; cbn; auto.
Qed.

(** No row is of a level that is missing. *)
Lemma missing_level_has_no_data (group_name : cell) :
  isna group_name = true -> has_data group_name = false.
Proof.
  intros Hna. unfold has_data, level_data. rewrite select_none; [reflexivity |].
  unfold eq_mask. apply Forall_map, Forall_forall. intros c _.
  destruct c as [a |]; [| reflexivity]. destruct group_name as [b |]; [| reflexivity].
  rewrite Hna, orb_true_r. reflexivity.
Qed.

Hypothesis level_col_found : getitem data independent_var = inr level_col.
Hypothesis dependent_col_found : getitem data dependent_var = inr dependent_col.

(** The loop over the levels keeps those that have data. *)
Lemma anova_groups_loop (levels : list cell) groups group_names self :
  for_fold levels (groups, group_names) (anova_group data dependent_var level_col) self
  = (Next ((groups ++ map level_data (filter has_data levels))%list,
           (group_names ++ filter has_data levels)%list), self).
Proof.
  revert groups group_names. induction levels as [| g levels IH]; intros groups group_names.
  - cbn. now rewrite !app_nil_r.
  - cbn [for_fold filter]. unfold bind at 1. unfold anova_group at 1.
    unfold bind at 1, eval at 1.
    rewrite (getitem_where _ _ _ dependent_col_found). unfold dropna. cbn [values].
    fold (level_data g). fold (has_data g).
    destruct (has_data g); unfold ret; rewrite IH; cbn [map]; now rewrite <- ?app_assoc.
Qed.

(** The levels that make the groups. *)
Definition anova_levels : list cell := filter has_data (unique level_col).

Lemma anova_too_few_groups alpha self :
  len anova_levels < 2 ->
  anova_one_way L data dependent_var independent_var alpha self
  = (Returned (error anova_groups_message), self).
Proof.
  intros Hn. unfold anova_one_way, call, try_except. unfold bind at 1, eval at 1.
  rewrite level_col_found. unfold bind at 1. rewrite anova_groups_loop. cbn [app].
  fold anova_levels.
  assert (Hlen : len (map level_data anova_levels) = len anova_levels)
    by (unfold len; now rewrite length_map).
  rewrite Hlen. apply Z.ltb_lt in Hn. rewrite Hn. reflexivity.
Qed.

Lemma anova_enough_groups alpha self :
  2 <= len anova_levels ->
  exists r,
    (anova_one_way L data dependent_var independent_var alpha self = (Returned r, self) /\
     exists e, r = error ("Error en ANOVA: " ++ str_exn e)) \/
    (anova_one_way L data dependent_var independent_var alpha self
     = (Returned r, {| results_history := (results_history self ++ [r])%list |}) /\
     is_error r = false /\
     dict_get "groups" r = Some (PList (map pyval_of_cell anova_levels))).
Proof.
  intros Hn. unfold anova_one_way.
  match goal with
  | |- context [try_except (bind (eval (getitem data independent_var)) ?k) ?h] =>
      assert (Hfin : final []
                       (fun r => dict_get "groups" r
                                 = Some (PList (map pyval_of_cell anova_levels)))
                       (k level_col));
      [ | change (try_except (bind (eval (getitem data independent_var)) k) h)
            with (try_except (fun s => bind (eval (getitem data independent_var)) k s) h) ]
  end.
  - cbv beta.
    assert (Hloop : forall s,
               for_fold (unique level_col) ([], [])
                        (anova_group data dependent_var level_col) s
               = (Next (map level_data anova_levels, anova_levels), s))
      by (intros s; now rewrite anova_groups_loop).
    assert (Hlen : (len (map level_data anova_levels) <? 2) = false)
      by (apply Z.ltb_ge; unfold len in *; rewrite length_map; lia).
    split.
    + intros s. unfold bind at 1. rewrite Hloop. cbv beta iota. rewrite Hlen.
      match goal with
      | |- context [bind (eval (f_oneway L ?g)) ?k] =>
          assert (Hk : final [] (fun r => dict_get "groups" r
                                  = Some (PList (map pyval_of_cell anova_levels)))
                         (bind (eval (f_oneway L g)) k))
      end.
      { repeat final_step; reflexivity. }
      apply (proj1 Hk s).
    + intros s. unfold bind at 1. rewrite Hloop. cbv beta iota. rewrite Hlen.
      match goal with
      | |- context [bind (eval (f_oneway L ?g)) ?k] =>
          assert (Hk : final [] (fun r => dict_get "groups" r
                                  = Some (PList (map pyval_of_cell anova_levels)))
                         (bind (eval (f_oneway L g)) k))
      end.
      { repeat final_step; reflexivity. }
      apply (proj2 Hk s).
  - apply (method_spec_intro _ _ _ "Error en ANOVA: ") in Hfin.
    destruct (Hfin self) as [r [[Hr (msg & -> & [[] | [e ->]])] | (Hr & He & HQ)]].
    + exists (error ("Error en ANOVA: " ++ str_exn e)). left. split; [| eauto].
      rewrite <- Hr. unfold call, try_except, bind at 1. rewrite level_col_found.
      reflexivity.
    + exists r. right. split; [| auto].
      rewrite <- Hr. unfold call, try_except, bind at 1. rewrite level_col_found.
      reflexivity.
Qed.

End Anova.

(** X16: the groups of the ANOVA are the distinct values of the independent
    variable that have at least one observation of the dependent variable,
    in order of first appearance; a missing value is never one of them, as
    no row equals it.  When both columns are in the table, the call returns
    the error about the groups, leaving the history as it was, exactly when
    fewer than 2 such values remain; otherwise it never returns that error:
    it reports an exception of the computation or returns a result whose
    [groups] are these values, appended to the history. *)
Theorem anova_groups_are_the_levels_with_data :
  forall (L : PyLib) (data : DataFrame) (dependent_var independent_var : string)
         (alpha : float) (self : StatisticalAnalysis) (level_col dependent_col : Series),
    getitem data independent_var = inr level_col ->
    getitem data dependent_var = inr dependent_col ->
    let levels := anova_levels level_col dependent_col in
    let out := anova_one_way L data dependent_var independent_var alpha self in
    Forall (fun g => isna g = false) levels /\
    (len levels < 2 -> out = (Returned (error anova_groups_message), self)) /\
    (2 <= len levels ->
     exists r,
       fst out = Returned r /\ r <> error anova_groups_message /\
       (is_error r = true ->
        (exists e, r = error ("Error en ANOVA: " ++ str_exn e)) /\ snd out = self) /\
       (is_error r = false ->
        dict_get "groups" r = Some (PList (map pyval_of_cell levels)) /\
        snd out = {| results_history := (results_history self ++ [r])%list |})).
Proof.
  intros L data dependent_var independent_var alpha self level_col dependent_col
    Hlevel Hdep levels out.
  split; [| split].
  - apply Forall_forall. intros g Hin. apply filter_In in Hin as [_ Hg].
    destruct (isna g) eqn:Hna; [| reflexivity].
    rewrite (missing_level_has_no_data level_col dependent_col g Hna) in Hg.
    discriminate Hg.
  - intros Hn. now apply anova_too_few_groups with (level_col := level_col)
                                                  (dependent_col := dependent_col).
  - intros Hn.
    destruct (anova_enough_groups L data dependent_var independent_var level_col
                dependent_col Hlevel Hdep alpha self Hn)
      as [r [[Hr [e ->]] | (Hr & He & Hg)]]; subst out; rewrite Hr; cbn [fst snd].
    + eexists; split; [reflexivity |]. split; [cbn; discriminate |].
      split; [eauto | discriminate].
    + exists r; split; [reflexivity |].
      split; [intros ->; discriminate He |]. split; [congruence | auto].
Qed.

Lemma anova_groups_are_the_levels_with_data_witness :
  anova_levels class_with_missing
    {| name := "score"; dtype := "float64";
       values := [Some (SNum 5); Some (SNum 7); Some (SNum 6); Some (SNum 9);
                  Some (SNum 8)] |}
  = [Some (SStr "a"); Some (SStr "b")] /\
  dict_get "groups"
    (result_of (anova_one_way (Fixture.lib 2.5 0.01) two_classes_and_missing
                  "score" "class" 0.05 Statistics.init))
  = Some (PList [PStr "a"; PStr "b"]).
Proof.
  split; [vm_compute; reflexivity |].
  destruct (anova_groups_are_the_levels_with_data (Fixture.lib 2.5 0.01)
              two_classes_and_missing "score" "class" 0.05 Statistics.init
              class_with_missing _ eq_refl eq_refl)
    as (_ & _ & H).
  destruct (H ltac:(vm_compute; discriminate)) as (r & Hr & _ & _ & Hok).
  unfold result_of. rewrite Hr.
  assert (He : is_error r = false).
  { revert Hr. vm_compute. intros [= <-]. reflexivity. }
  rewrite (proj1 (Hok He)). vm_compute. reflexivity.
Defined.

(** ** The result of the clustering *)

(** A computation that only reads: it leaves the object as it was, does not
    return from the method, and its value, when it has one, satisfies [P]. *)
Definition reads {A} (P : A -> Prop) (c : body A) : Prop :=
  forall s,
    match c s with
    | (Next a, s') => s' = s /\ P a
    | (Raise _, s') => s' = s
    | (Return _, _) => False
    end.

Lemma reads_ret {A} (P : A -> Prop) (a : A) : P a -> reads P (ret a).
Proof. intros H s. cbn. auto. Qed.

Lemma reads_eval {A} (P : A -> Prop) (x : exn + A) :
  (forall a, x = inr a -> P a) -> reads P (eval x).
Proof. intros H s. unfold eval. destruct x; cbn; auto. Qed.

Lemma reads_bind {A B} (P : A -> Prop) (Q : B -> Prop) (c : body A) (k : A -> body B) :
  reads P c -> (forall a, P a -> reads Q (k a)) -> reads Q (bind c k).
Proof.
  intros Hc Hk s. unfold bind. specialize (Hc s).
  destruct (c s) as [[e | r | a] s']; auto.
  destruct Hc as [-> Ha]. apply (Hk a Ha).
Qed.

Lemma dict_has_set (k : string) (v : pyval) (d : pydict) :
  dict_has k (dict_set k v d) = true.
Proof.
  unfold dict_has. induction d as [| [k' v'] d IH]; cbn [dict_set dict_get].
  - cbn. now rewrite String.eqb_refl.
  - destruct (scalar_eqb k' k) eqn:E; cbn [dict_get]; rewrite E; [reflexivity | exact IH].
Qed.

Lemma dict_has_set_kept (k : scalar) (k' : scalar) (v : pyval) (d : pydict) :
  dict_has k d = true -> dict_has k (dict_set k' v d) = true.
Proof.
  unfold dict_has. induction d as [| [k0 v0] d IH]; cbn [dict_set dict_get].
  - discriminate.
  - destruct (scalar_eqb k0 k) eqn:E.
    + intros _. destruct (scalar_eqb k0 k'); cbn [dict_get]; now rewrite E.
    + intros H. destruct (scalar_eqb k0 k'); cbn [dict_get]; rewrite E; auto.
Qed.

Lemma string_length_append (s t : string) :
  String.length (s ++ t) = (String.length s + String.length t)%nat.
Proof. induction s as [| a s IH]; cbn; [reflexivity | now rewrite IH]. Qed.

Lemma cluster_is_no_statistic (var : string) :
  String.eqb "cluster" (var ++ "_mean") = false /\
  String.eqb "cluster" (var ++ "_std") = false.
Proof.
  split; apply String.eqb_neq; intros H;
    pose proof (f_equal String.length H) as Hlen;
    rewrite string_length_append in Hlen; cbn in Hlen.
  - destruct var as [| a [| b [| c var]]]; cbn in Hlen; try lia. discriminate H.
  - destruct var as [| a [| b [| c [| d var]]]]; cbn in Hlen; try lia. discriminate H.
Qed.

Section Kmeans.
Context (L : PyLib).

(** An entry of [cluster_statistics]: it begins with the number of the
    cluster and has the mean and the deviation of the variables [vars]. *)
Definition cluster_entry (vars : list string) (i : Z) (d : pydict) : Prop :=
  (exists rest, d = (SStr "cluster", PInt i) :: rest) /\
  forall var, In var vars ->
    dict_has (var ++ "_mean") d = true /\ dict_has (var ++ "_std") d = true.

Lemma cluster_entry_set vars i d (k : scalar) v :
  (forall s : string, k = SStr s -> String.eqb "cluster" s = false) ->
  cluster_entry vars i d -> cluster_entry vars i (dict_set k v d).
Proof.
  intros Hk [[rest ->] Hv]. split.
  - cbn [dict_set]. destruct k as [x | s | b]; cbn [scalar_eqb]; eauto.
    rewrite (Hk s eq_refl). eauto.
  - intros var Hin. destruct (Hv var Hin). split; now apply dict_has_set_kept.
Qed.

Lemma cluster_variable_reads cluster_subset vars i stats_dict var :
  cluster_entry vars i stats_dict ->
  reads (cluster_entry (vars ++ [var]) i) (cluster_variable L cluster_subset stats_dict var).
Proof.
  intros Hd. unfold cluster_variable.
  destruct (cluster_is_no_statistic var) as [Hm Hs].
  repeat (eapply reads_bind; [apply reads_eval; intros; exact I | intros ? _]).
  apply reads_ret.
  assert (H1 : cluster_entry vars i (dict_set (SStr (var ++ "_mean")) (PFloat a0) stats_dict))
    by (apply cluster_entry_set; [intros s [= <-]; exact Hm | exact Hd]).
  assert (H2 : cluster_entry vars i
                 (dict_set (SStr (var ++ "_std")) (PFloat a2)
                    (dict_set (SStr (var ++ "_mean")) (PFloat a0) stats_dict)))
    by (apply cluster_entry_set; [intros s [= <-]; exact Hs | exact H1]).
  destruct H2 as [Hhead Hv]. split; [exact Hhead |].
  intros v Hin. apply in_app_or in Hin as [Hin | [<- | []]]; [now apply Hv |].
  split; [apply dict_has_set_kept |]; apply dict_has_set.
Qed.

Lemma cluster_variables_reads cluster_subset i (todo : list string) :
  forall vars stats_dict,
    cluster_entry vars i stats_dict ->
    reads (cluster_entry (vars ++ todo) i)
          (for_fold todo stats_dict (cluster_variable L cluster_subset)).
Proof.
  induction todo as [| var todo IH]; intros vars stats_dict Hd; cbn [for_fold].
  - apply reads_ret. now rewrite app_nil_r.
  - eapply reads_bind; [apply (cluster_variable_reads _ vars i _ var Hd) |].
    intros d Hd'. change (var :: todo) with ([var] ++ todo)%list. rewrite app_assoc.
    now apply IH.
Qed.

(** The entries of the clusters [l], after those of [cluster_stats]. *)
Definition cluster_entries (vars : list string) (cluster_stats : list pyval) (l : list Z)
  (stats : list pyval) : Prop :=
  exists ds, stats = (cluster_stats ++ map PDict ds)%list /\
             Forall2 (cluster_entry vars) l ds.

Lemma cluster_statistics_reads result_data vars cluster_stats i :
  reads (cluster_entries vars cluster_stats [i])
        (cluster_statistics L result_data vars cluster_stats i).
Proof.
  unfold cluster_statistics.
  eapply reads_bind; [apply reads_eval; intros; exact I | intros labels _].
  eapply reads_bind; [apply reads_eval; intros; exact I | intros ratio _].
  eapply reads_bind.
  - apply (cluster_variables_reads _ i vars []). split; [eauto |]. intros var [].
  - intros d Hd. apply reads_ret. exists [d]. split; [reflexivity |].
    constructor; [exact Hd | constructor].
Qed.

Lemma cluster_statistics_loop result_data vars (l : list Z) :
  forall cluster_stats,
    reads (cluster_entries vars cluster_stats l)
          (for_fold l cluster_stats (cluster_statistics L result_data vars)).
Proof.
  induction l as [| i l IH]; intros cluster_stats; cbn [for_fold].
  - apply reads_ret. exists []. split; [now rewrite app_nil_r | constructor].
  - eapply reads_bind; [apply (cluster_statistics_reads _ vars cluster_stats i) |].
    intros stats (ds1 & -> & H1).
    intros s. specialize (IH (cluster_stats ++ map PDict ds1)%list s).
    destruct (for_fold l _ _ s) as [[e | r | stats'] s']; auto.
    destruct IH as [-> (ds2 & -> & H2)]. split; [reflexivity |].
    exists (ds1 ++ ds2)%list. split; [now rewrite map_app, app_assoc |].
    inversion H1 as [| ? d ? ? Hd Hnil]; subst. inversion Hnil; subst.
    cbn [app]. constructor; assumption.
Qed.

End Kmeans.

(** X17: the shape of a result of the clustering.  A result that is not an
    error has at least as many observations as clusters and one label for
    each observation; its [cluster_statistics] has one entry for each
    cluster from 0 to [n_clusters - 1], in this order, which begins with
    the number of the cluster and has the mean and the deviation of each
    variable. *)
Theorem kmeans_result_shape :
  forall (L : PyLib) (data : DataFrame) (variables : list string)
         (n_clusters random_state : Z) (self self' : StatisticalAnalysis) (r : pydict),
    kmeans_clustering L data variables n_clusters random_state self = (Returned r, self') ->
    is_error r = false ->
    exists (n : Z) (labels : list Z) (stats : list pydict),
      dict_get "sample_size" r = Some (PInt n) /\ n_clusters <= n /\
      dict_get "cluster_labels" r = Some (PList (map PInt labels)) /\ len labels = n /\
      dict_get "cluster_statistics" r = Some (PList (map PDict stats)) /\
      Forall2 (cluster_entry variables) (range n_clusters) stats.
Proof.
  intros L data variables n_clusters random_state self self' r Hr He.
  unfold kmeans_clustering, call, try_except in Hr.
  unfold bind at 1, eval at 1 in Hr.
  destruct (getitems data variables) as [e | selected];
    [injection Hr as <- _; discriminate He |].
  destruct (Z.ltb_spec (n_rows (dropna_rows selected)) n_clusters) as [Hlt | Hge];
    [injection Hr as <- _; discriminate He |].
  unfold bind at 1, eval at 1 in Hr.
  destruct (kmeans_fit L (dropna_rows selected) n_clusters random_state) as [e | kmeans];
    [injection Hr as <- _; discriminate He |].
  unfold bind at 1, eval at 1 in Hr.
  destruct (setitem (dropna_rows selected) "cluster"
              (map (fun l => SNum (float_of_Z l)) (labels_ kmeans)))
    as [e | result_data] eqn:Hset;
    [injection Hr as <- _; discriminate He |].
  unfold setitem in Hset.
  destruct (Z.eqb_spec (len (map (fun l => SNum (float_of_Z l)) (labels_ kmeans)))
              (n_rows (dropna_rows selected))) as [Hlen | Hlen]; [| discriminate Hset].
  injection Hset as <-.
  unfold bind at 1 in Hr.
  match type of Hr with
  | context [for_fold (range n_clusters) [] ?f self] =>
      change f with
        (cluster_statistics L
           {| n_rows := n_rows (dropna_rows selected);
              columns := set_column (columns (dropna_rows selected))
                           {| name := "cluster"; dtype := "int32";
                              values := map Some (map (fun l => SNum (float_of_Z l))
                                                      (labels_ kmeans)) |} |}
           variables) in Hr
  end.
  match type of Hr with
  | context [for_fold (range n_clusters) [] (cluster_statistics L ?rd variables) self] =>
      pose proof (cluster_statistics_loop L rd variables (range n_clusters) [] self)
        as Hloop
  end.
  destruct (for_fold (range n_clusters) [] _ self) as [[e | r' | stats] s'].
  - injection Hr as <- _. discriminate He.
  - contradiction.
  - destruct Hloop as [-> (ds & -> & Hds)]. cbn [app] in Hr.
    unfold bind, append_history, modify, return_ in Hr. injection Hr as <- _.
    exists (n_rows (dropna_rows selected)), (labels_ kmeans), ds.
    repeat split; try reflexivity; try assumption.
    unfold len in *. now rewrite length_map in Hlen.
Qed.

Lemma kmeans_result_shape_witness :
  exists (n : Z) (labels : list Z) (stats : list pydict),
    dict_get "sample_size"
      (result_of (kmeans_clustering (Fixture.lib 2.5 0.01) scores ["score"] 1 42
                    Statistics.init))
    = Some (PInt n) /\ 1 <= n /\
    dict_get "cluster_labels"
      (result_of (kmeans_clustering (Fixture.lib 2.5 0.01) scores ["score"] 1 42
                    Statistics.init))
    = Some (PList (map PInt labels)) /\ len labels = n /\
    dict_get "cluster_statistics"
      (result_of (kmeans_clustering (Fixture.lib 2.5 0.01) scores ["score"] 1 42
                    Statistics.init))
    = Some (PList (map PDict stats)) /\
    Forall2 (cluster_entry ["score"]) (range 1) stats.
Proof.
  exact (kmeans_result_shape (Fixture.lib 2.5 0.01) scores ["score"] 1 42
           Statistics.init _ _ eq_refl eq_refl).
Defined.

(** ** Results that are not a number *)

(** NaN compares false with everything. *)
Lemma is_nan_spec (x : float) : PrimFloat.is_nan x = true -> Prim2SF x = S754_nan.
Proof.
  unfold PrimFloat.is_nan. rewrite FloatAxioms.eqb_spec. unfold SFeqb.
  destruct (Prim2SF x) as [s | s | | s m e]; cbn; try discriminate; auto.
  - destruct s; discriminate.
  - rewrite Z.compare_refl, Pos.compare_cont_refl. destruct s; discriminate.
Qed.

Lemma ltb_nan_l (x y : float) : PrimFloat.is_nan x = true -> PrimFloat.ltb x y = false.
Proof. intros H. rewrite FloatAxioms.ltb_spec, (is_nan_spec x H). reflexivity. Qed.

Lemma ltb_nan_r (x y : float) : PrimFloat.is_nan y = true -> PrimFloat.ltb x y = false.
Proof.
  intros H. rewrite FloatAxioms.ltb_spec, (is_nan_spec y H). unfold SFltb.
  destruct (Prim2SF x); reflexivity.
Qed.

Lemma ltb_abs_nan (x y : float) :
  PrimFloat.is_nan x = true -> PrimFloat.ltb (PrimFloat.abs x) y = false.
Proof. intros H. rewrite FloatAxioms.ltb_spec, FloatAxioms.abs_spec, (is_nan_spec x H). reflexivity. Qed.

(** X18: a p-value that is not a number is never significant.  When the
    p-value of a result of one of the six tests is NaN, or when [alpha] is,
    [is_significant] is false and the interpretation does not affirm a
    difference, whatever the other. *)
Theorem nan_p_value_is_never_significant :
  forall (L : PyLib) (op : Operation) (alpha : float)
         (self self' : StatisticalAnalysis) (result : pydict) (p : float),
    alpha_of op = Some alpha ->
    run L op self = (Returned result, self') ->
    is_error result = false ->
    dict_get (p_value_key op) result = Some (PFloat p) ->
    PrimFloat.is_nan p = true \/ PrimFloat.is_nan alpha = true ->
    dict_get "is_significant" result = Some (PBool false) /\
    exists s, dict_get "interpretation" result = Some (PStr s) /\ affirms s = false.
Proof.
  intros L op alpha self self' result p Ha Hrun He Hp Hnan.
  destruct (run_interpreted L op alpha self self' result Ha Hrun He)
    as (p' & s & Hp' & Hs & Hi & Hsay).
  rewrite Hp in Hp'. injection Hp' as <-.
  assert (Hlt : PrimFloat.ltb p alpha = false)
    by (destruct Hnan; [now apply ltb_nan_l | now apply ltb_nan_r]).
  rewrite Hlt in *. split; [exact Hs |]. eauto.
Qed.

Lemma nan_p_value_is_never_significant_witness :
  dict_get "is_significant"
    (result_of (t_test_one_sample (Fixture.lib 2.5 0.01) one_score "score" 5 0.05
                  Statistics.init))
  = Some (PBool false) /\
  exists s,
    dict_get "interpretation"
      (result_of (t_test_one_sample (Fixture.lib 2.5 0.01) one_score "score" 5 0.05
                    Statistics.init))
    = Some (PStr s) /\ affirms s = false.
Proof.
  exact (nan_p_value_is_never_significant (Fixture.lib 2.5 0.01)
           (T_test_one_sample one_score "score" 5 0.05) 0.05 Statistics.init _ _
           PrimFloat.nan eq_refl eq_refl eq_refl eq_refl (or_introl eq_refl)).
Defined.

(** The fields in which [correlation_analysis] describes the coefficient. *)
Definition described (L : PyLib) (alpha : float) (r : pydict) : Prop :=
  exists corr_coef p_value,
    dict_get "correlation_coefficient" r = Some (PFloat corr_coef) /\
    dict_get "p_value" r = Some (PFloat p_value) /\
    dict_get "strength" r
    = Some (PStr (_interpret_correlation_strength (PrimFloat.abs corr_coef))) /\
    dict_get "interpretation" r
    = Some (PStr (_interpret_correlation L corr_coef p_value alpha
                    (_interpret_correlation_strength (PrimFloat.abs corr_coef)))).

Lemma correlation_analysis_described L data var1 var2 method alpha :
  method_spec [three_pairs_message; invalid_method_message]
              "Error en análisis de correlación: " (described L alpha)
              (correlation_analysis L data var1 var2 method alpha).
Proof.
  unfold correlation_analysis. apply method_spec_intro; repeat final_step;
    [reflexivity | do 2 eexists; repeat split; reflexivity ..].
Qed.

(** X19: a coefficient that is not a number is described as a very strong
    negative correlation.  When the library answers NaN for the coefficient
    (as scipy does for a constant column), the result is not an error: its
    [strength] is "muy fuerte" and its interpretation speaks of a
    correlation "negativa muy fuerte", significant or not as the p-value
    says. *)
Theorem undefined_correlation_is_described_as_very_strong :
  forall (L : PyLib) (data : DataFrame) (var1 var2 method : string) (alpha : float)
         (self self' : StatisticalAnalysis) (r : pydict) (corr_coef : float),
    correlation_analysis L data var1 var2 method alpha self = (Returned r, self') ->
    is_error r = false ->
    dict_get "correlation_coefficient" r = Some (PFloat corr_coef) ->
    PrimFloat.is_nan corr_coef = true ->
    dict_get "strength" r = Some (PStr "muy fuerte") /\
    exists p_value s,
      dict_get "p_value" r = Some (PFloat p_value) /\
      dict_get "interpretation" r = Some (PStr s) /\
      String.prefix
        (if PrimFloat.ltb p_value alpha
         then "Existe una correlación negativa muy fuerte y estadísticamente significativa"
         else "La correlación negativa muy fuerte no es estadísticamente significativa")
        s = true.
Proof.
  intros L data var1 var2 method alpha self self' r corr_coef Hr He Hc Hnan.
  destruct (method_spec_success _ _ _ _ _ _ _
              (correlation_analysis_described L data var1 var2 method alpha) Hr He)
    as (c & p & Hc' & Hp & Hs & Hi).
  rewrite Hc in Hc'. injection Hc' as <-.
  assert (Hstrength : _interpret_correlation_strength (PrimFloat.abs corr_coef)
                      = "muy fuerte")
    by (unfold _interpret_correlation_strength; now rewrite !ltb_abs_nan).
  rewrite Hstrength in *. split; [exact Hs |].
  eexists p, _. split; [exact Hp |]. split; [exact Hi |].
  unfold _interpret_correlation. rewrite (ltb_nan_r 0 corr_coef Hnan).
  destruct (PrimFloat.ltb p alpha); reflexivity.
Qed.

(** A column that does not vary. *)
Definition constant_pairs : DataFrame :=
  {| n_rows := 3;
     columns := [ {| name := "x"; dtype := "float64";
                     values := [Some (SNum 1); Some (SNum 1); Some (SNum 1)] |};
                  {| name := "y"; dtype := "float64";
                     values := [Some (SNum 3); Some (SNum 5); Some (SNum 8)] |} ] |}.

Lemma undefined_correlation_is_described_as_very_strong_witness :
  dict_get "strength"
    (result_of (correlation_analysis (Fixture.lib PrimFloat.nan PrimFloat.nan)
                  constant_pairs "x" "y" "pearson" 0.05 Statistics.init))
  = Some (PStr "muy fuerte").
Proof.
  exact (proj1 (undefined_correlation_is_described_as_very_strong
                  (Fixture.lib PrimFloat.nan PrimFloat.nan) constant_pairs "x" "y"
                  "pearson" 0.05 Statistics.init _ _ PrimFloat.nan
                  eq_refl eq_refl eq_refl eq_refl)).
Defined.

(** * [create_statistical_visualizations] *)

Module Visualizations.
Import Statistics.

(** [sub in s] on two strings. *)
Fixpoint substring_of (sub s : string) : bool :=
  String.prefix sub s
  || match s with
     | EmptyString => false
     | String _ s' => substring_of sub s'
     end.

(** [sub in v], for a string [sub]: a substring of a string, an element of
    a list or tuple, a key of a dict; anything else is not iterable. *)
Definition py_in (sub : string) (v : pyval) : exn + bool :=
  match v with
  | PStr s => inr (substring_of sub s)
  | PList l | PTuple l =>
      inr (existsb (fun x => match x with PStr s => String.eqb s sub | _ => false end) l)
  | PDict d => inr (dict_has (SStr sub) d)
  | PNone => inl (TypeError "argument of type 'NoneType' is not iterable")
  | PBool _ => inl (TypeError "argument of type 'bool' is not iterable")
  | PInt _ => inl (TypeError "argument of type 'int' is not iterable")
  | PFloat _ => inl (TypeError "argument of type 'float' is not iterable")
  end.

(** [d.get(key, default)] *)
Definition get (d : pydict) (key : string) (default : pyval) : pyval :=
  match dict_get key d with
  | Some v => v
  | None => default
  end.

Section Figures.
(** The figures of plotly. *)
Context {Figure : Type}.

Definition viz := StatisticalAnalysis -> returned (option Figure) * StatisticalAnalysis.

Definition _create_t_test_viz (result : pydict) (data : option DataFrame) : viz :=
  call (return_ None).

Definition _create_anova_viz (result : pydict) (data : option DataFrame) : viz :=
  call (return_ None).

Definition _create_chi_square_viz (result : pydict) : viz :=
  call (return_ None).

Definition _create_correlation_viz (result : pydict) (data : option DataFrame) : viz :=
  call (return_ None).

Definition _create_regression_viz (result : pydict) (data : option DataFrame) : viz :=
  call (return_ None).

Definition _create_clustering_viz (result : pydict) : viz :=
  call (return_ None).

Definition create_statistical_visualizations (result : pydict) (data : option DataFrame)
  : viz :=
  call (try_except
    (let test_type := get result "test_type" (get result "analysis_type" (PStr "")) in
     is_t <- eval (py_in "Prueba t" test_type) ;;
     if is_t then
       fig <- invoke (_create_t_test_viz result data) ;; return_ fig
     else
       is_anova <- eval (py_in "ANOVA" test_type) ;;
       if is_anova then
         fig <- invoke (_create_anova_viz result data) ;; return_ fig
       else
         is_chi <- eval (py_in "chi-cuadrado" test_type) ;;
         if is_chi then
           fig <- invoke (_create_chi_square_viz result) ;; return_ fig
         else
           is_corr <- eval (py_in "Correlación" test_type) ;;
           if is_corr then
             fig <- invoke (_create_correlation_viz result data) ;; return_ fig
           else
             is_reg <- eval (py_in "Regresión" test_type) ;;
             if is_reg then
               fig <- invoke (_create_regression_viz result data) ;; return_ fig
             else
               is_clu <- eval (py_in "Clustering" test_type) ;;
               if is_clu then
                 fig <- invoke (_create_clustering_viz result) ;; return_ fig
               else return_ None)
    (fun e => return_ None)).

End Figures.
End Visualizations.

Import Visualizations.

(** X20: no figure is ever made.  Whatever the result and the table,
    [create_statistical_visualizations] returns [None] and leaves the
    history as it was: each of the six kinds of result is sent to a function
    that returns [None], a result of no known kind gets [None], and so does
    a result whose label is not a text. *)
Theorem no_visualization_is_created :
  forall (Figure : Type) (result : pydict) (data : option DataFrame)
         (self : StatisticalAnalysis),
    create_statistical_visualizations (Figure := Figure) result data self
    = (Returned None, self).
Proof.
  intros Figure result data self.
  unfold create_statistical_visualizations, call, try_except.
  set (test_type := get result "test_type" (get result "analysis_type" (PStr ""))).
  unfold bind, eval, invoke, return_, _create_t_test_viz, _create_anova_viz,
    _create_chi_square_viz, _create_correlation_viz, _create_regression_viz,
    _create_clustering_viz, call.
  repeat lazymatch goal with
         | |- context [match py_in ?sub test_type with _ => _ end] =>
             destruct (py_in sub test_type) as [e | []]
         end; reflexivity.
Qed.

(** ** The two-sample test behind the check of the dashboard *)

(** X21: the dashboard calls [t_test_two_samples] only when
    [df[group_column].nunique()] is 2, a count that leaves the missing
    values out, while the method counts them.  So behind that check the
    method returns the error about the number of groups exactly when the
    grouping column has a missing value; without one it goes on to the
    test. *)
Theorem two_sample_guard_behind_the_dashboard_check :
  forall (L : PyLib) (data : DataFrame) (column group_column : string)
         (alpha : float) (equal_var : bool) (self : StatisticalAnalysis)
         (group_col : Series),
    getitem data group_column = inr group_col ->
    nunique group_col = 2 ->
    (existsb isna (values group_col) = true <->
     t_test_two_samples L data column group_column alpha equal_var self
     = (Returned (error two_groups_message), self)) /\
    (existsb isna (values group_col) = false <-> len (unique group_col) = 2).
Proof.
  intros L data column group_column alpha equal_var self group_col Hget Hn.
  pose proof (unique_counts_missing group_col) as Hu. rewrite Hn in Hu.
  destruct (missing_kinds_bounds group_col) as [Hyes Hno].
  destruct (existsb isna (values group_col)) eqn:Hna;
    [specialize (Hyes eq_refl); clear Hno | specialize (Hno eq_refl); clear Hyes].
  - split; [| split; [discriminate | lia]].
    split; [intros _ | reflexivity].
    apply two_samples_wrong_count with (group_col := group_col); [exact Hget | lia].
  - split; [| split; [intros _; lia | reflexivity]].
    split; [discriminate |]. intros Hr. exfalso.
    destruct (two_samples_right_count L data column group_column alpha equal_var self
                group_col Hget ltac:(lia))
      as [r [[Hr' [e ->]] | (Hr' & He & _)]]; rewrite Hr in Hr'.
    + injection Hr' as Hr'. discriminate Hr'.
    + injection Hr' as <- _. discriminate He.
Qed.

Lemma two_sample_guard_behind_the_dashboard_check_witness :
  t_test_two_samples (Fixture.lib 2.5 0.01) two_classes_and_missing
    "score" "class" 0.05 true Statistics.init
  = (Returned (error two_groups_message), Statistics.init).
Proof.
  exact (proj1 (proj1 (two_sample_guard_behind_the_dashboard_check (Fixture.lib 2.5 0.01)
                         two_classes_and_missing "score" "class" 0.05 true
                         Statistics.init class_with_missing eq_refl eq_refl))
               eq_refl).
Defined.
